(** * Client-events pipeline: staging, funnel, churn and inconsistency queries

    A shallow embedding of the SQL-based feature derivation of the
    repository (src/b_staging/f_staging_events.py and src/c_features/*.py),
    and of the categories and labels that the dashboards of
    src/d_presentation compute from its tables.

    - A DataFrame or SQLite table is a list of records with its column
      labels; a NULL (NaN, NaT) is [None].
    - WHERE, CASE WHEN and ON follow SQL's three-valued logic: a comparison
      with NULL is not true.  GROUP BY and PARTITION BY put NULL keys in one
      group.
    - SQL fixes no order for the groups of a GROUP BY; they come here in
      order of first appearance, and no statement below depends on it.
    - Event dates are calendar dates, kept as day numbers.  Rates and
      julianday differences, floating-point numbers in the code, are exact
      rationals here.
    - A function that can raise returns a [result].
    - [str.title] is modelled on ASCII text; what is stated about the
      casing of plans is stated for plans that are [isascii].
    - A processor reads the table that the processor before it wrote to a
      CSV file; the file is taken to hand the table over as it is. *)

From Stdlib Require Import String Ascii ZArith List Bool Lia Permutation Sorted.
From Stdlib Require Import QArith Qround.
Import ListNotations.
Local Open Scope string_scope.
Local Open Scope Z_scope.
Set Implicit Arguments.

(** ** SQL building blocks *)

Module Sql.

(** A nullable column value. *)
Definition is_null {A} (v : option A) : bool :=
  match v with None => true | Some _ => false end.

Definition not_null {A} (v : option A) : bool := negb (is_null v).

(** [a = b] in a WHERE, ON or CASE WHEN: a comparison with NULL is not true. *)
Definition eq_z (a b : option Z) : bool :=
  match a, b with Some x, Some y => x =? y | _, _ => false end.

Definition eq_str (a : option string) (lit : string) : bool :=
  match a with Some x => String.eqb x lit | None => false end.

(** [a < b] in a CASE WHEN: not true as soon as one side is NULL. *)
Definition lt_z (a b : option Z) : bool :=
  match a, b with Some x, Some y => x <? y | _, _ => false end.

(** Grouping and partitioning compare keys with NULLs equal to each other. *)
Definition same_z (a b : option Z) : bool :=
  match a, b with
  | Some x, Some y => x =? y
  | None, None => true
  | _, _ => false
  end.

Definition same_str (a b : option string) : bool :=
  match a, b with
  | Some x, Some y => String.eqb x y
  | None, None => true
  | _, _ => false
  end.

(** ORDER BY on a nullable integer column, ascending: NULLs sort first. *)
Definition le_z (a b : option Z) : bool :=
  match a, b with
  | None, _ => true
  | Some _, None => false
  | Some x, Some y => x <=? y
  end.

(** MIN and MAX skip NULLs and are NULL on no value at all. *)
Fixpoint sql_min (l : list (option Z)) : option Z :=
  match l with
  | [] => None
  | None :: l' => sql_min l'
  | Some x :: l' =>
      match sql_min l' with
      | None => Some x
      | Some m => Some (Z.min x m)
      end
  end.

Fixpoint sql_max (l : list (option Z)) : option Z :=
  match l with
  | [] => None
  | None :: l' => sql_max l'
  | Some x :: l' =>
      match sql_max l' with
      | None => Some x
      | Some m => Some (Z.max x m)
      end
  end.

(** COUNT(expr): the number of non-NULL values. *)
Definition sql_count {A} (l : list (option A)) : Z :=
  Z.of_nat (length (filter not_null l)).

Section Generic.
Variables (R K : Type).
Variable same : K -> K -> bool.
Variable key : R -> K.

(** The distinct values of a list, in order of first appearance. *)
Fixpoint distinct (l : list K) : list K :=
  match l with
  | [] => []
  | k :: l' => k :: filter (fun k' => negb (same k k')) (distinct l')
  end.

Definition rows_of (k : K) (rows : list R) : list R :=
  filter (fun r => same (key r) k) rows.

(** GROUP BY key: one group per distinct key value.  SQL leaves the order
    of the groups open; here they come in order of first appearance. *)
Definition group_by (rows : list R) : list (K * list R) :=
  map (fun k => (k, rows_of k rows)) (distinct (map key rows)).

Variable le : R -> R -> bool.

(** ORDER BY: a stable insertion sort. *)
Fixpoint insert (x : R) (l : list R) : list R :=
  match l with
  | [] => [x]
  | y :: l' => if le x y then x :: y :: l' else y :: insert x l'
  end.

Fixpoint order_by (l : list R) : list R :=
  match l with
  | [] => []
  | x :: l' => insert x (order_by l')
  end.

(** Numbering of the rows of one window partition, from [n] on. *)
Fixpoint number_from (n : Z) (l : list R) : list (R * Z) :=
  match l with
  | [] => []
  | x :: l' => (x, n) :: number_from (n + 1) l'
  end.

(** ROW_NUMBER() OVER (PARTITION BY key ORDER BY le): the rows of every
    partition in the order of ORDER BY, rows that tie in input order,
    numbered from 1. *)
Definition row_number (rows : list R) : list (R * Z) :=
  flat_map (fun g => number_from 1 (order_by (snd g))) (group_by rows).
End Generic.

(** The integers n, n+1, ..., n+len-1. *)
Fixpoint zseq (n : Z) (len : nat) : list Z :=
  match len with
  | O => []
  | S len' => n :: zseq (n + 1) len'
  end.

(** a LEFT JOIN b ON on: every match of a left row, or the left row once
    with a NULL right side when nothing matches. *)
Definition left_join {L R} (on : L -> R -> bool)
    (l : list L) (r : list R) : list (L * option R) :=
  flat_map (fun a =>
              match filter (on a) r with
              | [] => [(a, None)]
              | matches => map (fun b => (a, Some b)) matches
              end) l.

(** A pandas DataFrame: its column labels and its rows. *)
Record DataFrame (R : Type) := mkFrame {
  columns : list string;
  rows :> list R
}.

(** [pd.read_sql_query]: the labels are those of the SELECT list. *)
Definition read_sql_query {R} (select_list : list string) (result : list R)
  : DataFrame R := mkFrame select_list result.

(** [df.empty] *)
Definition empty {R} (df : DataFrame R) : bool :=
  match rows df with [] => true | _ => false end.

(** A call either returns or raises. *)
Inductive result (A : Type) : Type :=
| Ok (a : A)
| Raise (message : string).
Arguments Raise {A} message.

(** Dates are day numbers counted from 1970-01-01.  SQLite's julianday of
    such a date (at midnight) is a half-integer, so the differences taken
    by the queries are exact; they are computed here in Q. *)
Definition julianday (d : Z) : Q := inject_Z d + (4881175 # 2).

(** The day number of a calendar date, by SQLite's computeJD. *)
Definition date_of_ymd (year month day : Z) : Z :=
  let Y := if month <=? 2 then year - 1 else year in
  let M := if month <=? 2 then month + 12 else month in
  let A := Y / 100 in
  let B := 2 - A + A / 4 in
  let X1 := 36525 * (Y + 4716) / 100 in
  let X2 := 306001 * (M + 1) / 10000 in
  X1 + X2 + day + B - 1524 - 2440588.

(** CAST(x AS INTEGER): truncation towards zero. *)
Definition cast_integer (x : Q) : Z := Z.quot (Qnum x) (Z.pos (Qden x)).

Definition opt_map2 {A B C} (f : A -> B -> C) (a : option A) (b : option B)
  : option C :=
  match a, b with Some x, Some y => Some (f x y) | _, _ => None end.

End Sql.

(** ** Staging: src/b_staging/f_staging_events.py *)

Module Staging.
Import Sql.

(** A row of [self.df] after [validate_and_cast_schema]: dates are day
    numbers (the input carries calendar dates), an unparseable date or
    number is NULL. *)
Record Event := mkEvent {
  record_id : option Z;
  client_id : option Z;
  event_type : option string;
  event_date : option Z;
  plan : option string;
  region : option string;
  marketing_channel : option string;
  sales_rep_id : option Z;
  source_system : option string
}.

(** A row of the staging table: the nine columns and [event_rank]. *)
Record StagedEvent := mkStaged {
  event :> Event;
  event_rank : Z
}.

Definition is_lower (c : ascii) : bool :=
  let n := nat_of_ascii c in (97 <=? n)%nat && (n <=? 122)%nat.
Definition is_upper (c : ascii) : bool :=
  let n := nat_of_ascii c in (65 <=? n)%nat && (n <=? 90)%nat.
Definition to_upper (c : ascii) : ascii :=
  if is_lower c then ascii_of_nat (nat_of_ascii c - 32) else c.
Definition to_lower (c : ascii) : ascii :=
  if is_upper c then ascii_of_nat (nat_of_ascii c + 32) else c.

(** [str.isascii]: every byte of the text is below 128. *)
Fixpoint isascii (s : string) : bool :=
  match s with
  | EmptyString => true
  | String c s' => (nat_of_ascii c <? 128)%nat && isascii s'
  end.

(** Python's [str.title] on ASCII text: a cased character is upper-cased
    when the one before it is not cased, lower-cased otherwise.  Only the
    letters a-z and A-Z are cased here.  Python cases the other characters
    by the Unicode tables, which are not part of this development: on a
    text that is not [isascii] the result of [str.title] can differ from
    [title], and what is stated below about the casing is stated for ASCII
    plans. *)
Fixpoint title_from (previous_is_cased : bool) (s : string) : string :=
  match s with
  | EmptyString => EmptyString
  | String c s' =>
      if is_lower c then
        String (if previous_is_cased then c else to_upper c)
               (title_from true s')
      else if is_upper c then
        String (if previous_is_cased then to_lower c else c)
               (title_from true s')
      else String c (title_from false s')
  end.

Definition title (s : string) : string := title_from false s.

Definition fillna {A} (default : A) (v : option A) : A :=
  match v with Some x => x | None => default end.

Definition fill_missing_values_row (e : Event) : Event :=
  {| record_id := record_id e;
     client_id := client_id e;
     event_type := event_type e;
     event_date := event_date e;
     plan := Some (title (fillna "unknown" (plan e)));
     region := region e;
     marketing_channel := Some (fillna "unknown" (marketing_channel e));
     sales_rep_id := Some (fillna (-1) (sales_rep_id e));
     source_system := Some (fillna "unknown" (source_system e)) |}.

Definition fill_missing_values (df : list Event) : list Event :=
  map fill_missing_values_row df.

(** PARTITION BY client_id, event_type. *)
Definition partition_key (e : Event) : option Z * option string :=
  (client_id e, event_type e).

Definition same_partition (k k' : option Z * option string) : bool :=
  same_z (fst k) (fst k') && same_str (snd k) (snd k').

(** ORDER BY event_date. *)
Definition by_event_date (a b : Event) : bool :=
  le_z (event_date a) (event_date b).

Definition staging_columns : list string :=
  ["record_id"; "client_id"; "event_type"; "event_date"; "plan"; "region";
   "marketing_channel"; "sales_rep_id"; "source_system"; "event_rank"].

(** WHERE event_date IS NOT NULL *)
Definition dated (raw_events : list Event) : list Event :=
  filter (fun e => not_null (event_date e)) raw_events.

Definition create_staging_table (raw_events : list Event)
  : DataFrame StagedEvent :=
  read_sql_query staging_columns
    (map (fun p => mkStaged (fst p) (snd p))
       (row_number same_partition partition_key by_event_date
          (dated raw_events))).

(** The rows of one (client_id, event_type) partition of a staging table. *)
Definition partition_rows (k : option Z * option string)
    (st : list StagedEvent) : list StagedEvent :=
  filter (fun s : StagedEvent => same_partition (partition_key s) k) st.

(** The guarantee of the ranker on a staging table: no date is missing, and
    in every partition the ranks are 1..N and follow the dates. *)
Definition ranker_invariant (st : list StagedEvent) : Prop :=
  (forall s : StagedEvent, In s st -> event_date s <> None) /\
  forall k,
    Permutation (map event_rank (partition_rows k st))
                (zseq 1 (length (partition_rows k st))) /\
    forall a b : StagedEvent,
      In a (partition_rows k st) -> In b (partition_rows k st) ->
      event_rank a < event_rank b ->
      le_z (event_date a) (event_date b) = true.

End Staging.

(** ** Funnel: src/c_features/f_funnel_data.py *)

Module Funnel.
Import Sql Staging.

Record FunnelRecord := mkFunnel {
  client_id : option Z;
  applied_date : option Z;
  docs_submitted_date : option Z;
  rejected_date : option Z;
  signed_date : option Z;
  churned_date : option Z
}.

(** CASE WHEN event_type = t THEN event_date END *)
Definition date_when (t : string) (s : StagedEvent) : option Z :=
  if eq_str (event_type s) t then event_date s else None.

Definition funnel_columns : list string :=
  ["client_id"; "applied_date"; "docs_submitted_date"; "rejected_date";
   "signed_date"; "churned_date"].

Definition funnel_row (g : option Z * list StagedEvent) : FunnelRecord :=
  {| client_id := fst g;
     applied_date := sql_min (map (date_when "applied") (snd g));
     docs_submitted_date := sql_min (map (date_when "docs_submitted") (snd g));
     rejected_date := sql_min (map (date_when "rejected") (snd g));
     signed_date := sql_min (map (date_when "signed") (snd g));
     churned_date := sql_min (map (date_when "churned") (snd g)) |}.

Definition create_funnel_analysis (f_staging_events : list StagedEvent)
  : DataFrame FunnelRecord :=
  read_sql_query funnel_columns
    (map funnel_row
       (group_by same_z (fun s : StagedEvent => Staging.client_id s)
          (filter (fun s => event_rank s =? 1) f_staging_events))).

(** The same aggregation with event_rank ignored: MIN is taken over all the
    rows of the client, as the specification words the equivalent query. *)
Definition funnel_min_over_all_rows (f_staging_events : list StagedEvent)
  : DataFrame FunnelRecord :=
  read_sql_query funnel_columns
    (map funnel_row
       (group_by same_z (fun s : StagedEvent => Staging.client_id s)
          f_staging_events)).

Record Metrics := mkMetrics {
  total_clients : Z;
  applied_clients : Z;
  docs_submitted_clients : Z;
  rejected_clients : Z;
  signed_clients : Z;
  churned_clients : Z;
  application_rate : Q;
  docs_submission_rate : Q;
  rejection_rate : Q;
  conversion_rate : Q;
  churn_rate : Q;
  active_clients : Z
}.

(** [funnel_df[col].notna().sum()] *)
Definition notna_sum (col : FunnelRecord -> option Z)
    (funnel_df : list FunnelRecord) : Z :=
  Z.of_nat (length (filter (fun r => not_null (col r)) funnel_df)).

(** [num / den if den > 0 else 0] *)
Definition guarded_div (num den : Z) : Q :=
  if den >? 0 then (inject_Z num / inject_Z den)%Q else 0%Q.

Definition analyze_funnel_metrics (funnel_df : list FunnelRecord) : Metrics :=
  let total := Z.of_nat (length funnel_df) in
  let applied := notna_sum applied_date funnel_df in
  let docs_submitted := notna_sum docs_submitted_date funnel_df in
  let rejected := notna_sum rejected_date funnel_df in
  let signed := notna_sum signed_date funnel_df in
  let churned := notna_sum churned_date funnel_df in
  {| total_clients := total;
     applied_clients := applied;
     docs_submitted_clients := docs_submitted;
     rejected_clients := rejected;
     signed_clients := signed;
     churned_clients := churned;
     application_rate := guarded_div applied total;
     docs_submission_rate := guarded_div docs_submitted applied;
     rejection_rate := guarded_div rejected applied;
     conversion_rate := guarded_div signed applied;
     churn_rate := guarded_div churned signed;
     active_clients := if signed >=? churned then signed - churned else 0 |}.

End Funnel.

(** ** Churn: src/c_features/f_churn_data.py *)

Module Churn.
Import Sql Staging.

(** A row of the CTE last_events. *)
Record LastEvents := mkLast {
  le_client_id : option Z;
  le_last_event_date : option Z;
  le_applied_date : option Z;
  le_signed_date : option Z;
  le_churned_date : option Z
}.

Record ChurnRecord := mkChurn {
  client_id : option Z;
  last_event_date : option Z;
  applied_date : option Z;
  signed_date : option Z;
  churned_date : option Z;
  last_event_type : option string;
  is_churned : Z;
  days_since_last_event : option Q;
  days_since_signed : option Q
}.

Definition date_when (t : string) (s : StagedEvent) : option Z :=
  if eq_str (event_type s) t then event_date s else None.

Definition last_events (f_staging_events : list StagedEvent)
  : list LastEvents :=
  map (fun g : option Z * list StagedEvent =>
         {| le_client_id := fst g;
            le_last_event_date :=
              sql_max (map (fun s : StagedEvent => event_date s) (snd g));
            le_applied_date := sql_max (map (date_when "applied") (snd g));
            le_signed_date := sql_max (map (date_when "signed") (snd g));
            le_churned_date := sql_max (map (date_when "churned") (snd g)) |})
      (group_by same_z (fun s : StagedEvent => Staging.client_id s)
         f_staging_events).

(** ON le.client_id = se.client_id AND le.last_event_date = se.event_date
       AND se.event_rank = 1 *)
Definition join_on (le : LastEvents) (se : StagedEvent) : bool :=
  eq_z (le_client_id le) (Staging.client_id se)
  && eq_z (le_last_event_date le) (event_date se)
  && (event_rank se =? 1).

Definition last_event_details (f_staging_events : list StagedEvent)
  : list (LastEvents * option string) :=
  map (fun p : LastEvents * option StagedEvent =>
         (fst p,
          match snd p with
          | Some se => event_type se
          | None => None
          end))
      (left_join join_on (last_events f_staging_events) f_staging_events).

Definition churn_columns : list string :=
  ["client_id"; "last_event_date"; "applied_date"; "signed_date";
   "churned_date"; "last_event_type"; "is_churned"; "days_since_last_event";
   "days_since_signed"].

(** [now] is julianday('now'). *)
Definition churn_row (now : Q) (p : LastEvents * option string) : ChurnRecord :=
  let le := fst p in
  {| client_id := le_client_id le;
     last_event_date := le_last_event_date le;
     applied_date := le_applied_date le;
     signed_date := le_signed_date le;
     churned_date := le_churned_date le;
     last_event_type := snd p;
     is_churned := if not_null (le_churned_date le) then 1 else 0;
     days_since_last_event :=
       option_map (fun d => (now - julianday d)%Q) (le_last_event_date le);
     days_since_signed :=
       option_map (fun d => (now - julianday d)%Q) (le_signed_date le) |}.

Definition create_churn_analysis (now : Q) (f_staging_events : list StagedEvent)
  : DataFrame ChurnRecord :=
  read_sql_query churn_columns
    (map (churn_row now) (last_event_details f_staging_events)).

End Churn.

(** ** Inconsistencies: src/c_features/f_inconsistencies.py *)

Module Inconsistencies.
Import Sql Staging.

Definition by_client (s : StagedEvent) : option Z := Staging.client_id s.

(** COUNT(CASE WHEN event_type = t THEN 1 END) *)
Definition count_when (t : string) (g : list StagedEvent) : Z :=
  sql_count (map (fun s : StagedEvent =>
                    if eq_str (event_type s) t then Some 1 else None) g).

(** MIN(CASE WHEN event_type = t THEN event_date END) *)
Definition first_date_when (t : string) (g : list StagedEvent) : option Z :=
  sql_min (map (fun s : StagedEvent =>
                  if eq_str (event_type s) t then event_date s else None) g).

Definition all_dates (g : list StagedEvent) : list (option Z) :=
  map (fun s : StagedEvent => event_date s) g.

(** *** Q3: churned without signed *)

Record ChurnedWithoutSigned := mkQ3 {
  q3_client_id : option Z;
  q3_inconsistency_type : string;
  q3_description : string;
  q3_relevant_date : option Z;
  q3_signed_count : Z;
  q3_churned_count : Z
}.

Definition q3_columns : list string :=
  ["client_id"; "inconsistency_type"; "description"; "relevant_date";
   "signed_count"; "churned_count"].

Definition analyze_churned_without_signed (f_staging_events : list StagedEvent)
  : DataFrame ChurnedWithoutSigned :=
  let client_events :=
    map (fun g : option Z * list StagedEvent =>
           (fst g, count_when "signed" (snd g), count_when "churned" (snd g),
            first_date_when "churned" (snd g)))
        (group_by same_z by_client f_staging_events) in
  read_sql_query q3_columns
    (map (fun r => match r with
                   | (c, signed_count, churned_count, first_churn_date) =>
                       mkQ3 c "Q3_churned_without_signed"
                            "Client churned without ever signing"
                            first_churn_date signed_count churned_count
                   end)
       (filter (fun r => match r with
                         | (_, signed_count, churned_count, _) =>
                             (churned_count >? 0) && (signed_count =? 0)
                         end)
          client_events)).

(** *** Q6: long inactive and unsigned *)

Record LongInactiveUnsigned := mkQ6 {
  q6_client_id : option Z;
  q6_inconsistency_type : string;
  q6_description : string;
  q6_relevant_date : option Z;
  q6_days_inactive : option Z;
  q6_signed_count : Z
}.

Definition q6_columns : list string :=
  ["client_id"; "inconsistency_type"; "description"; "relevant_date";
   "days_inactive"; "signed_count"].

Definition q6_description_text : string :=
  "Unsigned client with long inactivity (>60 days) - potential at-risk".

(** days_since_last_event > 60, not true on NULL *)
Definition gt_60 (days : option Q) : bool :=
  match days with
  | Some d => match (d ?= 60)%Q with Gt => true | _ => false end
  | None => false
  end.

Definition analyze_long_inactive_unsigned (now : Q)
    (f_staging_events : list StagedEvent) : DataFrame LongInactiveUnsigned :=
  let client_activity :=
    map (fun g : option Z * list StagedEvent =>
           let last_event_date := sql_max (all_dates (snd g)) in
           (fst g, last_event_date, count_when "signed" (snd g),
            option_map (fun d => (now - julianday d)%Q) last_event_date))
        (group_by same_z by_client f_staging_events) in
  read_sql_query q6_columns
    (map (fun r => match r with
                   | (c, last_event_date, signed_count, days_since) =>
                       mkQ6 c "Q6_long_inactive_unsigned" q6_description_text
                            last_event_date
                            (option_map cast_integer days_since)
                            signed_count
                   end)
       (filter (fun r => match r with
                         | (_, _, signed_count, days_since_last_event) =>
                             (signed_count =? 0) && gt_60 days_since_last_event
                         end)
          client_activity)).

(** *** Q2: signed without applied *)

Record SignedWithoutApplied := mkQ2 {
  q2_client_id : option Z;
  q2_inconsistency_type : string;
  q2_description : string;
  q2_relevant_date : option Z;
  q2_applied_count : Z;
  q2_signed_count : Z
}.

Definition q2_columns : list string :=
  ["client_id"; "inconsistency_type"; "description"; "relevant_date";
   "applied_count"; "signed_count"].

Definition analyze_signed_without_applied (f_staging_events : list StagedEvent)
  : DataFrame SignedWithoutApplied :=
  let client_events :=
    map (fun g : option Z * list StagedEvent =>
           (fst g, count_when "applied" (snd g), count_when "signed" (snd g),
            first_date_when "signed" (snd g)))
        (group_by same_z by_client f_staging_events) in
  read_sql_query q2_columns
    (map (fun r => match r with
                   | (c, applied_count, signed_count, first_signed_date) =>
                       mkQ2 c "Q2_signed_without_applied"
                            "Client signed without applying first"
                            first_signed_date applied_count signed_count
                   end)
       (filter (fun r => match r with
                         | (_, applied_count, signed_count, _) =>
                             (signed_count >? 0) && (applied_count =? 0)
                         end)
          client_events)).

(** *** Unknown values (one finding per staged row) *)

Record UnknownValues := mkUnknown {
  uv_client_id : option Z;
  uv_record_id : option Z;
  uv_event_type : option string;
  uv_event_date : option Z;
  uv_inconsistency_type : string;
  uv_description : string;
  uv_plan : option string;
  uv_sales_rep_id : option Z;
  uv_region : option string;
  uv_marketing_channel : option string;
  uv_source_system : option string
}.

Definition unknown_columns : list string :=
  ["client_id"; "record_id"; "event_type"; "event_date";
   "inconsistency_type"; "description"; "plan"; "sales_rep_id"; "region";
   "marketing_channel"; "source_system"].

(** col IS NULL OR col = '' *)
Definition null_or_empty (v : option string) : bool :=
  is_null v || eq_str v "".

Definition unknown_where (e : Event) : bool :=
  eq_str (plan e) "Unknown"
  || eq_z (sales_rep_id e) (Some (-1))
  || null_or_empty (region e)
  || null_or_empty (marketing_channel e)
  || null_or_empty (source_system e).

Definition unknown_description (e : Event) : string :=
  if eq_str (plan e) "Unknown" then "Plan field has Unknown value"
  else if eq_z (sales_rep_id e) (Some (-1)) then
    "Sales rep ID is -1 (missing/unknown)"
  else if null_or_empty (region e) then "Region field is missing"
  else if null_or_empty (marketing_channel e) then
    "Marketing channel is missing"
  else if null_or_empty (source_system e) then "Source system is missing"
  else "Other unknown value detected".

Definition unknown_finding (e : Event) : UnknownValues :=
  {| uv_client_id := Staging.client_id e;
     uv_record_id := record_id e;
     uv_event_type := event_type e;
     uv_event_date := event_date e;
     uv_inconsistency_type := "unknown_values";
     uv_description := unknown_description e;
     uv_plan := plan e;
     uv_sales_rep_id := sales_rep_id e;
     uv_region := region e;
     uv_marketing_channel := marketing_channel e;
     uv_source_system := source_system e |}.

(** ORDER BY a, b on two nullable integer columns. *)
Definition le_z2 (a b : option Z * option Z) : bool :=
  if same_z (fst a) (fst b) then le_z (snd a) (snd b) else le_z (fst a) (fst b).

Definition analyze_unknown_values (f_staging_events : list StagedEvent)
  : DataFrame UnknownValues :=
  read_sql_query unknown_columns
    (order_by (fun a b => le_z2 (uv_client_id a, uv_event_date a)
                                (uv_client_id b, uv_event_date b))
       (map (fun s : StagedEvent => unknown_finding s)
          (filter (fun s : StagedEvent => unknown_where s) f_staging_events))).

(** *** Event sequence violations *)

Record SequenceViolation := mkSeq {
  sv_client_id : option Z;
  sv_inconsistency_type : string;
  sv_description : string;
  sv_violation_type : option string;
  sv_first_applied_date : option Z;
  sv_first_signed_date : option Z;
  sv_first_docs_date : option Z;
  sv_first_rejected_date : option Z;
  sv_first_churned_date : option Z
}.

Definition sequence_columns : list string :=
  ["client_id"; "inconsistency_type"; "description"; "violation_type";
   "first_applied_date"; "first_signed_date"; "first_docs_date";
   "first_rejected_date"; "first_churned_date"].

(** One date is known to come before another: both are present and the
    first is the earlier one. *)
Definition precedes (a b : option Z) : Prop :=
  exists x y, a = Some x /\ b = Some y /\ x < y.

(** The CASE of the CTE violations. *)
Definition violation_type_of
    (first_applied first_signed first_docs first_rejected first_churned
       : option Z) : option string :=
  if lt_z first_signed first_applied then Some "signed_before_applied"
  else if lt_z first_docs first_applied then
    Some "docs_submitted_before_applied"
  else if lt_z first_rejected first_applied then
    Some "rejected_before_applied"
  else if not_null first_churned && not_null first_signed
          && lt_z first_churned first_signed then
    Some "churned_before_signed"
  else None.

Definition violation_description (violation_type : option string) : string :=
  if eq_str violation_type "signed_before_applied" then
    "Client signed before applying"
  else if eq_str violation_type "docs_submitted_before_applied" then
    "Client submitted docs before applying"
  else if eq_str violation_type "rejected_before_applied" then
    "Client was rejected before applying"
  else if eq_str violation_type "churned_before_signed" then
    "Client churned before signing"
  else "Unknown sequence violation".

Definition violation_row (g : option Z * list StagedEvent)
  : SequenceViolation :=
  let first_applied := first_date_when "applied" (snd g) in
  let first_signed := first_date_when "signed" (snd g) in
  let first_docs := first_date_when "docs_submitted" (snd g) in
  let first_rejected := first_date_when "rejected" (snd g) in
  let first_churned := first_date_when "churned" (snd g) in
  let violation_type :=
    violation_type_of first_applied first_signed first_docs first_rejected
      first_churned in
  mkSeq (fst g) "sequence_violation" (violation_description violation_type)
        violation_type first_applied first_signed first_docs first_rejected
        first_churned.

Definition analyze_event_sequence_violations
    (f_staging_events : list StagedEvent) : DataFrame SequenceViolation :=
  read_sql_query sequence_columns
    (order_by (fun a b => le_z (sv_client_id a) (sv_client_id b))
       (filter (fun r => not_null (sv_violation_type r))
          (map violation_row (group_by same_z by_client f_staging_events)))).

(** *** docs_submitted pattern *)

Record DocsPattern := mkDocs {
  dp_client_id : option Z;
  dp_inconsistency_type : string;
  dp_description : string;
  dp_applied_count : Z;
  dp_docs_count : Z;
  dp_signed_count : Z;
  dp_rejected_count : Z;
  dp_first_applied : option Z;
  dp_first_signed : option Z
}.

Definition docs_columns : list string :=
  ["client_id"; "inconsistency_type"; "description"; "applied_count";
   "docs_count"; "signed_count"; "rejected_count"; "first_applied";
   "first_signed"].

Definition docs_description (applied_count docs_count signed_count
                               rejected_count : Z) : string :=
  if (applied_count >? 0) && (docs_count =? 0) && (signed_count >? 0) then
    "Applied and signed without docs submission"
  else if (applied_count >? 0) && (docs_count =? 0) && (signed_count =? 0)
          && (rejected_count =? 0) then
    "Applied but no docs submission (still pending?)"
  else if docs_count >? 0 then "Has docs submission event"
  else "Other pattern".

Definition docs_row (g : option Z * list StagedEvent) : DocsPattern :=
  let applied_count := count_when "applied" (snd g) in
  let docs_count := count_when "docs_submitted" (snd g) in
  let signed_count := count_when "signed" (snd g) in
  let rejected_count := count_when "rejected" (snd g) in
  mkDocs (fst g) "docs_submitted_analysis"
         (docs_description applied_count docs_count signed_count
            rejected_count)
         applied_count docs_count signed_count rejected_count
         (first_date_when "applied" (snd g))
         (first_date_when "signed" (snd g)).

(** The first key of the ORDER BY. *)
Definition docs_order (r : DocsPattern) : Z :=
  if dp_docs_count r >? 0 then 1
  else if (dp_signed_count r >? 0) && (dp_docs_count r =? 0) then 2
  else 3.

Definition analyze_docs_submitted_pattern
    (f_staging_events : list StagedEvent) : DataFrame DocsPattern :=
  read_sql_query docs_columns
    (order_by (fun a b =>
                 if docs_order a =? docs_order b
                 then le_z (dp_client_id a) (dp_client_id b)
                 else docs_order a <=? docs_order b)
       (filter (fun r => dp_applied_count r >? 0)
          (map docs_row (group_by same_z by_client f_staging_events)))).

(** *** Plan inconsistencies *)

Record PlanInconsistency := mkPlan {
  pi_client_id : option Z;
  pi_inconsistency_type : string;
  pi_description : string;
  pi_unique_plans : Z;
  pi_all_plans : option string;
  pi_first_event : option Z;
  pi_last_event : option Z
}.

Definition plan_columns : list string :=
  ["client_id"; "inconsistency_type"; "description"; "unique_plans";
   "all_plans"; "first_event"; "last_event"].

Fixpoint non_null {A} (l : list (option A)) : list A :=
  match l with
  | [] => []
  | Some x :: l' => x :: non_null l'
  | None :: l' => non_null l'
  end.

(** The values aggregated by COUNT(DISTINCT col) and by
    GROUP_CONCAT(DISTINCT col). *)
Definition distinct_text (l : list (option string)) : list string :=
  distinct String.eqb (non_null l).

(** GROUP_CONCAT: comma-separated, NULL when there is no value. *)
Definition group_concat (l : list string) : option string :=
  match l with
  | [] => None
  | _ => Some (String.concat "," l)
  end.

Definition plan_row (g : option Z * list StagedEvent) : PlanInconsistency :=
  let plans := distinct_text (map (fun s : StagedEvent => plan s) (snd g)) in
  mkPlan (fst g) "plan_inconsistency"
         "Client has multiple different plans across events"
         (Z.of_nat (length plans)) (group_concat plans)
         (sql_min (all_dates (snd g))) (sql_max (all_dates (snd g))).

Definition analyze_plan_inconsistencies
    (f_staging_events : list StagedEvent) : DataFrame PlanInconsistency :=
  read_sql_query plan_columns
    (order_by (fun a b =>
                 if pi_unique_plans a =? pi_unique_plans b
                 then le_z (pi_client_id a) (pi_client_id b)
                 else pi_unique_plans b <=? pi_unique_plans a)
       (filter (fun r => pi_unique_plans r >? 1)
          (map plan_row (group_by same_z by_client f_staging_events)))).

(** *** Q1: multiple applications *)

Record MultipleApplications := mkQ1 {
  q1_client_id : option Z;
  q1_inconsistency_type : string;
  q1_description : string;
  q1_relevant_date : option Z;
  q1_application_count : Z;
  q1_date_range_days : option Z
}.

Definition q1_columns : list string :=
  ["client_id"; "inconsistency_type"; "description"; "relevant_date";
   "application_count"; "date_range_days"].

Definition is_applied (s : StagedEvent) : bool :=
  eq_str (event_type s) "applied".

(** multiple_apps_query: the clients with more than one row among the
    applied rows (HAVING COUNT > 1). *)
Definition multiple_apps (f_staging_events : list StagedEvent)
  : list (option Z * Z) :=
  filter (fun r => snd r >? 1)
    (map (fun g : option Z * list StagedEvent =>
            (fst g, Z.of_nat (length (snd g))))
       (group_by same_z by_client (filter is_applied f_staging_events))).

(** [','.join(map(str, client_ids))] spliced into IN (...): an integer id
    prints as a number; a missing id prints as [nan] (or [None]), which
    SQLite reads as a column name that does not exist, so that the detail
    query is rejected and the call raises. *)
Definition client_ids_str (client_ids : list (option Z)) : result (list Z) :=
  if existsb is_null client_ids then Raise "no such column: nan"
  else Ok (non_null client_ids).

(** client_id IN (...) *)
Definition in_list (v : option Z) (ids : list Z) : bool :=
  existsb (fun i => eq_z v (Some i)) ids.

Definition detail_row (g : option Z * list StagedEvent)
  : MultipleApplications :=
  let first_application := sql_min (all_dates (snd g)) in
  let last_application := sql_max (all_dates (snd g)) in
  let date_range_days :=
    opt_map2 Qminus (option_map julianday last_application)
      (option_map julianday first_application) in
  mkQ1 (fst g) "Q1_multiple_applications"
       "Client has multiple application events"
       first_application (Z.of_nat (length (snd g)))
       (option_map cast_integer date_range_days).

Definition analyze_multiple_applications
    (f_staging_events : list StagedEvent)
  : result (DataFrame MultipleApplications) :=
  let multiple_apps_df := multiple_apps f_staging_events in
  match multiple_apps_df with
  | [] => Ok (mkFrame q1_columns [])
  | _ =>
      match client_ids_str (map fst multiple_apps_df) with
      | Raise message => Raise message
      | Ok client_ids =>
          Ok (read_sql_query q1_columns
                (map detail_row
                   (group_by same_z by_client
                      (filter (fun s : StagedEvent =>
                                 is_applied s
                                 && in_list (Staging.client_id s) client_ids)
                         f_staging_events))))
      end
  end.

(** The applied events of one client, as the staging table holds them. *)
Definition applied_events (c : option Z) (f_staging_events : list StagedEvent)
  : list StagedEvent :=
  filter (fun s : StagedEvent =>
            is_applied s && same_z (Staging.client_id s) c)
    f_staging_events.

(** *** Event type distribution (a summary of its own) *)

Record EventTypeDistribution := mkDist {
  etd_event_type : option string;
  etd_event_count : Z;
  etd_unique_clients : Z;
  etd_earliest_date : option Z;
  etd_latest_date : option Z;
  etd_avg_sales_rep_id : option Q;
  etd_plans_involved : option string;
  etd_regions_involved : option string
}.

Definition distribution_columns : list string :=
  ["event_type"; "event_count"; "unique_clients"; "earliest_date";
   "latest_date"; "avg_sales_rep_id"; "plans_involved"; "regions_involved"].

(** AVG over the non-NULL values, NULL when there is none. *)
Definition sql_avg (l : list (option Z)) : option Q :=
  match non_null l with
  | [] => None
  | v => Some (Qdiv (inject_Z (fold_right Z.add 0 v))
                    (inject_Z (Z.of_nat (length v))))
  end.

(** ROUND(x, 2), halves away from zero. *)
Definition round2 (x : Q) : Q :=
  let n := 200 * Z.abs (Qnum x) + Z.pos (Qden x) in
  let r := n / (2 * Z.pos (Qden x)) in
  ((if Qnum x <? 0 then - r else r) # 100).

Definition distribution_row (g : option string * list StagedEvent)
  : EventTypeDistribution :=
  mkDist (fst g) (Z.of_nat (length (snd g)))
         (Z.of_nat (length (distinct Z.eqb (non_null (map by_client (snd g))))))
         (sql_min (all_dates (snd g))) (sql_max (all_dates (snd g)))
         (option_map round2
            (sql_avg (map (fun s : StagedEvent => sales_rep_id s) (snd g))))
         (group_concat
            (distinct_text (map (fun s : StagedEvent => plan s) (snd g))))
         (group_concat
            (distinct_text (map (fun s : StagedEvent => region s) (snd g)))).

Definition analyze_event_type_distribution
    (f_staging_events : list StagedEvent) : DataFrame EventTypeDistribution :=
  read_sql_query distribution_columns
    (order_by (fun a b => etd_event_count b <=? etd_event_count a)
       (map distribution_row
          (group_by same_str (fun s : StagedEvent => event_type s)
             f_staging_events))).

(** *** The combined findings table *)

(** A row of the combined table: the finding of one of the rule-checks;
    the columns of the other checks are empty in it. *)
Inductive Finding : Type :=
| OfQ3 (r : ChurnedWithoutSigned)
| OfQ6 (r : LongInactiveUnsigned)
| OfQ2 (r : SignedWithoutApplied)
| OfQ1 (r : MultipleApplications)
| OfUnknown (r : UnknownValues)
| OfSequence (r : SequenceViolation)
| OfDocs (r : DocsPattern)
| OfPlan (r : PlanInconsistency).

Definition finding_client_id (f : Finding) : option Z :=
  match f with
  | OfQ3 r => q3_client_id r
  | OfQ6 r => q6_client_id r
  | OfQ2 r => q2_client_id r
  | OfQ1 r => q1_client_id r
  | OfUnknown r => uv_client_id r
  | OfSequence r => sv_client_id r
  | OfDocs r => dp_client_id r
  | OfPlan r => pi_client_id r
  end.

Definition finding_inconsistency_type (f : Finding) : string :=
  match f with
  | OfQ3 r => q3_inconsistency_type r
  | OfQ6 r => q6_inconsistency_type r
  | OfQ2 r => q2_inconsistency_type r
  | OfQ1 r => q1_inconsistency_type r
  | OfUnknown r => uv_inconsistency_type r
  | OfSequence r => sv_inconsistency_type r
  | OfDocs r => dp_inconsistency_type r
  | OfPlan r => pi_inconsistency_type r
  end.

(** The key the findings table is said to have. *)
Definition finding_key (f : Finding) : option Z * string :=
  (finding_client_id f, finding_inconsistency_type f).

(** The findings of the checks that group by client: all but the
    unknown_values check, which reports staged rows. *)
Definition per_client (f : Finding) : bool :=
  negb (String.eqb (finding_inconsistency_type f) "unknown_values").

Definition as_findings {R} (tag : R -> Finding) (df : DataFrame R)
  : DataFrame Finding :=
  mkFrame (columns df) (map tag (rows df)).

(** [pd.concat(frames, ignore_index=True, sort=False)]: the rows one frame
    after the other, the labels joined in order of first appearance. *)
Definition concat (frames : list (DataFrame Finding)) : DataFrame Finding :=
  mkFrame (distinct String.eqb (flat_map (fun df => columns df) frames))
          (flat_map (fun df => rows df) frames).

Definition create_inconsistencies_summary (now : Q)
    (f_staging_events : list StagedEvent) : result (DataFrame Finding) :=
  let q3_results := analyze_churned_without_signed f_staging_events in
  let q6_results := analyze_long_inactive_unsigned now f_staging_events in
  let q2_results := analyze_signed_without_applied f_staging_events in
  match analyze_multiple_applications f_staging_events with
  | Raise message => Raise message
  | Ok q1_results =>
      let unknown_values_results := analyze_unknown_values f_staging_events in
      let sequence_violations_results :=
        analyze_event_sequence_violations f_staging_events in
      let event_distribution_results :=
        analyze_event_type_distribution f_staging_events in
      let docs_pattern_results :=
        analyze_docs_submitted_pattern f_staging_events in
      let plan_inconsistencies_results :=
        analyze_plan_inconsistencies f_staging_events in
      let all_inconsistencies :=
        filter (fun df => negb (empty df))
          [as_findings OfQ3 q3_results; as_findings OfQ6 q6_results;
           as_findings OfQ2 q2_results; as_findings OfQ1 q1_results;
           as_findings OfUnknown unknown_values_results;
           as_findings OfSequence sequence_violations_results;
           as_findings OfDocs docs_pattern_results;
           as_findings OfPlan plan_inconsistencies_results] in
      match all_inconsistencies with
      | [] => Ok (mkFrame [] [])
      | _ => Ok (concat all_inconsistencies)
      end
  end.

End Inconsistencies.

(** ** The remaining steps of the processors *)

Module Pipeline.
Import Sql Staging Funnel Inconsistencies.

(** [process_staging_events] between the reading of the input (with
    [validate_and_cast_schema]) and the writing of the CSV file. *)
Definition process_staging_events (df : list Event) : DataFrame StagedEvent :=
  create_staging_table (fill_missing_values df).

(** [process_funnel_analysis]: the funnel table and its metrics. *)
Definition process_funnel_analysis (f_staging_events : list StagedEvent)
  : DataFrame FunnelRecord * Metrics :=
  let funnel_df := create_funnel_analysis f_staging_events in
  (funnel_df, analyze_funnel_metrics funnel_df).

(** The dates of the raw events of one client and one event type. *)
Definition raw_dates (t : string) (c : option Z) (df : list Event)
  : list (option Z) :=
  map (fun e => if eq_str (event_type e) t then event_date e else None)
    (filter (fun e => same_z (Staging.client_id e) c) df).

(** The dates of all the raw events of one client. *)
Definition raw_dates_of_client (c : option Z) (df : list Event)
  : list (option Z) :=
  map (fun e => event_date e)
    (filter (fun e => same_z (Staging.client_id e) c) df).

Definition details_columns : list string :=
  ["client_id"; "record_id"; "event_type"; "event_date"; "plan"; "region";
   "marketing_channel"; "sales_rep_id"; "source_system"; "event_rank"].

(** ORDER BY client_id, event_date on staged rows. *)
Definition by_client_and_date (a b : StagedEvent) : bool :=
  le_z2 (Staging.client_id a, event_date a) (Staging.client_id b, event_date b).

(** [get_client_event_details]: no id gives [pd.DataFrame()]; otherwise the
    ids are spliced into IN (...) as in the detail query of
    [analyze_multiple_applications]. *)
Definition get_client_event_details (client_ids : list (option Z))
    (f_staging_events : list StagedEvent) : result (DataFrame StagedEvent) :=
  match client_ids with
  | [] => Ok (mkFrame [] [])
  | _ =>
      match client_ids_str client_ids with
      | Raise message => Raise message
      | Ok ids =>
          Ok (read_sql_query details_columns
                (order_by by_client_and_date
                   (filter (fun s : StagedEvent =>
                              in_list (Staging.client_id s) ids)
                      f_staging_events)))
      end
  end.

(** [inconsistencies_df['client_id'].unique().tolist()]: the ids in order of
    first appearance, a missing id once. *)
Definition unique_client_ids (inconsistencies_df : list Finding)
  : list (option Z) :=
  distinct same_z (map finding_client_id inconsistencies_df).

(** The table that [export_client_details] writes; nothing is written for a
    findings table without rows. *)
Definition export_client_details (inconsistencies_df : DataFrame Finding)
    (f_staging_events : list StagedEvent)
  : result (option (DataFrame StagedEvent)) :=
  if empty inconsistencies_df then Ok None
  else
    match get_client_event_details (unique_client_ids inconsistencies_df)
            f_staging_events with
    | Raise message => Raise message
    | Ok details_df => Ok (Some details_df)
    end.

(** What [process_inconsistencies_analysis] writes: the findings, the client
    details, and the event distribution when it has a row. *)
Record Exports := mkExports {
  inconsistencies : DataFrame Finding;
  client_details : option (DataFrame StagedEvent);
  event_distribution : option (DataFrame EventTypeDistribution)
}.

Definition process_inconsistencies_analysis (now : Q)
    (f_staging_events : list StagedEvent) : result Exports :=
  match create_inconsistencies_summary now f_staging_events with
  | Raise message => Raise message
  | Ok inconsistencies_df =>
      match export_client_details inconsistencies_df f_staging_events with
      | Raise message => Raise message
      | Ok details =>
          let event_distribution_results :=
            analyze_event_type_distribution f_staging_events in
          Ok (mkExports inconsistencies_df details
                (if empty event_distribution_results then None
                 else Some event_distribution_results))
      end
  end.

End Pipeline.

(** ** Presentation: src/d_presentation (the computations of the dashboards) *)

Module Dashboards.
Import Sql Staging Inconsistencies.

(** [categorize_risk] of [ChurnDashboard.create_churn_summary_stats]; the
    churn table has the column is_churned, so that the categories are
    given by this function and not by the fallback without the column. *)
Definition categorize_risk (row : Churn.ChurnRecord) : string :=
  if Churn.is_churned row =? 1 then "Already Churned"
  else
    match Churn.days_since_last_event row with
    | None => "Unknown"
    | Some days =>
        if Qle_bool days 30 then "Low Risk"
        else if Qle_bool days 60 then "Medium Risk"
        else "High Risk"
    end.

(** [(churn_data['risk_category'] == category).sum()] *)
Definition risk_count (category : string)
    (churn_data : list Churn.ChurnRecord) : Z :=
  Z.of_nat
    (length (filter (fun row => String.eqb (categorize_risk row) category)
               churn_data)).

Record ChurnStats := mkChurnStats {
  total_clients : Z;
  churned_count : Z;
  high_risk_count : Z;
  medium_risk_count : Z;
  low_risk_count : Z;
  unknown_risk_count : Z;
  at_risk_count : Z
}.

(** The counts of [create_churn_summary_stats]. *)
Definition create_churn_summary_stats (churn_data : list Churn.ChurnRecord)
  : ChurnStats :=
  let high := risk_count "High Risk" churn_data in
  let medium := risk_count "Medium Risk" churn_data in
  {| total_clients := Z.of_nat (length churn_data);
     churned_count := risk_count "Already Churned" churn_data;
     high_risk_count := high;
     medium_risk_count := medium;
     low_risk_count := risk_count "Low Risk" churn_data;
     unknown_risk_count := risk_count "Unknown" churn_data;
     at_risk_count := high + medium |}.

(** The journey of [FunnelDashboard.create_client_journey_analysis]. *)
Definition journey_type (row : Funnel.FunnelRecord) : string :=
  if not_null (Funnel.rejected_date row) then
    "Rejected<br>(Applied → Rejected)"
  else if not_null (Funnel.churned_date row) then
    if not_null (Funnel.docs_submitted_date row) then
      "Full Journey with Docs<br>(Applied → Docs → Signed → Churned)"
    else "Full Journey<br>(Applied → Signed → Churned)"
  else if not_null (Funnel.signed_date row) then
    if not_null (Funnel.docs_submitted_date row) then
      "Active with Docs<br>(Applied → Docs → Signed)"
    else "Active Client<br>(Applied → Signed)"
  else if not_null (Funnel.docs_submitted_date row) then
    "Docs Submitted<br>(Applied → Docs)"
  else if not_null (Funnel.applied_date row) then
    "Applied Only<br>(No Progress)"
  else "Other".

(** A Python dict with text keys, and [dict.get]. *)
Fixpoint dict_get (key : string) (dict : list (string * string))
  : option string :=
  match dict with
  | [] => None
  | (k, v) :: dict' => if String.eqb k key then Some v else dict_get key dict'
  end.

(** [severity_mapping] of [create_severity_assessment]. *)
Definition severity_mapping : list (string * string) :=
  [("multiple_applications", "Medium");
   ("signed_without_applied", "High");
   ("churned_without_signed", "High");
   ("long_inactive_unsigned", "Low")].

(** [inconsistencies_data['inconsistency_type'].map(severity_mapping)]: NaN
    where the dict has no such key. *)
Definition severity (f : Finding) : option string :=
  dict_get (finding_inconsistency_type f) severity_mapping.

(** [question_mapping] of [create_business_questions_mapping]. *)
Definition question_mapping : list (string * string) :=
  [("multiple_applications", "Q1: Multiple applied events");
   ("signed_without_applied", "Q2: Signed without applying");
   ("churned_without_signed", "Q3: Churned without signing");
   ("long_inactive_unsigned", "Q6: Long inactive unsigned")].

(** [question_mapping.get(inconsistency_type, f"Unknown: {inconsistency_type}")] *)
Definition business_question (inconsistency_type : string) : string :=
  match dict_get inconsistency_type question_mapping with
  | Some question => question
  | None => "Unknown: " ++ inconsistency_type
  end.

(** The issue type under which [create_problematic_events_table] shows a
    finding; a finding of another inconsistency type adds no row. *)
Definition issue_type_shown (f : Finding) : option string :=
  let issue_type := finding_inconsistency_type f in
  if String.eqb issue_type "unknown_values" then Some "Unknown Values"
  else if String.eqb issue_type "sequence_violation" then
    Some "Sequence Violation"
  else if String.eqb issue_type "Q1_multiple_applications" then
    Some "Multiple Applications"
  else if String.eqb issue_type "docs_submitted_analysis" then
    Some "Document Pattern"
  else None.

End Dashboards.

(** ** Sample inputs *)

Module Samples.
Import Sql Staging.

Definition date_of (year month day : Z) : Z := date_of_ymd year month day.

(** A raw event with every field present. *)
Definition ev (record client : Z) (type : string) (year month day : Z)
  : Event :=
  mkEvent (Some record) (Some client) (Some type)
          (Some (date_of_ymd year month day))
          (Some "basic") (Some "EU") (Some "web") (Some 7) (Some "crm").

(** The same with no client_id. *)
Definition anonymous (record : Z) (type : string) (year month day : Z)
  : Event :=
  mkEvent (Some record) None (Some type)
          (Some (date_of_ymd year month day))
          (Some "basic") (Some "EU") (Some "web") (Some 7) (Some "crm").

(** Client 1001 applies and signs; 1009 and 1010 sign without applying. *)
Definition signed_without_applying : list Event :=
  [ev 1 1001 "applied" 2024 1 1; ev 2 1001 "signed" 2024 1 10;
   ev 3 1009 "signed" 2024 1 5; ev 4 1010 "signed" 2024 1 6].

(** Client 1002 applies twice. *)
Definition applied_twice : list Event :=
  [ev 1 1002 "applied" 2024 1 1; ev 2 1002 "applied" 2024 2 15].

(** Client 1003 applies and signs on the same day. *)
Definition same_day : list Event :=
  [ev 1 1003 "applied" 2024 3 1; ev 2 1003 "signed" 2024 3 1].

(** Client 3001 applies and signs; both records have no sales_rep_id. *)
Definition missing_sales_rep : list Event :=
  [mkEvent (Some 1) (Some 3001) (Some "applied")
           (Some (date_of_ymd 2024 1 1)) (Some "basic") (Some "EU")
           (Some "web") None (Some "crm");
   mkEvent (Some 2) (Some 3001) (Some "signed")
           (Some (date_of_ymd 2024 1 9)) (Some "basic") (Some "EU")
           (Some "web") None (Some "crm")].

(** julianday('now') on 2024-02-01. *)
Definition february_2024 : Q := julianday (date_of_ymd 2024 2 1).

(** Client 1002 applies twice, and so does a client without client_id. *)
Definition applied_twice_anonymous : list Event :=
  [ev 1 1002 "applied" 2024 1 1; ev 2 1002 "applied" 2024 2 15;
   anonymous 3 "applied" 2024 1 3; anonymous 4 "applied" 2024 1 4].

(** Client 4001 signs and submits documents before applying, and churns
    before signing. *)
Definition out_of_order : list Event :=
  [ev 1 4001 "churned" 2024 1 1; ev 2 4001 "docs_submitted" 2024 1 2;
   ev 3 4001 "signed" 2024 1 3; ev 4 4001 "applied" 2024 1 4].

(** A record of client 5001 without marketing_channel and source_system. *)
Definition no_channel : Event :=
  mkEvent (Some 1) (Some 5001) (Some "applied") (Some (date_of_ymd 2024 1 1))
          (Some "premium") (Some "EU") None (Some 7) None.

(** The whole pipeline up to the staging table. *)
(** Client 1002 applies twice and signs; client 1003 signs twice, the later
    signature recorded first. *)
Definition repeated_events : list Event :=
  [ev 1 1002 "applied" 2024 1 1; ev 2 1002 "applied" 2024 2 15;
   ev 3 1002 "signed" 2024 3 1; ev 4 1003 "signed" 2024 1 5;
   ev 5 1003 "signed" 2024 1 2].

(** Seven clients with findings of several checks. *)
Definition several_findings : list Event :=
  (signed_without_applying ++ out_of_order ++ missing_sales_rep
   ++ repeated_events)%list.

Definition staged (raw_events : list Event) : list StagedEvent :=
  create_staging_table (fill_missing_values raw_events).

End Samples.

(** * Properties *)

Unset Implicit Arguments.

Module SqlFacts.
Import Sql.

Lemma same_z_eq (a b : option Z) : same_z a b = true <-> a = b.
Proof.
  destruct a as [x|], b as [y|]; simpl; split; intro H;
    try discriminate; try reflexivity.
  - apply Z.eqb_eq in H. now subst.
  - injection H as ->. apply Z.eqb_refl.
Qed.

Lemma same_str_eq (a b : option string) : same_str a b = true <-> a = b.
Proof.
  destruct a as [x|], b as [y|]; simpl; split; intro H;
    try discriminate; try reflexivity.
  - apply String.eqb_eq in H. now subst.
  - injection H as ->. apply String.eqb_refl.
Qed.

Lemma eq_str_eq (a : option string) (t : string) :
  eq_str a t = true <-> a = Some t.
Proof.
  destruct a as [x|]; simpl; split; intro H; try discriminate.
  - apply String.eqb_eq in H. now subst.
  - injection H as ->. apply String.eqb_refl.
Qed.

Lemma le_z_total (a b : option Z) : le_z a b = true \/ le_z b a = true.
Proof.
  destruct a as [x|], b as [y|]; simpl; auto.
  destruct (Z.leb_spec x y); [now left|right]. apply Z.leb_le. lia.
Qed.

Lemma le_z_trans (a b c : option Z) :
  le_z a b = true -> le_z b c = true -> le_z a c = true.
Proof.
  destruct a as [x|], b as [y|], c as [z|]; simpl; auto; try discriminate.
  rewrite !Z.leb_le. lia.
Qed.

Section Keys.
Context {R K : Type}.
Variable same : K -> K -> bool.
Variable key : R -> K.
Hypothesis same_eq : forall a b, same a b = true <-> a = b.

Lemma same_refl (k : K) : same k k = true.
  Proof. now apply same_eq. Qed.

Lemma distinct_In (l : list K) (k : K) : In k (distinct same l) <-> In k l.
  Proof.
    induction l as [|a l IH]; simpl; [tauto|].
    rewrite filter_In, IH. split.
    - intros [H|[H _]]; auto.
    - intros [H|H]; auto.
      destruct (same a k) eqn:E.
      + left. now apply same_eq.
      + right. split; auto.
  Qed.

Lemma distinct_NoDup (l : list K) : NoDup (distinct same l).
  Proof.
    induction l as [|a l IH]; simpl; constructor.
    - rewrite filter_In. intros [_ H]. now rewrite same_refl in H.
    - now apply NoDup_filter.
  Qed.

Lemma rows_of_In (k : K) (rows : list R) (r : R) :
    In r (rows_of same key k rows) <-> In r rows /\ key r = k.
  Proof. unfold rows_of. rewrite filter_In, same_eq. tauto. Qed.

Lemma group_by_keys (rows : list R) :
    map fst (group_by same key rows) = distinct same (map key rows).
  Proof.
    unfold group_by. rewrite map_map. simpl. apply map_id.
  Qed.

Lemma group_by_In (rows : list R) (g : K * list R) :
    In g (group_by same key rows) <->
    In (fst g) (map key rows) /\ snd g = rows_of same key (fst g) rows.
  Proof.
    unfold group_by. rewrite in_map_iff. split.
    - intros (k & <- & H). simpl. split; auto. now apply distinct_In.
    - intros [H1 H2]. exists (fst g). split.
      + destruct g; simpl in *. now subst.
      + now apply distinct_In.
  Qed.

Lemma group_by_NoDup (rows : list R) :
    NoDup (map fst (group_by same key rows)).
  Proof. rewrite group_by_keys. apply distinct_NoDup. Qed.

  (** The rows of one key inside a concatenation of per-key blocks. *)
Lemma filter_blocks (f : K -> list R) (ks : list K) (k : K) :
    NoDup ks ->
    (forall k' r, In r (f k') -> key r = k') ->
    In k ks ->
    filter (fun r => same (key r) k) (flat_map f ks) = f k.
  Proof.
    intros Hnd Hf. induction ks as [|a ks IH]; simpl; [tauto|].
    assert (Hout : forall l, (forall r, In r l -> key r <> k) ->
               filter (fun r => same (key r) k) l = []).
    { induction l as [|x l IHl]; intros Hl; simpl; auto.
      destruct (same (key x) k) eqn:E.
      - apply same_eq in E. now destruct (Hl x (or_introl eq_refl)).
      - apply IHl. intros r Hr. apply Hl. now right. }
    assert (Hin : forall l, (forall r, In r l -> key r = k) ->
               filter (fun r => same (key r) k) l = l).
    { induction l as [|x l IHl]; intros Hl; simpl; auto.
      rewrite (proj2 (same_eq _ _) (Hl x (or_introl eq_refl))).
      f_equal. apply IHl. intros r Hr. apply Hl. now right. }
    inversion Hnd as [|? ? Hna Hnd']; subst.
    rewrite filter_app. intros [->|Hk].
    - rewrite Hin by (intros r; apply Hf).
      rewrite Hout; [apply app_nil_r|].
      intros r Hr. apply in_flat_map in Hr as (k' & Hk' & Hr).
      rewrite (Hf _ _ Hr). intros ->. contradiction.
    - rewrite Hout; [now apply IH|].
      intros r Hr. rewrite (Hf _ _ Hr). intros ->. contradiction.
  Qed.

Lemma filter_none (p : R -> bool) (l : list R) :
    (forall r, In r l -> p r = false) -> filter p l = [].
  Proof.
    induction l as [|x l IH]; intro H; simpl; auto.
    rewrite (H x (or_introl eq_refl)). apply IH.
    intros r Hr. apply H. now right.
  Qed.
End Keys.

Section Order.
Context {R : Type}.
Variable le : R -> R -> bool.

Lemma insert_perm (x : R) (l : list R) : Permutation (insert le x l) (x :: l).
  Proof.
    induction l as [|y l IH]; simpl; auto.
    destruct (le x y); auto.
    rewrite IH. apply perm_swap.
  Qed.

Lemma order_by_perm (l : list R) : Permutation (order_by le l) l.
  Proof.
    induction l as [|x l IH]; simpl; auto.
    rewrite insert_perm. now constructor.
  Qed.

Lemma order_by_In (l : list R) (x : R) : In x (order_by le l) <-> In x l.
  Proof.
    split; apply Permutation_in;
      [apply order_by_perm | symmetry; apply order_by_perm].
  Qed.

Lemma order_by_length (l : list R) : length (order_by le l) = length l.
  Proof. apply Permutation_length, order_by_perm. Qed.

Lemma order_by_map_NoDup {B} (f : R -> B) (l : list R) :
    NoDup (map f l) -> NoDup (map f (order_by le l)).
  Proof.
    intro H. eapply Permutation_NoDup; [|exact H].
    symmetry. apply Permutation_map, order_by_perm.
  Qed.

Hypothesis le_total : forall a b, le a b = true \/ le b a = true.
Hypothesis le_trans :
  forall a b c, le a b = true -> le b c = true -> le a c = true.

Lemma insert_sorted (x : R) (l : list R) :
    StronglySorted (fun a b => le a b = true) l ->
    StronglySorted (fun a b => le a b = true) (insert le x l).
  Proof.
    induction 1 as [|y l Hs IH Hy]; simpl.
    - repeat constructor.
    - destruct (le x y) eqn:E.
      + constructor; [now constructor|].
        constructor; auto.
        rewrite Forall_forall in *. intros z Hz. eauto.
      + constructor; auto.
        rewrite Forall_forall in *. intros z Hz.
        apply (Permutation_in _ (insert_perm x l)) in Hz.
        destruct Hz as [<-|Hz]; auto.
        destruct (le_total x y); congruence.
  Qed.

Lemma order_by_sorted (l : list R) :
    StronglySorted (fun a b => le a b = true) (order_by le l).
  Proof.
    induction l; simpl; [constructor | now apply insert_sorted].
  Qed.
End Order.

Section Numbering.
Context {R : Type}.

Lemma number_from_fst (n : Z) (l : list R) : map fst (number_from n l) = l.
  Proof. revert n. induction l; intro n; simpl; f_equal; auto. Qed.

Lemma number_from_snd (n : Z) (l : list R) :
    map snd (number_from n l) = zseq n (length l).
  Proof. revert n. induction l; intro n; simpl; f_equal; auto. Qed.

Lemma number_from_ge (n : Z) (l : list R) (p : R * Z) :
    In p (number_from n l) -> n <= snd p /\ In (fst p) l.
  Proof.
    revert n. induction l as [|x l IH]; intros n; simpl; [tauto|].
    intros [<-|H]; simpl; [split; [lia|auto]|].
    apply IH in H. split; [lia|tauto].
  Qed.

  (** In a sorted partition a smaller number goes with an earlier row. *)
Lemma number_from_sorted (rel : R -> R -> Prop) (n : Z) (l : list R) :
    StronglySorted rel l ->
    forall p q, In p (number_from n l) -> In q (number_from n l) ->
                snd p < snd q -> rel (fst p) (fst q).
  Proof.
    intro Hs. revert n.
    induction Hs as [|x l Hs IH Hx]; intros n p q; simpl; [tauto|].
    intros [<-|Hp] [<-|Hq]; simpl; intro Hlt.
    - lia.
    - apply number_from_ge in Hq. rewrite Forall_forall in Hx.
      now apply Hx.
    - apply number_from_ge in Hp. lia.
    - now apply (IH (n + 1)).
  Qed.
End Numbering.

Lemma zseq_In (n : Z) (len : nat) (z : Z) :
  In z (zseq n len) <-> n <= z < n + Z.of_nat len.
Proof.
  revert n. induction len as [|len IH]; intro n; simpl zseq.
  - simpl. lia.
  - simpl In. rewrite IH. lia.
Qed.

Lemma zseq_NoDup (n : Z) (len : nat) : NoDup (zseq n len).
Proof.
  revert n. induction len as [|len IH]; intro n; simpl; constructor; auto.
  rewrite zseq_In. lia.
Qed.

End SqlFacts.

(** ** The event ranker *)

Module StagingFacts.
Import Sql Staging SqlFacts.

Lemma same_partition_eq (a b : option Z * option string) :
  same_partition a b = true <-> a = b.
Proof.
  unfold same_partition. rewrite andb_true_iff, same_z_eq, same_str_eq.
  destruct a, b; simpl. split.
  - now intros [-> ->].
  - now intros [= -> ->].
Qed.

Lemma filter_map_comm {A B} (f : A -> B) (p : B -> bool) (l : list A) :
  filter p (map f l) = map f (filter (fun x => p (f x)) l).
Proof.
  induction l as [|x l IH]; simpl; auto.
  destruct (p (f x)); simpl; now rewrite IH.
Qed.

Lemma flat_map_of_map {A B C} (f : B -> list C) (g : A -> B) (l : list A) :
  flat_map f (map g l) = flat_map (fun x => f (g x)) l.
Proof. induction l; simpl; congruence. Qed.

Lemma by_event_date_total (a b : Event) :
  by_event_date a b = true \/ by_event_date b a = true.
Proof. apply le_z_total. Qed.

Lemma by_event_date_trans (a b c : Event) :
  by_event_date a b = true -> by_event_date b c = true ->
  by_event_date a c = true.
Proof. apply le_z_trans. Qed.

(** A partition of the staging table is a date-sorted list of dated raw
    rows of that partition, numbered from 1. *)
Lemma staging_partition_shape (raw_events : list Event)
    (k : option Z * option string) :
  exists l : list Event,
    partition_rows k (create_staging_table raw_events)
    = map (fun p => mkStaged (fst p) (snd p)) (number_from 1 l)
    /\ StronglySorted (fun a b => by_event_date a b = true) l
    /\ (forall e, In e l <->
          In e raw_events /\ event_date e <> None /\ partition_key e = k).
Proof.
  set (block := fun k' =>
         number_from 1
           (order_by by_event_date
              (rows_of same_partition partition_key k' (dated raw_events)))).
  assert (Hblock : forall k' p, In p (block k') -> partition_key (fst p) = k').
  { intros k' p Hp. apply number_from_ge in Hp as [_ Hp].
    apply order_by_In in Hp.
    now apply (rows_of_In _ _ same_partition_eq) in Hp. }
  assert (Hshape :
    partition_rows k (create_staging_table raw_events)
    = map (fun p => mkStaged (fst p) (snd p))
        (filter (fun p => same_partition (partition_key (fst p)) k)
           (flat_map block
              (distinct same_partition
                 (map partition_key (dated raw_events)))))).
  { unfold partition_rows, create_staging_table, read_sql_query, row_number,
      group_by. simpl rows.
    rewrite filter_map_comm. simpl. now rewrite flat_map_of_map. }
  destruct (in_dec (fun a b => Bool.reflect_dec _ _
                      (iff_reflect _ _ (iff_sym (same_partition_eq a b))))
              k (map partition_key (dated raw_events))) as [Hk|Hk].
  - exists (order_by by_event_date
              (rows_of same_partition partition_key k (dated raw_events))).
    split; [|split].
    + rewrite Hshape. f_equal.
      apply (filter_blocks same_partition
               (fun p : Event * Z => partition_key (fst p))
               same_partition_eq block).
      * apply distinct_NoDup, same_partition_eq.
      * exact Hblock.
      * now apply (distinct_In _ same_partition_eq).
    + apply order_by_sorted;
        [apply by_event_date_total | apply by_event_date_trans].
    + intros e. rewrite order_by_In, (rows_of_In _ _ same_partition_eq).
      unfold dated. rewrite filter_In. unfold not_null.
      destruct (event_date e); simpl; intuition congruence.
  - exists []. split; [|split].
    + rewrite Hshape. f_equal. apply filter_none. intros p Hp.
      apply in_flat_map in Hp as (k' & Hk' & Hp).
      apply Hblock in Hp. rewrite Hp.
      destruct (same_partition k' k) eqn:E; auto.
      apply same_partition_eq in E.
      apply (proj1 (distinct_In _ same_partition_eq _ _)) in Hk'.
      congruence.
    + constructor.
    + intros e. split; [intros []|]. intros (He & Hd & Hkey).
      apply Hk, in_map_iff. exists e. split; auto.
      apply filter_In. split; auto. unfold not_null.
      now destruct (event_date e).
Qed.

Lemma number_from_inj {R} (n : Z) (l : list R) (p q : R * Z) :
  In p (number_from n l) -> In q (number_from n l) -> snd p = snd q -> p = q.
Proof.
  revert n. induction l as [|x l IH]; intros n; simpl; [tauto|].
  intros [<-|Hp] [<-|Hq]; simpl; intro E; auto.
  - apply number_from_ge in Hq. lia.
  - apply number_from_ge in Hp. lia.
  - now apply (IH (n + 1)).
Qed.

Lemma staging_ranks (raw_events : list Event) (k : option Z * option string) :
  map event_rank (partition_rows k (create_staging_table raw_events))
  = zseq 1 (length (partition_rows k (create_staging_table raw_events))).
Proof.
  destruct (staging_partition_shape raw_events k) as (l & -> & _).
  rewrite map_map, length_map. simpl.
  rewrite <- (length_map fst (number_from 1 l)), number_from_fst.
  apply number_from_snd.
Qed.

Lemma staging_dates_follow_ranks (raw_events : list Event)
    (k : option Z * option string) (a b : StagedEvent) :
  In a (partition_rows k (create_staging_table raw_events)) ->
  In b (partition_rows k (create_staging_table raw_events)) ->
  event_rank a < event_rank b ->
  le_z (event_date a) (event_date b) = true.
Proof.
  destruct (staging_partition_shape raw_events k) as (l & -> & Hs & _).
  rewrite !in_map_iff. intros (p & <- & Hp) (q & <- & Hq). simpl.
  apply (number_from_sorted _ 1 l Hs p q Hp Hq).
Qed.

Lemma staging_dates_not_null (raw_events : list Event) (s : StagedEvent) :
  In s (create_staging_table raw_events) -> event_date s <> None.
Proof.
  intro Hs.
  assert (In s (partition_rows (partition_key s)
                  (create_staging_table raw_events))) as Hp.
  { apply filter_In. split; auto. now apply same_partition_eq. }
  destruct (staging_partition_shape raw_events (partition_key s))
    as (l & E & _ & Hl).
  rewrite E in Hp. apply in_map_iff in Hp as (p & <- & Hp). simpl.
  apply number_from_ge in Hp as [_ Hp]. now apply Hl in Hp.
Qed.

Lemma number_from_In {R} (n : Z) (l : list R) (x : R) :
  In x l -> exists m, In (x, m) (number_from n l).
Proof.
  revert n. induction l as [|y l IH]; intros n; simpl; [tauto|].
  intros [->|Hx]; [exists n; now left|].
  destruct (IH (n + 1) Hx) as [m Hm]. exists m. now right.
Qed.

(** The ranker keeps the dated rows and nothing else. *)
Lemma staging_rows_sound (raw_events : list Event) (s : StagedEvent) :
  In s (create_staging_table raw_events) ->
  In (event s) raw_events /\ event_date s <> None.
Proof.
  intro Hs.
  assert (In s (partition_rows (partition_key s)
                  (create_staging_table raw_events))) as Hp.
  { apply filter_In. split; auto. now apply same_partition_eq. }
  destruct (staging_partition_shape raw_events (partition_key s))
    as (l & E & _ & Hl).
  rewrite E in Hp. apply in_map_iff in Hp as (p & <- & Hp). simpl.
  apply number_from_ge in Hp as [_ Hp]. apply Hl in Hp. tauto.
Qed.

Lemma staging_rows_complete (raw_events : list Event) (e : Event) :
  In e raw_events -> event_date e <> None ->
  exists n, In (mkStaged e n) (create_staging_table raw_events).
Proof.
  intros He Hd.
  destruct (staging_partition_shape raw_events (partition_key e))
    as (l & E & _ & Hl).
  assert (In e l) as Hin by (apply Hl; auto).
  destruct (number_from_In 1 l e Hin) as [n Hn]. exists n.
  assert (In (mkStaged e n)
            (partition_rows (partition_key e)
               (create_staging_table raw_events))) as Hp.
  { rewrite E. apply in_map_iff. now exists (e, n). }
  now apply filter_In in Hp.
Qed.

(** The staging table has the ranker's guarantee. *)
Lemma staging_ranker_invariant (raw_events : list Event) :
  ranker_invariant (create_staging_table raw_events).
Proof.
  split.
  - intros s. apply staging_dates_not_null.
  - intro k. split.
    + rewrite staging_ranks. apply Permutation_refl.
    + apply staging_dates_follow_ranks.
Qed.

Lemma staging_rank_determines_row (raw_events : list Event)
    (k : option Z * option string) (a b : StagedEvent) :
  In a (partition_rows k (create_staging_table raw_events)) ->
  In b (partition_rows k (create_staging_table raw_events)) ->
  event_rank a = event_rank b -> a = b.
Proof.
  destruct (staging_partition_shape raw_events k) as (l & -> & _).
  rewrite !in_map_iff. intros (p & <- & Hp) (q & <- & Hq). simpl.
  intro E. now rewrite (number_from_inj 1 l p q Hp Hq E).
Qed.

(** C1, as amended.  In the staging table of [create_staging_table], the
    ranks of every (client_id, event_type) partition are exactly 1..N, each
    once; a row of smaller rank has a date no later than a row of larger
    rank; a row with a strictly earlier date has a strictly smaller rank;
    the row of rank 1 carries the earliest date of its partition. *)
Theorem event_rank_orders_partition (raw_events : list Event)
    (k : option Z * option string) :
  let P := partition_rows k (create_staging_table raw_events) in
  Permutation (map event_rank P) (zseq 1 (length P)) /\
  (forall a b : StagedEvent,
      In a P -> In b P -> event_rank a < event_rank b ->
      exists da db,
        event_date a = Some da /\ event_date b = Some db /\ da <= db) /\
  (forall (a b : StagedEvent) (da db : Z),
      In a P -> In b P ->
      event_date a = Some da -> event_date b = Some db -> da < db ->
      event_rank a < event_rank b) /\
  (forall a b : StagedEvent,
      In a P -> In b P -> event_rank a = 1 ->
      exists da db,
        event_date a = Some da /\ event_date b = Some db /\ da <= db).
Proof.
  intro P.
  assert (Hdate : forall a : StagedEvent,
             In a P -> exists d, event_date a = Some d).
  { intros a Ha. apply filter_In in Ha as [Ha _].
    apply staging_dates_not_null in Ha.
    destruct (event_date a) as [d|]; [now exists d | contradiction]. }
  assert (Hmono : forall a b : StagedEvent,
             In a P -> In b P -> event_rank a < event_rank b ->
             exists da db,
               event_date a = Some da /\ event_date b = Some db /\ da <= db).
  { intros a b Ha Hb Hlt.
    pose proof (staging_dates_follow_ranks _ _ _ _ Ha Hb Hlt) as Hle.
    destruct (Hdate a Ha) as [da Ea], (Hdate b Hb) as [db Eb].
    exists da, db. rewrite Ea, Eb in Hle. simpl in Hle.
    apply Z.leb_le in Hle. auto. }
  split; [|split; [|split]]; auto.
  - subst P. rewrite staging_ranks. apply Permutation_refl.
  - intros a b da db Ha Hb Ea Eb Hlt.
    destruct (Z.lt_trichotomy (event_rank a) (event_rank b))
      as [Hr|[Hr|Hr]]; auto.
    + rewrite (staging_rank_determines_row _ _ _ _ Ha Hb Hr) in Ea.
      rewrite Ea in Eb. injection Eb as ->. lia.
    + destruct (Hmono b a Hb Ha Hr) as (db' & da' & Eb' & Ea' & Hle).
      rewrite Ea in Ea'. rewrite Eb in Eb'.
      injection Ea' as <-. injection Eb' as <-. lia.
  - intros a b Ha Hb H1.
    assert (In (event_rank b) (map event_rank P)) as Hrb
        by now apply in_map.
    subst P. rewrite staging_ranks in Hrb. apply zseq_In in Hrb.
    destruct (Z.eq_dec (event_rank b) 1) as [E|E].
    + rewrite <- (staging_rank_determines_row _ _ _ _ Ha Hb) by congruence.
      destruct (Hdate a Ha) as [d Ed]. exists d, d. repeat split; auto. lia.
    + apply Hmono; auto. lia.
Qed.

(** C1, as stated, fails on tied dates: two events of one client and one
    type on the same day get the ranks 1 and 2, but the row of rank 1 is not
    strictly earlier than the row of rank 2. *)
Lemma event_rank_not_strict_on_equal_dates :
  let e1 := mkEvent (Some 1) (Some 1001) (Some "applied") (Some 19723)
                    (Some "Basic") (Some "EU") (Some "web") (Some 7)
                    (Some "crm") in
  let e2 := mkEvent (Some 2) (Some 1001) (Some "applied") (Some 19723)
                    (Some "Basic") (Some "EU") (Some "web") (Some 7)
                    (Some "crm") in
  let P := partition_rows (Some 1001, Some "applied")
             (create_staging_table [e1; e2]) in
  exists a b : StagedEvent,
    In a P /\ In b P /\ event_rank a < event_rank b
    /\ event_date a = Some 19723 /\ event_date b = Some 19723
    /\ ~ (19723 < 19723).
Proof.
  intros e1 e2 P.
  exists (mkStaged e1 1), (mkStaged e2 2).
  vm_compute. repeat split; auto; try discriminate.
Qed.

(** The staging table holds the dated raw rows, each with a rank,
    and no other row. *)
Theorem staging_keeps_dated_rows (raw_events : list Event) (e : Event) :
  (exists n, In (mkStaged e n) (create_staging_table raw_events))
  <-> In e raw_events /\ event_date e <> None.
Proof.
  split.
  - intros [n Hn]. now apply staging_rows_sound in Hn.
  - intros [He Hd]. now apply staging_rows_complete.
Qed.

(** *** The normalizer *)

Lemma to_upper_cased (c : ascii) :
  is_lower c = true ->
  is_lower (to_upper c) = false /\ is_upper (to_upper c) = true.
Proof.
  destruct c as [[] [] [] [] [] [] [] []]; vm_compute;
    (discriminate || auto).
Qed.

Lemma to_lower_cased (c : ascii) :
  is_lower c = false -> is_upper c = true ->
  is_lower (to_lower c) = true.
Proof.
  destruct c as [[] [] [] [] [] [] [] []]; vm_compute;
    (discriminate || auto).
Qed.

Lemma upper_not_lower (c : ascii) : is_upper c = true -> is_lower c = false.
Proof.
  destruct c as [[] [] [] [] [] [] [] []]; vm_compute;
    (discriminate || auto).
Qed.

Lemma title_from_idempotent (s : string) (previous_is_cased : bool) :
  title_from previous_is_cased (title_from previous_is_cased s)
  = title_from previous_is_cased s.
Proof.
  revert previous_is_cased.
  induction s as [|c s IH]; intro b; simpl; auto.
  destruct (is_lower c) eqn:El.
  - destruct b; simpl.
    + now rewrite El, IH.
    + destruct (to_upper_cased c El) as [E1 E2]. now rewrite E1, E2, IH.
  - destruct (is_upper c) eqn:Eu.
    + destruct b; simpl.
      * now rewrite (to_lower_cased c El Eu), IH.
      * now rewrite El, Eu, IH.
    + simpl. now rewrite El, Eu, IH.
Qed.

Lemma cased_isascii (c : ascii) :
  (nat_of_ascii c <? 128)%nat = true ->
  (nat_of_ascii (to_upper c) <? 128)%nat = true
  /\ (nat_of_ascii (to_lower c) <? 128)%nat = true.
Proof.
  destruct c as [[] [] [] [] [] [] [] []]; vm_compute;
    (discriminate || auto).
Qed.

(** The title of an ASCII text is an ASCII text. *)
Lemma title_from_isascii (s : string) (previous_is_cased : bool) :
  isascii s = true -> isascii (title_from previous_is_cased s) = true.
Proof.
  revert previous_is_cased.
  induction s as [|c s IH]; intro b; simpl; auto.
  intro H. apply andb_true_iff in H as [Hc Hs].
  destruct (cased_isascii c Hc) as [Hup Hlow].
  destruct (is_lower c); [|destruct (is_upper c)]; destruct b; simpl;
    rewrite ?Hc, ?Hup, ?Hlow, IH; auto.
Qed.

Lemma filled_plan_isascii (e : Event) :
  (forall p, plan e = Some p -> isascii p = true) ->
  exists p,
    plan (fill_missing_values_row e) = Some p
    /\ isascii p = true /\ title p = p.
Proof.
  intro Hascii. eexists. split; [reflexivity|]. unfold title. split.
  - apply title_from_isascii.
    destruct (plan e) as [p|]; simpl; [now apply Hascii | reflexivity].
  - apply title_from_idempotent.
Qed.

(** X5.  On a frame whose plans are ASCII text, normalizing a normalized
    frame changes nothing, and the normalized plans are ASCII text
    again. *)
Theorem fill_missing_values_idempotent (df : list Event) :
  (forall e p, In e df -> plan e = Some p -> isascii p = true) ->
  fill_missing_values (fill_missing_values df) = fill_missing_values df
  /\ (forall e p,
         In e (fill_missing_values df) -> plan e = Some p ->
         isascii p = true).
Proof.
  intro Hascii. split.
  - unfold fill_missing_values. rewrite map_map. apply map_ext. intro e.
    unfold fill_missing_values_row. simpl. unfold title.
    now rewrite title_from_idempotent.
  - intros e' p He' Hp. apply in_map_iff in He' as (e & <- & He).
    destruct (filled_plan_isascii e (fun q => Hascii e q He))
      as (q & Hq & Hascii_q & _).
    congruence.
Qed.

(** A frame with a plan in capitals and a row without plan. *)
Lemma fill_missing_values_idempotent_witness :
  let df := [mkEvent (Some 1) (Some 7) (Some "applied") (Some 19723)
                     (Some "PREMIUM plus") (Some "EU") (Some "web")
                     (Some 3) (Some "crm");
             mkEvent (Some 2) (Some 8) (Some "signed") (Some 19724)
                     None None None None None] in
  fill_missing_values (fill_missing_values df) = fill_missing_values df
  /\ (forall e p,
         In e (fill_missing_values df) -> plan e = Some p ->
         isascii p = true).
Proof.
  intro df. apply (fill_missing_values_idempotent df).
  intros e p He Hp. simpl in He.
  destruct He as [<-|[<-|[]]]; simpl in Hp; [|discriminate].
  injection Hp as <-. reflexivity.
Defined.

End StagingFacts.

(** ** MIN, MAX and COUNT *)

Module AggregateFacts.
Import Sql.

Lemma sql_min_In (l : list (option Z)) (m : Z) :
  sql_min l = Some m -> In (Some m) l.
Proof.
  revert m. induction l as [|[x|] l IH]; intros m; simpl; try discriminate.
  - destruct (sql_min l) as [m'|] eqn:E; intros [= <-]; auto.
    destruct (Z.min_spec x m') as [[_ ->]|[_ ->]]; auto.
  - auto.
Qed.

Lemma sql_min_None (l : list (option Z)) :
  sql_min l = None <-> forall x, ~ In (Some x) l.
Proof.
  induction l as [|[y|] l IH]; simpl.
  - split; auto.
  - split.
    + destruct (sql_min l); discriminate.
    + intro H. destruct (H y). now left.
  - rewrite IH. split; intros H x.
    + intros [E|E]; [discriminate|]. now apply (H x).
    + intro E. apply (H x). now right.
Qed.

Lemma sql_min_le (l : list (option Z)) (m x : Z) :
  sql_min l = Some m -> In (Some x) l -> m <= x.
Proof.
  revert m. induction l as [|[y|] l IH]; intros m; simpl; try discriminate.
  - destruct (sql_min l) as [m'|] eqn:E; intros [= <-] [[= ->]|H]; try lia.
    + specialize (IH m' eq_refl H). lia.
    + rewrite sql_min_None in E. now destruct (E x).
  - intros Hm [H|H]; [discriminate|auto].
Qed.

(** MIN is the least of the non-NULL values. *)
Lemma sql_min_least (l : list (option Z)) (m : Z) :
  In (Some m) l -> (forall x, In (Some x) l -> m <= x) ->
  sql_min l = Some m.
Proof.
  intros Hin Hle. destruct (sql_min l) as [m'|] eqn:E.
  - f_equal. pose proof (sql_min_In _ _ E) as H1.
    pose proof (sql_min_le _ _ _ E Hin). specialize (Hle _ H1). lia.
  - rewrite sql_min_None in E. now destruct (E m).
Qed.

(** Two columns with the same least non-NULL value have the same MIN. *)
Lemma sql_min_ext (l l' : list (option Z)) :
  (forall x, In (Some x) l -> In (Some x) l') ->
  (forall x, In (Some x) l' -> exists y, In (Some y) l /\ y <= x) ->
  sql_min l = sql_min l'.
Proof.
  intros Hsub Hlow. destruct (sql_min l') as [m'|] eqn:E'.
  - pose proof (sql_min_In _ _ E') as Hin'.
    destruct (Hlow _ Hin') as (y & Hy & Hle).
    pose proof (sql_min_le _ _ _ E' (Hsub _ Hy)).
    assert (y = m') as -> by lia.
    apply sql_min_least; auto.
    intros x Hx. apply (sql_min_le _ _ _ E'). auto.
  - apply sql_min_None. intros x Hx.
    rewrite sql_min_None in E'. apply (E' x). auto.
Qed.

Lemma sql_max_In (l : list (option Z)) (m : Z) :
  sql_max l = Some m -> In (Some m) l.
Proof.
  revert m. induction l as [|[x|] l IH]; intros m; simpl; try discriminate.
  - destruct (sql_max l) as [m'|] eqn:E; intros [= <-]; auto.
    destruct (Z.max_spec x m') as [[_ ->]|[_ ->]]; auto.
  - auto.
Qed.

Lemma sql_max_None (l : list (option Z)) :
  sql_max l = None <-> forall x, ~ In (Some x) l.
Proof.
  induction l as [|[y|] l IH]; simpl.
  - split; auto.
  - split.
    + destruct (sql_max l); discriminate.
    + intro H. destruct (H y). now left.
  - rewrite IH. split; intros H x.
    + intros [E|E]; [discriminate|]. now apply (H x).
    + intro E. apply (H x). now right.
Qed.

Lemma sql_max_ge (l : list (option Z)) (m x : Z) :
  sql_max l = Some m -> In (Some x) l -> x <= m.
Proof.
  revert m. induction l as [|[y|] l IH]; intros m; simpl; try discriminate.
  - destruct (sql_max l) as [m'|] eqn:E; intros [= <-] [[= ->]|H]; try lia.
    + specialize (IH m' eq_refl H). lia.
    + rewrite sql_max_None in E. now destruct (E x).
  - intros Hm [H|H]; [discriminate|auto].
Qed.

(** MAX is the greatest of the non-NULL values. *)
Lemma sql_max_greatest (l : list (option Z)) (m : Z) :
  In (Some m) l -> (forall x, In (Some x) l -> x <= m) ->
  sql_max l = Some m.
Proof.
  intros Hin Hle. destruct (sql_max l) as [m'|] eqn:E.
  - f_equal. pose proof (sql_max_In _ _ E) as H1.
    pose proof (sql_max_ge _ _ _ E Hin). specialize (Hle _ H1). lia.
  - rewrite sql_max_None in E. now destruct (E m).
Qed.

(** Columns with the same non-NULL values have the same MIN and MAX. *)
Lemma sql_min_same_values (l l' : list (option Z)) :
  (forall x, In (Some x) l <-> In (Some x) l') -> sql_min l = sql_min l'.
Proof.
  intro H. apply sql_min_ext.
  - intros x Hx. now apply H.
  - intros x Hx. exists x. split; [now apply H | lia].
Qed.

Lemma sql_max_same_values (l l' : list (option Z)) :
  (forall x, In (Some x) l <-> In (Some x) l') -> sql_max l = sql_max l'.
Proof.
  intro H. destruct (sql_max l') as [m|] eqn:E.
  - apply sql_max_greatest.
    + apply H. now apply sql_max_In.
    + intros x Hx. apply (sql_max_ge _ _ _ E). now apply H.
  - apply sql_max_None. intros x Hx. rewrite sql_max_None in E.
    apply (E x). now apply H.
Qed.

(** MIN and MAX of a column are NULL together, and MIN is at most MAX. *)
Lemma sql_min_le_max (l : list (option Z)) :
  (sql_min l = None <-> sql_max l = None)
  /\ forall a b, sql_min l = Some a -> sql_max l = Some b -> a <= b.
Proof.
  split.
  - now rewrite sql_min_None, sql_max_None.
  - intros a b Ha Hb. apply (sql_max_ge _ _ _ Hb). now apply sql_min_In.
Qed.

End AggregateFacts.

(** ** The funnel aggregator *)

Module FunnelFacts.
Import Sql Staging Funnel SqlFacts AggregateFacts StagingFacts.

Section Ranked.
Variable st : list StagedEvent.
Hypothesis ranked : ranker_invariant st.

(** Every staged row has a row of rank 1 in its partition, dated no later. *)
Lemma first_of_partition (s : StagedEvent) :
  In s st ->
  exists r : StagedEvent,
    In r st /\ event_rank r = 1 /\ partition_key r = partition_key s
    /\ exists dr ds,
        event_date r = Some dr /\ event_date s = Some ds /\ dr <= ds.
Proof.
  intro Hs. destruct ranked as [Hdates Hparts].
  assert (Hd : forall x : StagedEvent,
             In x st -> exists d, event_date x = Some d).
  { intros x Hx. specialize (Hdates x Hx).
    destruct (event_date x) as [d|]; [now exists d | contradiction]. }
  destruct (Hparts (partition_key s)) as [Hperm Hmono].
  set (P := partition_rows (partition_key s) st) in *.
  assert (HsP : In s P).
  { apply filter_In. split; auto. now apply same_partition_eq. }
  assert (Hrank : In (event_rank s) (zseq 1 (length P))).
  { apply (Permutation_in _ Hperm). now apply in_map. }
  apply zseq_In in Hrank.
  destruct (Z.eq_dec (event_rank s) 1) as [E|E].
  - exists s. repeat split; auto.
    destruct (Hd s Hs) as [d Ed]. exists d, d. repeat split; auto. lia.
  - assert (H1 : In 1 (map event_rank P)).
    { apply (Permutation_in _ (Permutation_sym Hperm)), zseq_In. lia. }
    apply in_map_iff in H1 as (r & Hr1 & HrP).
    pose proof HrP as HrP'. apply filter_In in HrP' as [Hr Hk].
    apply same_partition_eq in Hk.
    exists r. repeat split; auto.
    destruct (Hd r Hr) as [dr Er], (Hd s Hs) as [ds Es].
    exists dr, ds. repeat split; auto.
    assert (Hle : le_z (event_date r) (event_date s) = true)
      by (apply Hmono; auto; lia).
    rewrite Er, Es in Hle. now apply Z.leb_le in Hle.
Qed.

Lemma rank1_clients (c : option Z) :
  In c (map (fun s : StagedEvent => Staging.client_id s)
          (filter (fun s => event_rank s =? 1) st))
  <-> In c (map (fun s : StagedEvent => Staging.client_id s) st).
Proof.
  rewrite !in_map_iff. split.
  - intros (s & <- & Hs). apply filter_In in Hs as [Hs _]. now exists s.
  - intros (s & <- & Hs).
    destruct (first_of_partition s Hs) as (r & Hr & Hr1 & Hk & _).
    exists r. split.
    + unfold partition_key in Hk. congruence.
    + apply filter_In. split; auto. now apply Z.eqb_eq.
Qed.

(** MIN over the rows of rank 1 is MIN over all the rows. *)
Lemma min_date_rank1 (c : option Z) (t : string) :
  sql_min (map (date_when t)
             (rows_of same_z (fun s : StagedEvent => Staging.client_id s) c
                (filter (fun s => event_rank s =? 1) st)))
  = sql_min (map (date_when t)
               (rows_of same_z (fun s : StagedEvent => Staging.client_id s) c
                  st)).
Proof.
  apply sql_min_ext.
  - intros x Hx. apply in_map_iff in Hx as (s & Hx & Hs).
    apply in_map_iff. exists s. split; auto.
    apply (rows_of_In _ _ same_z_eq) in Hs as [Hs Hc].
    apply (rows_of_In _ _ same_z_eq). split; auto.
    now apply filter_In in Hs as [Hs _].
  - intros x Hx. apply in_map_iff in Hx as (s & Hx & Hs).
    apply (rows_of_In _ _ same_z_eq) in Hs as [Hs Hc].
    destruct (first_of_partition s Hs)
      as (r & Hr & Hr1 & Hk & dr & ds & Er & Es & Hle).
    unfold partition_key in Hk. injection Hk as Hkc Hkt.
    unfold date_when in Hx.
    destruct (eq_str (event_type s) t) eqn:Et; [|discriminate].
    exists dr. split.
    + apply in_map_iff. exists r. split.
      * unfold date_when. rewrite Hkt, Et. exact Er.
      * apply (rows_of_In _ _ same_z_eq). split; [|congruence].
        apply filter_In. split; auto. now apply Z.eqb_eq.
    + congruence.
Qed.

Lemma funnel_row_rank1 (c : option Z) :
  funnel_row (c, rows_of same_z (fun s : StagedEvent => Staging.client_id s) c
                   (filter (fun s => event_rank s =? 1) st))
  = funnel_row (c, rows_of same_z
                     (fun s : StagedEvent => Staging.client_id s) c st).
Proof.
  unfold funnel_row. simpl. now rewrite !min_date_rank1.
Qed.
End Ranked.

Lemma funnel_clients_NoDup (rows : list StagedEvent) :
  NoDup (map client_id
           (map funnel_row
              (group_by same_z (fun s : StagedEvent => Staging.client_id s)
                 rows))).
Proof.
  rewrite map_map. simpl.
  apply (group_by_NoDup same_z _ same_z_eq).
Qed.

(** MIN(CASE WHEN event_type = t THEN event_date END) over the rows of a
    client is the earliest date of the rows of the client and the type. *)
Lemma min_date_earliest (st : list StagedEvent) (c : option Z) (t : string)
    (d : Z) :
  sql_min (map (date_when t)
             (rows_of same_z (fun s : StagedEvent => Staging.client_id s) c
                st)) = Some d
  <-> (exists s : StagedEvent,
          In s st /\ Staging.client_id s = c /\ event_type s = Some t
          /\ event_date s = Some d)
      /\ (forall (s : StagedEvent) (x : Z),
             In s st -> Staging.client_id s = c -> event_type s = Some t ->
             event_date s = Some x -> d <= x).
Proof.
  assert (Hin : forall x,
             In (Some x)
                (map (date_when t)
                   (rows_of same_z
                      (fun s : StagedEvent => Staging.client_id s) c st))
             <-> exists s : StagedEvent,
                   In s st /\ Staging.client_id s = c
                   /\ event_type s = Some t /\ event_date s = Some x).
  { intro x. rewrite in_map_iff. split.
    - intros (s & Hx & Hs).
      apply (rows_of_In _ _ same_z_eq) in Hs as [Hs Hc].
      unfold date_when in Hx.
      destruct (eq_str (event_type s) t) eqn:Et; [|discriminate].
      apply eq_str_eq in Et. exists s. auto.
    - intros (s & Hs & Hc & Ht & Hx). exists s. split.
      + unfold date_when. now rewrite (proj2 (eq_str_eq _ _) Ht).
      + now apply (rows_of_In _ _ same_z_eq). }
  split.
  - intro H. split.
    + apply Hin. now apply sql_min_In.
    + intros s x Hs Hc Ht Hx. apply (sql_min_le _ _ _ H).
      apply Hin. eauto.
  - intros [Hex Hle]. apply sql_min_least.
    + now apply Hin.
    + intros x Hx. apply Hin in Hx as (s & Hs & Hc & Ht & Hx). eauto.
Qed.

(** C2.  On a staging table with the ranker's guarantee, the funnel table
    has one record per client of the staging table, and each of its five
    dates, taken by the code as MIN over the rows of rank 1, is the earliest
    event_date among all the rows of the client and the event type, of
    whatever rank (and is missing when the client has no row of the type).
    So the table holds the same records as the one that ignores event_rank
    and takes MIN over all the rows. *)
Theorem rank1_filter_is_redundant (st : list StagedEvent) :
  ranker_invariant st ->
  Permutation (create_funnel_analysis st) (funnel_min_over_all_rows st)
  /\ NoDup (map client_id (create_funnel_analysis st))
  /\ columns (create_funnel_analysis st)
     = columns (funnel_min_over_all_rows st)
  /\ (forall c : option Z,
        In c (map client_id (create_funnel_analysis st))
        <-> In c (map (fun s : StagedEvent => Staging.client_id s) st))
  /\ (forall r,
        In r (rows (create_funnel_analysis st)) ->
        let earliest (t : string) (date : option Z) :=
          forall d : Z,
            date = Some d
            <-> (exists s : StagedEvent,
                    In s st /\ Staging.client_id s = client_id r
                    /\ event_type s = Some t /\ event_date s = Some d)
                /\ (forall (s : StagedEvent) (x : Z),
                       In s st -> Staging.client_id s = client_id r ->
                       event_type s = Some t -> event_date s = Some x ->
                       d <= x) in
        earliest "applied" (applied_date r)
        /\ earliest "docs_submitted" (docs_submitted_date r)
        /\ earliest "rejected" (rejected_date r)
        /\ earliest "signed" (signed_date r)
        /\ earliest "churned" (churned_date r)).
Proof.
  intro Hinv.
  split; [|split; [apply funnel_clients_NoDup|split; [reflexivity|split]]].
  - apply NoDup_Permutation.
    + eapply NoDup_map_inv. apply funnel_clients_NoDup.
    + eapply NoDup_map_inv. apply funnel_clients_NoDup.
    + intro r. unfold create_funnel_analysis, funnel_min_over_all_rows.
      simpl. rewrite !in_map_iff. split.
      * intros (g & <- & Hg).
        apply (group_by_In same_z _ same_z_eq) in Hg as [Hk Hrows].
        exists (fst g, rows_of same_z
                         (fun s : StagedEvent => Staging.client_id s)
                         (fst g) st).
        split.
        -- rewrite <- (funnel_row_rank1 st Hinv).
           destruct g; simpl in *. now subst.
        -- apply (group_by_In same_z _ same_z_eq). simpl. split; auto.
           now apply (rank1_clients st Hinv).
      * intros (g & <- & Hg).
        apply (group_by_In same_z _ same_z_eq) in Hg as [Hk Hrows].
        exists (fst g, rows_of same_z
                         (fun s : StagedEvent => Staging.client_id s)
                         (fst g)
                         (filter (fun s => event_rank s =? 1) st)).
        split.
        -- rewrite (funnel_row_rank1 st Hinv).
           destruct g; simpl in *. now subst.
        -- apply (group_by_In same_z _ same_z_eq). simpl. split; auto.
           now apply (rank1_clients st Hinv).
  - intro c. rewrite <- (rank1_clients st Hinv c).
    unfold create_funnel_analysis. cbn [rows read_sql_query].
    rewrite map_map. simpl.
    change (map (fun x : option Z * list StagedEvent => fst x)) with
      (map (@fst (option Z) (list StagedEvent))).
    rewrite (group_by_keys same_z).
    apply (distinct_In same_z same_z_eq).
  - intros r Hr. unfold create_funnel_analysis in Hr.
    cbn [rows read_sql_query] in Hr.
    apply in_map_iff in Hr as (g & <- & Hg).
    apply (group_by_In same_z _ same_z_eq) in Hg as [_ Hrows].
    cbv zeta. unfold funnel_row.
    cbn [client_id applied_date docs_submitted_date rejected_date
           signed_date churned_date].
    rewrite Hrows, !(min_date_rank1 st Hinv).
    split; [|split; [|split; [|split]]]; intro d; apply min_date_earliest.
Qed.

(** C2 at a sample with repeated events: the filter on event_rank drops
    the second application of client 1002 and the later signature of
    client 1003. *)
Lemma rank1_filter_is_redundant_witness :
  let st := Samples.staged Samples.repeated_events in
  (length (filter (fun s : StagedEvent => (event_rank s =? 1)%Z) st)
   < length st)%nat
  /\ Permutation (create_funnel_analysis st) (funnel_min_over_all_rows st)
  /\ NoDup (map client_id (create_funnel_analysis st))
  /\ columns (create_funnel_analysis st)
     = columns (funnel_min_over_all_rows st)
  /\ (forall c : option Z,
        In c (map client_id (create_funnel_analysis st))
        <-> In c (map (fun s : StagedEvent => Staging.client_id s) st))
  /\ (forall r,
        In r (rows (create_funnel_analysis st)) ->
        let earliest (t : string) (date : option Z) :=
          forall d : Z,
            date = Some d
            <-> (exists s : StagedEvent,
                    In s st /\ Staging.client_id s = client_id r
                    /\ event_type s = Some t /\ event_date s = Some d)
                /\ (forall (s : StagedEvent) (x : Z),
                       In s st -> Staging.client_id s = client_id r ->
                       event_type s = Some t -> event_date s = Some x ->
                       d <= x) in
        earliest "applied" (applied_date r)
        /\ earliest "docs_submitted" (docs_submitted_date r)
        /\ earliest "rejected" (rejected_date r)
        /\ earliest "signed" (signed_date r)
        /\ earliest "churned" (churned_date r)).
Proof.
  intro st. split; [vm_compute; lia|].
  apply (rank1_filter_is_redundant st).
  apply staging_ranker_invariant.
Defined.

Lemma notna_sum_bounds (col : FunnelRecord -> option Z)
    (funnel_df : list FunnelRecord) :
  0 <= notna_sum col funnel_df <= Z.of_nat (length funnel_df).
Proof.
  unfold notna_sum. split; [lia|].
  apply inj_le, filter_length_le.
Qed.

Lemma guarded_div_nonneg (num den : Z) :
  0 <= num -> (0 <= guarded_div num den)%Q.
Proof.
  intro Hn. unfold guarded_div.
  destruct (Z.gtb_spec den 0) as [Hd|Hd]; [|apply Qle_refl].
  apply Qle_shift_div_l.
  - change (inject_Z 0 < inject_Z den)%Q. rewrite <- Zlt_Qlt. lia.
  - rewrite Qmult_0_l. change (inject_Z 0 <= inject_Z num)%Q.
    now rewrite <- Zle_Qle.
Qed.

Lemma guarded_div_le_1 (num den : Z) :
  num <= den -> (guarded_div num den <= 1)%Q.
Proof.
  intro Hn. unfold guarded_div.
  destruct (Z.gtb_spec den 0) as [Hd|Hd]; [|discriminate].
  apply Qle_shift_div_r.
  - change (inject_Z 0 < inject_Z den)%Q. rewrite <- Zlt_Qlt. lia.
  - rewrite Qmult_1_l. now rewrite <- Zle_Qle.
Qed.

Lemma guarded_div_zero (num den : Z) : den = 0 -> guarded_div num den = 0%Q.
Proof. intros ->. reflexivity. Qed.

(** C3, as amended.  [application_rate] lies in [0, 1].  Each of the other
    four rates is at least 0 and lies in [0, 1] whenever its numerator count
    does not exceed its denominator count.  Every rate is 0 when its
    denominator is 0. *)
Theorem funnel_rates_guarded (funnel_df : list FunnelRecord) :
  let m := analyze_funnel_metrics funnel_df in
  (0 <= application_rate m /\ application_rate m <= 1)%Q
  /\ (0 <= docs_submission_rate m /\ 0 <= rejection_rate m
      /\ 0 <= conversion_rate m /\ 0 <= churn_rate m)%Q
  /\ (total_clients m = 0 -> application_rate m = 0%Q)
  /\ (applied_clients m = 0 ->
      docs_submission_rate m = 0%Q /\ rejection_rate m = 0%Q
      /\ conversion_rate m = 0%Q)
  /\ (signed_clients m = 0 -> churn_rate m = 0%Q)
  /\ (docs_submitted_clients m <= applied_clients m ->
      (docs_submission_rate m <= 1)%Q)
  /\ (rejected_clients m <= applied_clients m -> (rejection_rate m <= 1)%Q)
  /\ (signed_clients m <= applied_clients m -> (conversion_rate m <= 1)%Q)
  /\ (churned_clients m <= signed_clients m -> (churn_rate m <= 1)%Q).
Proof.
  intro m. subst m. unfold analyze_funnel_metrics. simpl.
  pose proof (notna_sum_bounds applied_date funnel_df).
  pose proof (notna_sum_bounds docs_submitted_date funnel_df).
  pose proof (notna_sum_bounds rejected_date funnel_df).
  pose proof (notna_sum_bounds signed_date funnel_df).
  pose proof (notna_sum_bounds churned_date funnel_df).
  repeat split;
    try (match goal with |- _ = _ -> _ => intro; repeat split
                    | |- (_ <= _)%Z -> _ => intro end);
    first [ apply guarded_div_nonneg; lia
          | apply guarded_div_le_1; lia
          | apply guarded_div_zero; lia ].
Qed.

(** [active_clients] is never negative: it is signed - churned when that
    is not negative, and 0 otherwise. *)
Theorem active_clients_not_negative (funnel_df : list FunnelRecord) :
  let m := analyze_funnel_metrics funnel_df in
  0 <= active_clients m
  /\ active_clients m = Z.max (signed_clients m - churned_clients m) 0.
Proof.
  intro m. subst m. unfold analyze_funnel_metrics. simpl.
  destruct (Z.geb_spec (notna_sum signed_date funnel_df)
              (notna_sum churned_date funnel_df)); lia.
Qed.

(** Client 1001 of the specification: applied on 2024-01-01 and signed on
    2024-01-10 give these two funnel dates, and one signed client for one
    applied client. *)
Lemma client_1001_funnel :
  let funnel_df :=
    create_funnel_analysis
      (Samples.staged [Samples.ev 1 1001 "applied" 2024 1 1;
                       Samples.ev 2 1001 "signed" 2024 1 10]) in
  rows funnel_df
  = [mkFunnel (Some 1001) (Some (date_of_ymd 2024 1 1)) None None
              (Some (date_of_ymd 2024 1 10)) None]
  /\ (conversion_rate (analyze_funnel_metrics funnel_df) == 1)%Q.
Proof. split; vm_compute; reflexivity. Qed.

(** C3, as stated, fails: one client applies and signs, two more sign
    without applying, and the funnel reports a conversion rate of 3/1. *)
Lemma conversion_rate_above_one :
  (1 < conversion_rate
         (analyze_funnel_metrics
            (create_funnel_analysis
               (Samples.staged Samples.signed_without_applying))))%Q.
Proof. vm_compute. reflexivity. Qed.

End FunnelFacts.

(** ** The churn aggregator *)

Module ChurnFacts.
Import Sql Staging Churn SqlFacts StagingFacts.

(** C4 at the failing input.  Client 1003 applies and signs on the same
    day: both rows have rank 1 in their partitions and both carry the last
    date, the LEFT JOIN matches both, and the churn table holds two rows
    for the one client. *)
Theorem churn_rows_repeat_client (now : Q) :
  map client_id (create_churn_analysis now (Samples.staged Samples.same_day))
  = [Some 1003; Some 1003]
  /\ map last_event_type
       (create_churn_analysis now (Samples.staged Samples.same_day))
     = [Some "applied"; Some "signed"]
  /\ map le_client_id (last_events (Samples.staged Samples.same_day))
     = [Some 1003].
Proof. repeat split. Qed.

Lemma left_join_In {L R} (on : L -> R -> bool) (l : list L) (r : list R)
    (a : L) (ob : option R) :
  In (a, ob) (left_join on l r) <->
  In a l /\ ((ob = None /\ forall b, In b r -> on a b = false)
             \/ exists b, ob = Some b /\ In b r /\ on a b = true).
Proof.
  unfold left_join. rewrite in_flat_map. split.
  - intros (a' & Ha' & Hin).
    destruct (filter (on a') r) as [|b0 m] eqn:E.
    + destruct Hin as [[= <- <-]|[]]. split; auto. left. split; auto.
      intros b Hb. destruct (on a' b) eqn:Eb; auto.
      assert (In b (filter (on a') r)) as Hf by (apply filter_In; auto).
      rewrite E in Hf. destruct Hf.
    + rewrite <- E in Hin. apply in_map_iff in Hin as (b & [= <- <-] & Hb).
      apply filter_In in Hb as [Hb Hon]. split; auto. right. eauto.
  - intros [Ha [[-> Hnone]|(b & -> & Hb & Hon)]]; exists a; split; auto.
    + rewrite (filter_none (on a) r Hnone). now left.
    + assert (In b (filter (on a) r)) as Hf by (apply filter_In; auto).
      destruct (filter (on a) r) as [|b0 m] eqn:E; [destruct Hf|].
      rewrite <- E. apply in_map_iff. exists b. split; auto.
      now rewrite E.
Qed.

Lemma last_events_In (st : list StagedEvent) (le : LastEvents) :
  In le (last_events st) <->
  exists c,
    In c (map (fun s : StagedEvent => Staging.client_id s) st)
    /\ le = (let g := rows_of same_z
                        (fun s : StagedEvent => Staging.client_id s) c st in
             mkLast c
               (sql_max (map (fun s : StagedEvent => event_date s) g))
               (sql_max (map (date_when "applied") g))
               (sql_max (map (date_when "signed") g))
               (sql_max (map (date_when "churned") g))).
Proof.
  unfold last_events. rewrite in_map_iff. split.
  - intros (g & <- & Hg).
    apply (group_by_In same_z _ same_z_eq) in Hg as [Hk Hrows].
    exists (fst g). split; auto. simpl. now rewrite <- Hrows.
  - intros (c & Hc & ->).
    exists (c, rows_of same_z
                 (fun s : StagedEvent => Staging.client_id s) c st).
    split; auto. now apply (group_by_In same_z _ same_z_eq).
Qed.

(** X2.  What the churn table holds for every staging table: every client of
    the staging table and no other; per row the latest date of the client,
    and as last_event_type either the type of a staged row of rank 1 of
    that client dated on the latest date, or NULL when the staging table
    has no such row, and always NULL on the row of the events without
    client_id, which the join matches with no row; is_churned tells
    whether a churned date is present. *)
Theorem churn_table_rows (now : Q) (st : list StagedEvent) :
  (forall c,
      In c (map (fun s : StagedEvent => Staging.client_id s) st)
      <-> In c (map client_id (create_churn_analysis now st)))
  /\ (forall r,
        In r (create_churn_analysis now st) ->
        last_event_date r
        = sql_max (map (fun s : StagedEvent => event_date s)
                     (rows_of same_z
                        (fun s : StagedEvent => Staging.client_id s)
                        (client_id r) st))
        /\ ((last_event_type r = None
             /\ forall se : StagedEvent,
                 In se st ->
                 eq_z (client_id r) (Staging.client_id se)
                 && eq_z (last_event_date r) (event_date se)
                 && (event_rank se =? 1) = false)
            \/ exists (se : StagedEvent) (c d : Z),
                In se st
                /\ client_id r = Some c /\ Staging.client_id se = Some c
                /\ last_event_date r = Some d /\ event_date se = Some d
                /\ event_rank se = 1
                /\ last_event_type r = event_type se)
        /\ (client_id r = None -> last_event_type r = None)
        /\ is_churned r = (if not_null (churned_date r) then 1 else 0)).
Proof.
  split.
  - intro c. unfold create_churn_analysis, last_event_details. simpl.
    rewrite !map_map. simpl. split.
    + intro Hc. apply in_map_iff.
      set (le := let g := rows_of same_z
                            (fun s : StagedEvent => Staging.client_id s) c st in
                 mkLast c
                   (sql_max (map (fun s : StagedEvent => event_date s) g))
                   (sql_max (map (date_when "applied") g))
                   (sql_max (map (date_when "signed") g))
                   (sql_max (map (date_when "churned") g))).
      assert (Hle : In le (last_events st))
        by (apply last_events_In; exists c; split; [exact Hc|reflexivity]).
      destruct (filter (join_on le) st) as [|se m] eqn:E.
      * exists (le, None). split; auto. apply left_join_In. split; auto.
        left. split; auto. intros b Hb.
        destruct (join_on le b) eqn:Eb; auto.
        assert (In b (filter (join_on le) st)) as Hf
            by (apply filter_In; auto).
        rewrite E in Hf. destruct Hf.
      * exists (le, Some se). split; auto. apply left_join_In. split; auto.
        right. exists se.
        assert (In se (filter (join_on le) st)) as Hf
            by (rewrite E; now left).
        apply filter_In in Hf. tauto.
    + intro H. apply in_map_iff in H as ([le ob] & <- & Hin).
      apply left_join_In in Hin as [Hle _].
      apply last_events_In in Hle as (c' & Hc' & ->). exact Hc'.
  - intros r Hr. unfold create_churn_analysis, last_event_details in Hr.
    simpl in Hr. rewrite map_map in Hr.
    apply in_map_iff in Hr as ([le ob] & <- & Hin).
    apply left_join_In in Hin as [Hle Hob].
    apply last_events_In in Hle as (c & Hc & ->). simpl.
    split; [reflexivity|].
    destruct Hob as [[-> Hnone]|(se & -> & Hse & Hon)].
    + split; [|split; reflexivity]. left. split; auto.
    + unfold join_on in Hon. simpl in Hon.
      apply andb_true_iff in Hon as [Hon Hrank].
      apply andb_true_iff in Hon as [Hclient Hdate].
      apply Z.eqb_eq in Hrank.
      destruct c as [c|], (Staging.client_id se) as [c'|] eqn:Ec;
        try discriminate.
      apply Z.eqb_eq in Hclient. subst c'.
      destruct (sql_max _) as [d|], (event_date se) as [d'|] eqn:Ed;
        try discriminate.
      apply Z.eqb_eq in Hdate. subst d'.
      split; [|split; [discriminate|reflexivity]].
      right. exists se, c, d. repeat split; auto.
Qed.

Lemma map_of_flat_map {A B C} (f : B -> C) (g : A -> list B) (l : list A) :
  map f (flat_map g l) = flat_map (fun x => map f (g x)) l.
Proof.
  induction l as [|x l IH]; simpl; auto. now rewrite map_app, IH.
Qed.

(** X3.  A client is on one row of the churn table when at most one staged row
    of rank 1 of that client carries the latest date of the client. *)
Theorem churn_one_row_without_ties (now : Q) (st : list StagedEvent)
    (c : option Z) :
  In c (map (fun s : StagedEvent => Staging.client_id s) st) ->
  (length
     (filter (fun se : StagedEvent =>
                eq_z c (Staging.client_id se)
                && eq_z (sql_max
                           (map (fun s : StagedEvent => event_date s)
                              (rows_of same_z
                                 (fun s : StagedEvent => Staging.client_id s)
                                 c st)))
                     (event_date se)
                && (event_rank se =? 1)%Z)
        st) <= 1)%nat ->
  length (filter (fun r => same_z (client_id r) c)
            (create_churn_analysis now st)) = 1%nat.
Proof.
  intros Hc Hone.
  set (le_of := fun k : option Z =>
         let g := rows_of same_z
                    (fun s : StagedEvent => Staging.client_id s) k st in
         mkLast k
           (sql_max (map (fun s : StagedEvent => event_date s) g))
           (sql_max (map (date_when "applied") g))
           (sql_max (map (date_when "signed") g))
           (sql_max (map (date_when "churned") g))).
  set (block := fun k : option Z =>
         map (fun p : LastEvents * option StagedEvent =>
                churn_row now
                  (fst p,
                   match snd p with
                   | Some se => event_type se
                   | None => None
                   end))
           match filter (join_on (le_of k)) st with
           | [] => [(le_of k, None)]
           | matches => map (fun b => (le_of k, Some b)) matches
           end).
  assert (Hrows : rows (create_churn_analysis now st)
                  = flat_map block
                      (distinct same_z
                         (map (fun s : StagedEvent => Staging.client_id s)
                            st))).
  { unfold create_churn_analysis, read_sql_query, last_event_details,
      left_join, last_events, group_by. cbn [rows].
    rewrite !map_map, flat_map_of_map, map_of_flat_map.
    apply flat_map_ext. intro k. reflexivity. }
  rewrite Hrows.
  rewrite (filter_blocks same_z client_id same_z_eq block _ c).
  - unfold block. rewrite length_map.
    change (join_on (le_of c)) with
      (fun se : StagedEvent =>
         eq_z c (Staging.client_id se)
         && eq_z (sql_max
                    (map (fun s : StagedEvent => event_date s)
                       (rows_of same_z
                          (fun s : StagedEvent => Staging.client_id s) c st)))
              (event_date se)
         && (event_rank se =? 1)).
    destruct (filter _ st) as [|se [|se' m]]; simpl in *; auto; lia.
  - apply distinct_NoDup, same_z_eq.
  - intros k r Hr. unfold block in Hr.
    apply in_map_iff in Hr as (p & <- & Hp). simpl.
    destruct (filter (join_on (le_of k)) st) as [|se m].
    + now destruct Hp as [<-|[]].
    + apply in_map_iff in Hp as (b & <- & _). reflexivity.
  - now apply (distinct_In same_z same_z_eq).
Qed.

(** The churn table on a sample without ties: one row for client 1001. *)
Lemma churn_one_row_witness :
  length (filter (fun r => same_z (client_id r) (Some 1001))
            (create_churn_analysis Samples.february_2024
               (Samples.staged Samples.signed_without_applying)))
  = 1%nat.
Proof.
  apply (churn_one_row_without_ties Samples.february_2024
           (Samples.staged Samples.signed_without_applying) (Some 1001)).
  - vm_compute. auto.
  - vm_compute. lia.
Defined.

End ChurnFacts.

(** ** The rule-checks *)

Module InconsistenciesFacts.
Import Sql Staging Inconsistencies SqlFacts AggregateFacts.

Lemma count_when_length (t : string) (g : list StagedEvent) :
  count_when t g
  = Z.of_nat (length (filter (fun s : StagedEvent =>
                                eq_str (event_type s) t) g)).
Proof.
  unfold count_when, sql_count. f_equal.
  induction g as [|s g IH]; simpl; auto.
  destruct (eq_str (event_type s) t); simpl; now rewrite IH.
Qed.

Lemma count_when_pos (t : string) (g : list StagedEvent) :
  0 < count_when t g <->
  exists s : StagedEvent, In s g /\ event_type s = Some t.
Proof.
  rewrite count_when_length. split.
  - intro H.
    destruct (filter (fun s : StagedEvent => eq_str (event_type s) t) g)
      as [|s l] eqn:E; [simpl in H; lia|].
    assert (In s (s :: l)) as Hs by now left.
    rewrite <- E in Hs. apply filter_In in Hs as [Hs Ht].
    exists s. split; auto. now apply eq_str_eq.
  - intros (s & Hs & Ht).
    assert (In s (filter (fun s : StagedEvent => eq_str (event_type s) t) g))
      as Hin by (apply filter_In; split; auto; now apply eq_str_eq).
    destruct (filter _ g); [destruct Hin | simpl; lia].
Qed.

Lemma count_when_zero (t : string) (g : list StagedEvent) :
  count_when t g = 0 <->
  forall s : StagedEvent, In s g -> event_type s <> Some t.
Proof.
  split.
  - intros H s Hs Ht.
    assert (0 < count_when t g) by (apply count_when_pos; eauto). lia.
  - intro H. destruct (Z.eq_dec (count_when t g) 0) as [E|E]; auto.
    assert (0 < count_when t g) as Hpos.
    { rewrite count_when_length in *. lia. }
    apply count_when_pos in Hpos as (s & Hs & Ht). now destruct (H s Hs).
Qed.

(** The rows of the staging table that belong to one client. *)
Lemma client_rows_In (c : option Z) (st : list StagedEvent)
    (s : StagedEvent) :
  In s (rows_of same_z by_client c st) <-> In s st /\ client_id s = c.
Proof. apply (rows_of_In same_z by_client same_z_eq). Qed.

Lemma client_group_In (st : list StagedEvent)
    (g : option Z * list StagedEvent) :
  In g (group_by same_z by_client st) <->
  In (fst g) (map by_client st)
  /\ snd g = rows_of same_z by_client (fst g) st.
Proof. apply (group_by_In same_z by_client same_z_eq). Qed.

(** C5.  A client with a churned event and no signed event is in the
    output of [analyze_churned_without_signed], with signed_count = 0 and
    churned_count >= 1; no client with a signed event is in it. *)
Theorem churned_without_signed_findings (st : list StagedEvent) :
  (forall c : option Z,
      (exists s : StagedEvent,
          In s st /\ client_id s = c /\ event_type s = Some "churned") ->
      (forall s : StagedEvent,
          In s st -> client_id s = c -> event_type s <> Some "signed") ->
      exists f,
        In f (analyze_churned_without_signed st)
        /\ q3_client_id f = c /\ q3_signed_count f = 0
        /\ q3_churned_count f >= 1)
  /\ (forall f,
         In f (analyze_churned_without_signed st) ->
         forall s : StagedEvent,
           In s st -> client_id s = q3_client_id f ->
           event_type s <> Some "signed").
Proof.
  split.
  - intros c (s0 & Hs0 & Hc0 & Ht0) Hnone.
    set (g := rows_of same_z by_client c st).
    assert (Hchurned : 0 < count_when "churned" g).
    { apply count_when_pos. exists s0. split; auto.
      now apply client_rows_In. }
    assert (Hsigned : count_when "signed" g = 0).
    { apply count_when_zero. intros s Hs.
      apply client_rows_In in Hs as [Hs Hc]. now apply Hnone. }
    exists (mkQ3 c "Q3_churned_without_signed"
                 "Client churned without ever signing"
                 (first_date_when "churned" g)
                 (count_when "signed" g) (count_when "churned" g)).
    simpl. repeat split; auto; [|lia].
    unfold analyze_churned_without_signed. simpl.
    apply in_map_iff.
    exists (c, count_when "signed" g, count_when "churned" g,
            first_date_when "churned" g).
    split; auto. apply filter_In. split.
    + apply in_map_iff. exists (c, g). split; auto.
      apply client_group_In. simpl. split; auto.
      apply in_map_iff. now exists s0.
    + rewrite Hsigned. simpl. rewrite andb_true_r. now apply Z.gtb_lt.
  - intros f Hf s Hs Hc.
    unfold analyze_churned_without_signed in Hf. simpl in Hf.
    apply in_map_iff in Hf as ([[[c n_signed] n_churned] d] & <- & Hf).
    apply filter_In in Hf as [Hf Hwhere].
    apply in_map_iff in Hf as (g & [= <- <- <- <-] & Hg).
    apply client_group_In in Hg as [_ Hrows].
    apply andb_true_iff in Hwhere as [_ Hzero]. apply Z.eqb_eq in Hzero.
    simpl in Hc. rewrite Hrows in Hzero.
    apply (proj1 (count_when_zero _ _) Hzero).
    now apply client_rows_In.
Qed.

(** C5 at a sample: client 2001 churned and never signed, client 2002
    signed and churned. *)
Lemma churned_without_signed_witness :
  let st := Samples.staged
              [Samples.ev 1 2001 "applied" 2024 1 1;
               Samples.ev 2 2001 "churned" 2024 2 1;
               Samples.ev 3 2002 "signed" 2024 1 5;
               Samples.ev 4 2002 "churned" 2024 3 1] in
  exists f,
    In f (analyze_churned_without_signed st)
    /\ q3_client_id f = Some 2001 /\ q3_signed_count f = 0
    /\ q3_churned_count f >= 1.
Proof.
  intro st.
  apply (proj1 (churned_without_signed_findings st) (Some 2001)).
  - exists (mkStaged (fill_missing_values_row
                        (Samples.ev 2 2001 "churned" 2024 2 1)) 1).
    vm_compute. auto.
  - intros s Hs Hc Ht. vm_compute in Hs.
    repeat (destruct Hs as [<-|Hs]; [discriminate|]). exact Hs.
Defined.

(** *** One finding per client in the per-client checks *)

(** A WHERE keeps the values of a column distinct. *)
Lemma NoDup_map_filter {Row Col : Type} (keep : Row -> bool)
    (col : Row -> Col) (table : list Row)
    (distinct_col : NoDup (map col table)) :
  NoDup (map col (filter keep table)).
Proof.
  revert distinct_col.
  induction table as [|row table IH]; simpl; intro Hnd; [exact Hnd|].
  apply NoDup_cons_iff in Hnd as [Hrow Htable].
  destruct (keep row); simpl; [|now apply IH].
  constructor; [|now apply IH].
  rewrite in_map_iff. intros (row' & Hcol & Hin).
  apply filter_In in Hin as [Hin _].
  apply Hrow, in_map_iff. now exists row'.
Qed.

Lemma client_groups_NoDup (st : list StagedEvent) :
  NoDup (map fst (group_by same_z by_client st)).
Proof. apply (group_by_NoDup same_z by_client same_z_eq). Qed.

Lemma q3_clients_NoDup (st : list StagedEvent) :
  NoDup (map q3_client_id (analyze_churned_without_signed st)).
Proof.
  unfold analyze_churned_without_signed. simpl.
  rewrite map_map.
  rewrite (map_ext _ (fun r => fst (fst (fst r))))
    by (now intros [[[c n] m] d]).
  apply NoDup_map_filter. rewrite map_map. simpl.
  apply client_groups_NoDup.
Qed.

Lemma q6_clients_NoDup (now : Q) (st : list StagedEvent) :
  NoDup (map q6_client_id (analyze_long_inactive_unsigned now st)).
Proof.
  unfold analyze_long_inactive_unsigned. simpl.
  rewrite map_map.
  rewrite (map_ext _ (fun r => fst (fst (fst r))))
    by (now intros [[[c n] m] d]).
  apply NoDup_map_filter. rewrite map_map. simpl.
  apply client_groups_NoDup.
Qed.

Lemma q2_clients_NoDup (st : list StagedEvent) :
  NoDup (map q2_client_id (analyze_signed_without_applied st)).
Proof.
  unfold analyze_signed_without_applied. simpl.
  rewrite map_map.
  rewrite (map_ext _ (fun r => fst (fst (fst r))))
    by (now intros [[[c n] m] d]).
  apply NoDup_map_filter. rewrite map_map. simpl.
  apply client_groups_NoDup.
Qed.

Lemma q1_clients_NoDup (st : list StagedEvent)
    (df : DataFrame MultipleApplications) :
  analyze_multiple_applications st = Ok df ->
  NoDup (map q1_client_id df).
Proof.
  unfold analyze_multiple_applications.
  destruct (multiple_apps st) as [|a l]; [intros [= <-]; constructor|].
  destruct (client_ids_str _) as [ids|]; [|discriminate].
  intros [= <-]. simpl. rewrite map_map. simpl.
  apply client_groups_NoDup.
Qed.

Lemma sequence_clients_NoDup (st : list StagedEvent) :
  NoDup (map sv_client_id (analyze_event_sequence_violations st)).
Proof.
  unfold analyze_event_sequence_violations. simpl.
  apply order_by_map_NoDup, NoDup_map_filter.
  rewrite map_map. simpl. apply client_groups_NoDup.
Qed.

Lemma docs_clients_NoDup (st : list StagedEvent) :
  NoDup (map dp_client_id (analyze_docs_submitted_pattern st)).
Proof.
  unfold analyze_docs_submitted_pattern. simpl.
  apply order_by_map_NoDup, NoDup_map_filter.
  rewrite map_map. simpl. apply client_groups_NoDup.
Qed.

Lemma plan_clients_NoDup (st : list StagedEvent) :
  NoDup (map pi_client_id (analyze_plan_inconsistencies st)).
Proof.
  unfold analyze_plan_inconsistencies. simpl.
  apply order_by_map_NoDup, NoDup_map_filter.
  rewrite map_map. simpl. apply client_groups_NoDup.
Qed.

(** *** Every check writes its own inconsistency_type *)

Lemma q3_type (st : list StagedEvent) (r : ChurnedWithoutSigned) :
  In r (analyze_churned_without_signed st) ->
  q3_inconsistency_type r = "Q3_churned_without_signed".
Proof.
  unfold analyze_churned_without_signed. simpl. rewrite in_map_iff.
  now intros ([[[c n] m] d] & <- & _).
Qed.

Lemma q6_type (now : Q) (st : list StagedEvent) (r : LongInactiveUnsigned) :
  In r (analyze_long_inactive_unsigned now st) ->
  q6_inconsistency_type r = "Q6_long_inactive_unsigned".
Proof.
  unfold analyze_long_inactive_unsigned. simpl. rewrite in_map_iff.
  now intros ([[[c n] m] d] & <- & _).
Qed.

Lemma q2_type (st : list StagedEvent) (r : SignedWithoutApplied) :
  In r (analyze_signed_without_applied st) ->
  q2_inconsistency_type r = "Q2_signed_without_applied".
Proof.
  unfold analyze_signed_without_applied. simpl. rewrite in_map_iff.
  now intros ([[[c n] m] d] & <- & _).
Qed.

Lemma q1_type (st : list StagedEvent) (df : DataFrame MultipleApplications)
    (r : MultipleApplications) :
  analyze_multiple_applications st = Ok df -> In r df ->
  q1_inconsistency_type r = "Q1_multiple_applications".
Proof.
  unfold analyze_multiple_applications.
  destruct (multiple_apps st) as [|a l]; [now intros [= <-]|].
  destruct (client_ids_str _) as [ids|]; [|discriminate].
  intros [= <-]. simpl. rewrite in_map_iff. now intros (g & <- & _).
Qed.

Lemma unknown_type (st : list StagedEvent) (r : UnknownValues) :
  In r (analyze_unknown_values st) ->
  uv_inconsistency_type r = "unknown_values".
Proof.
  unfold analyze_unknown_values. simpl. rewrite order_by_In, in_map_iff.
  now intros (s & <- & _).
Qed.

Lemma sequence_type (st : list StagedEvent) (r : SequenceViolation) :
  In r (analyze_event_sequence_violations st) ->
  sv_inconsistency_type r = "sequence_violation".
Proof.
  unfold analyze_event_sequence_violations. simpl.
  rewrite order_by_In, filter_In, in_map_iff.
  now intros [(g & <- & _) _].
Qed.

Lemma docs_type (st : list StagedEvent) (r : DocsPattern) :
  In r (analyze_docs_submitted_pattern st) ->
  dp_inconsistency_type r = "docs_submitted_analysis".
Proof.
  unfold analyze_docs_submitted_pattern. simpl.
  rewrite order_by_In, filter_In, in_map_iff.
  now intros [(g & <- & _) _].
Qed.

Lemma plan_type (st : list StagedEvent) (r : PlanInconsistency) :
  In r (analyze_plan_inconsistencies st) ->
  pi_inconsistency_type r = "plan_inconsistency".
Proof.
  unfold analyze_plan_inconsistencies. simpl.
  rewrite order_by_In, filter_In, in_map_iff.
  now intros [(g & <- & _) _].
Qed.

(** *** The rows of the combined table *)

Lemma rows_of_nonempty_frames (frames : list (DataFrame Finding)) :
  flat_map (fun df => rows df) (filter (fun df => negb (empty df)) frames)
  = flat_map (fun df => rows df) frames.
Proof.
  induction frames as [|df frames IH]; simpl; auto.
  unfold empty at 1. destruct (rows df) eqn:E; simpl; rewrite ?E, IH; auto.
Qed.

(** The combined table holds the findings of the eight checks, one check
    after the other. *)
Lemma summary_rows (now : Q) (st : list StagedEvent)
    (df : DataFrame Finding) :
  create_inconsistencies_summary now st = Ok df ->
  exists q1_results,
    analyze_multiple_applications st = Ok q1_results
    /\ rows df
       = (map OfQ3 (analyze_churned_without_signed st)
          ++ map OfQ6 (analyze_long_inactive_unsigned now st)
          ++ map OfQ2 (analyze_signed_without_applied st)
          ++ map OfQ1 q1_results
          ++ map OfUnknown (analyze_unknown_values st)
          ++ map OfSequence (analyze_event_sequence_violations st)
          ++ map OfDocs (analyze_docs_submitted_pattern st)
          ++ map OfPlan (analyze_plan_inconsistencies st))%list.
Proof.
  unfold create_inconsistencies_summary.
  destruct (analyze_multiple_applications st) as [q1_results|];
    [|discriminate].
  cbv zeta.
  match goal with
  | |- match ?L with _ => _ end = _ -> _ => set (frames := L)
  end.
  intro H. exists q1_results. split; auto.
  assert (rows df = flat_map (fun d => rows d) frames) as ->.
  { destruct frames; injection H as <-; reflexivity. }
  subst frames. rewrite rows_of_nonempty_frames. simpl.
  now rewrite app_nil_r.
Qed.

Lemma block_keys_NoDup (T : string) (l : list Finding) :
  NoDup (map finding_client_id l) ->
  (forall f, In f l -> finding_inconsistency_type f = T) ->
  NoDup (map finding_key l).
Proof.
  induction l as [|f l IH]; simpl; intros Hnd Ht; [constructor|].
  apply NoDup_cons_iff in Hnd as [Hf Hl]. constructor; auto.
  intro Hin. apply Hf. apply in_map_iff in Hin as (f' & E & Hf').
  apply in_map_iff. exists f'. split; auto.
  unfold finding_key in E. congruence.
Qed.

(** Blocks of findings with different inconsistency types, each with
    distinct clients, have distinct keys overall. *)
Lemma blocks_NoDup (blocks : list (string * list Finding)) :
  NoDup (map fst blocks) ->
  (forall b, In b blocks ->
     NoDup (map finding_client_id (snd b))
     /\ forall f, In f (snd b) -> finding_inconsistency_type f = fst b) ->
  NoDup (map finding_key (flat_map snd blocks)).
Proof.
  induction blocks as [|[T l] blocks IH]; simpl; intros Hnd Hb;
    [constructor|].
  apply NoDup_cons_iff in Hnd as [HT Hnd].
  destruct (Hb (T, l) (or_introl eq_refl)) as [Hl Ht]. simpl in *.
  rewrite map_app. apply NoDup_app.
  - now apply (block_keys_NoDup T).
  - apply IH; auto.
  - intros k Hk Hk'. apply HT.
    apply in_map_iff in Hk as (f & <- & Hf).
    apply in_map_iff in Hk' as (f' & E & Hf').
    apply in_flat_map in Hf' as ([T' l'] & Hb' & Hf'). simpl in Hf'.
    destruct (Hb (T', l') (or_intror Hb')) as [_ Ht']. simpl in Ht'.
    apply in_map_iff. exists (T', l'). split; auto. simpl.
    unfold finding_key in E. injection E as _ E.
    rewrite <- (Ht f Hf), <- (Ht' f' Hf'). auto.
Qed.

Lemma filter_all {A} (p : A -> bool) (l : list A) :
  (forall x, In x l -> p x = true) -> filter p l = l.
Proof.
  induction l as [|x l IH]; simpl; intro H; auto.
  rewrite (H x (or_introl eq_refl)). f_equal. apply IH.
  intros y Hy. apply H. now right.
Qed.

Lemma per_client_keeps {R} (tag : R -> Finding) (l : list R) (T : string) :
  String.eqb T "unknown_values" = false ->
  (forall r, In r l -> finding_inconsistency_type (tag r) = T) ->
  filter per_client (map tag l) = map tag l.
Proof.
  intros HT Hl. apply filter_all. intros f Hf.
  apply in_map_iff in Hf as (r & <- & Hr).
  unfold per_client. now rewrite (Hl r Hr), HT.
Qed.

Lemma not_per_client_drops {R} (tag : R -> Finding) (l : list R)
    (T : string) :
  String.eqb T "unknown_values" = false ->
  (forall r, In r l -> finding_inconsistency_type (tag r) = T) ->
  filter (fun f => negb (per_client f)) (map tag l) = [].
Proof.
  intros HT Hl. apply filter_none. intros f Hf.
  apply in_map_iff in Hf as (r & <- & Hr).
  unfold per_client. now rewrite (Hl r Hr), HT.
Qed.

(** C6, as amended.  In the combined table of
    [create_inconsistencies_summary], no two findings of the per-client
    rule-checks (all but unknown_values) share client_id and
    inconsistency_type; the other findings are those of the unknown_values
    check, one for every staged row with an unknown value and none
    besides, each with the record_id and the other columns of its row. *)
Theorem per_client_findings_key (now : Q) (st : list StagedEvent)
    (df : DataFrame Finding) :
  create_inconsistencies_summary now st = Ok df ->
  NoDup (map finding_key (filter per_client df))
  /\ Permutation
       (filter (fun f => negb (per_client f)) df)
       (map (fun s : StagedEvent => OfUnknown (unknown_finding s))
          (filter (fun s : StagedEvent => unknown_where s) st)).
Proof.
  intro H. destruct (summary_rows now st df H) as (q1 & Hq1 & ->).
  split.
  - rewrite !filter_app.
    rewrite (per_client_keeps OfQ3 _ "Q3_churned_without_signed" eq_refl
               (q3_type st)).
    rewrite (per_client_keeps OfQ6 _ "Q6_long_inactive_unsigned" eq_refl
               (q6_type now st)).
    rewrite (per_client_keeps OfQ2 _ "Q2_signed_without_applied" eq_refl
               (q2_type st)).
    rewrite (per_client_keeps OfQ1 _ "Q1_multiple_applications" eq_refl
               (fun r => q1_type st q1 r Hq1)).
    rewrite (per_client_keeps OfSequence _ "sequence_violation" eq_refl
               (sequence_type st)).
    rewrite (per_client_keeps OfDocs _ "docs_submitted_analysis" eq_refl
               (docs_type st)).
    rewrite (per_client_keeps OfPlan _ "plan_inconsistency" eq_refl
               (plan_type st)).
    rewrite (filter_none per_client
               (map OfUnknown (analyze_unknown_values st))).
    2:{ intros f Hf. apply in_map_iff in Hf as (r & <- & Hr).
        unfold per_client. simpl. now rewrite (unknown_type st r Hr). }
    set (blocks :=
           [("Q3_churned_without_signed",
             map OfQ3 (analyze_churned_without_signed st));
            ("Q6_long_inactive_unsigned",
             map OfQ6 (analyze_long_inactive_unsigned now st));
            ("Q2_signed_without_applied",
             map OfQ2 (analyze_signed_without_applied st));
            ("Q1_multiple_applications", map OfQ1 q1);
            ("sequence_violation",
             map OfSequence (analyze_event_sequence_violations st));
            ("docs_submitted_analysis",
             map OfDocs (analyze_docs_submitted_pattern st));
            ("plan_inconsistency",
             map OfPlan (analyze_plan_inconsistencies st))]).
    match goal with
    | |- NoDup (map finding_key ?l) =>
        replace l with (flat_map snd blocks)
          by (simpl; now rewrite app_nil_r)
    end.
    apply blocks_NoDup.
    + simpl. repeat (constructor; [simpl; intuition discriminate|]).
      constructor.
    + intros b Hb. simpl in Hb.
      repeat (destruct Hb as [<-|Hb]); try contradiction; simpl;
        rewrite map_map; simpl; (split; [|intros f Hf;
          apply in_map_iff in Hf as (r & <- & Hr); simpl]).
      * apply q3_clients_NoDup.
      * now apply (q3_type st).
      * apply q6_clients_NoDup.
      * now apply (q6_type now st).
      * apply q2_clients_NoDup.
      * now apply (q2_type st).
      * now apply (q1_clients_NoDup st).
      * now apply (q1_type st q1).
      * apply sequence_clients_NoDup.
      * now apply (sequence_type st).
      * apply docs_clients_NoDup.
      * now apply (docs_type st).
      * apply plan_clients_NoDup.
      * now apply (plan_type st).
  - rewrite !filter_app.
    rewrite (not_per_client_drops OfQ3 _ "Q3_churned_without_signed"
               eq_refl (q3_type st)).
    rewrite (not_per_client_drops OfQ6 _ "Q6_long_inactive_unsigned"
               eq_refl (q6_type now st)).
    rewrite (not_per_client_drops OfQ2 _ "Q2_signed_without_applied"
               eq_refl (q2_type st)).
    rewrite (not_per_client_drops OfQ1 _ "Q1_multiple_applications"
               eq_refl (fun r => q1_type st q1 r Hq1)).
    rewrite (not_per_client_drops OfSequence _ "sequence_violation"
               eq_refl (sequence_type st)).
    rewrite (not_per_client_drops OfDocs _ "docs_submitted_analysis"
               eq_refl (docs_type st)).
    rewrite (not_per_client_drops OfPlan _ "plan_inconsistency"
               eq_refl (plan_type st)).
    rewrite (filter_all (fun f => negb (per_client f))
               (map OfUnknown (analyze_unknown_values st))).
    2:{ intros f Hf. apply in_map_iff in Hf as (r & <- & Hr).
        unfold per_client. simpl. now rewrite (unknown_type st r Hr). }
    simpl. rewrite app_nil_r.
    unfold analyze_unknown_values. cbn [rows read_sql_query].
    rewrite <- (map_map (fun s : StagedEvent => unknown_finding s) OfUnknown).
    apply Permutation_map, order_by_perm.
Qed.

(** C6 at a sample of seven clients: the combined table holds nine
    findings of the per-client checks, of four inconsistency types, two of
    them on client 4001 and two on client 1002, and the two unknown_values
    findings on the rows of client 3001. *)
Lemma per_client_findings_key_witness :
  let st := Samples.staged Samples.several_findings in
  exists df,
    create_inconsistencies_summary Samples.february_2024 st = Ok df
    /\ length (filter per_client df) = 9%nat
    /\ In (Some 4001, "sequence_violation")
          (map finding_key (filter per_client df))
    /\ In (Some 4001, "docs_submitted_analysis")
          (map finding_key (filter per_client df))
    /\ NoDup (map finding_key (filter per_client df))
    /\ Permutation
         (filter (fun f => negb (per_client f)) df)
         (map (fun s : StagedEvent => OfUnknown (unknown_finding s))
            (filter (fun s : StagedEvent => unknown_where s) st)).
Proof.
  intro st. eexists. split; [vm_compute; reflexivity|].
  split; [vm_compute; reflexivity|].
  split; [vm_compute; tauto|]. split; [vm_compute; tauto|].
  refine (per_client_findings_key Samples.february_2024 st _ _).
  vm_compute. reflexivity.
Defined.

(** C6, as stated, fails: the two staged rows of client 3001 have no
    sales_rep_id, and the combined table holds two findings with the key
    (3001, unknown_values). *)
Lemma unknown_values_repeat_key :
  exists (df : DataFrame Finding) (f1 f2 : Finding),
    create_inconsistencies_summary Samples.february_2024
      (Samples.staged Samples.missing_sales_rep) = Ok df
    /\ nth_error df 0 = Some f1 /\ nth_error df 1 = Some f2
    /\ finding_key f1 = (Some 3001, "unknown_values")
    /\ finding_key f2 = (Some 3001, "unknown_values").
Proof.
  do 3 eexists. split; [vm_compute; reflexivity|].
  repeat split.
Qed.

(** *** Empty results *)

(** A combined table without rows has no columns either. *)
Lemma summary_without_rows (now : Q) (st : list StagedEvent)
    (df : DataFrame Finding) :
  create_inconsistencies_summary now st = Ok df ->
  rows df = [] -> columns df = [].
Proof.
  unfold create_inconsistencies_summary.
  destruct (analyze_multiple_applications st) as [q1_results|];
    [|discriminate].
  cbv zeta.
  match goal with
  | |- match ?L with _ => _ end = _ -> _ =>
      assert (Hne : forall d, In d L -> rows d <> []);
      [|destruct L as [|d frames]]
  end.
  - intros d Hd. apply filter_In in Hd as [_ Hd]. unfold empty in Hd.
    now destruct (rows d).
  - now intros [= <-].
  - intros [= <-]. simpl. intro E. apply app_eq_nil in E as [E _].
    now destruct (Hne d (or_introl eq_refl)).
Qed.

(** C7, as amended.  On the empty staging table every aggregator and every
    rule-check returns, and returns a table without rows that carries its
    columns; the combined findings table is the frame without rows and
    without columns, as it is whenever no check finds anything. *)
Theorem empty_input_results (now : Q) :
  Staging.create_staging_table [] = mkFrame staging_columns []
  /\ Funnel.create_funnel_analysis [] = mkFrame Funnel.funnel_columns []
  /\ Churn.create_churn_analysis now [] = mkFrame Churn.churn_columns []
  /\ analyze_churned_without_signed [] = mkFrame q3_columns []
  /\ analyze_long_inactive_unsigned now [] = mkFrame q6_columns []
  /\ analyze_signed_without_applied [] = mkFrame q2_columns []
  /\ analyze_multiple_applications [] = Ok (mkFrame q1_columns [])
  /\ analyze_unknown_values [] = mkFrame unknown_columns []
  /\ analyze_event_sequence_violations [] = mkFrame sequence_columns []
  /\ analyze_event_type_distribution [] = mkFrame distribution_columns []
  /\ analyze_docs_submitted_pattern [] = mkFrame docs_columns []
  /\ analyze_plan_inconsistencies [] = mkFrame plan_columns []
  /\ create_inconsistencies_summary now [] = Ok (mkFrame [] [])
  /\ (forall st df,
        create_inconsistencies_summary now st = Ok df ->
        rows df = [] -> columns df = []).
Proof.
  repeat split. apply summary_without_rows.
Qed.

(** C7, as stated, fails for the combined table: on the empty staging
    table it has no rows and none of the columns of a findings table. *)
Lemma empty_summary_has_no_columns :
  exists df : DataFrame Finding,
    create_inconsistencies_summary Samples.february_2024 [] = Ok df
    /\ rows df = []
    /\ ~ In "client_id" (columns df)
    /\ ~ In "inconsistency_type" (columns df)
    /\ ~ In "description" (columns df).
Proof.
  exists (mkFrame [] []). repeat split; auto.
Qed.

(** *** Multiple applications *)

Lemma cast_integer_inject_Z (q : Q) (z : Z) :
  (q == inject_Z z)%Q -> cast_integer q = z.
Proof.
  unfold Qeq, cast_integer. simpl. intro H.
  rewrite Z.mul_1_r in H. rewrite H. apply Z.quot_mul. discriminate.
Qed.

(** The difference of two julianday values of dates, cast to an integer,
    is the number of days between the dates. *)
Lemma cast_julianday_diff (a b : Z) :
  cast_integer (julianday a - julianday b) = a - b.
Proof.
  apply cast_integer_inject_Z. unfold julianday, Z.sub.
  rewrite inject_Z_plus, inject_Z_opp. ring.
Qed.

Lemma filter_filter {A} (p q : A -> bool) (l : list A) :
  filter p (filter q l) = filter (fun x => q x && p x) l.
Proof.
  induction l as [|x l IH]; simpl; auto.
  destruct (q x); simpl; [destruct (p x)|]; now rewrite IH.
Qed.

Lemma applied_rows_of_client (c : option Z) (st : list StagedEvent) :
  rows_of same_z by_client c (filter is_applied st) = applied_events c st.
Proof. unfold rows_of. apply filter_filter. Qed.

Lemma multiple_apps_In (st : list StagedEvent) (c : option Z) (n : Z) :
  In (c, n) (multiple_apps st) <->
  n = Z.of_nat (length (applied_events c st)) /\ 1 < n.
Proof.
  unfold multiple_apps. rewrite filter_In, in_map_iff. simpl. split.
  - intros [(g & [= <- <-] & Hg) Hn].
    apply client_group_In in Hg as [_ Hrows].
    rewrite Hrows, applied_rows_of_client in *.
    split; auto. now apply Z.gtb_lt.
  - intros [-> Hn]. split; [|now apply Z.gtb_lt].
    exists (c, applied_events c st). split; auto.
    apply client_group_In. simpl. split.
    + destruct (applied_events c st) as [|s l] eqn:E; [simpl in Hn; lia|].
      assert (In s (applied_events c st)) as Hs by (rewrite E; now left).
      apply filter_In in Hs as [Hs Hp].
      apply andb_true_iff in Hp as [Ha Hc]. apply same_z_eq in Hc.
      apply in_map_iff. exists s. split; auto.
      apply filter_In. auto.
    + now rewrite applied_rows_of_client.
Qed.

Lemma non_null_In {A} (l : list (option A)) (x : A) :
  In x (non_null l) <-> In (Some x) l.
Proof.
  induction l as [|[y|] l IH]; simpl; [tauto| |].
  - rewrite IH. split; intros [H|H]; auto; left; congruence.
  - rewrite IH. split; [auto|]. intros [H|H]; [discriminate|auto].
Qed.

Lemma in_list_spec (v : option Z) (ids : list Z) :
  in_list v ids = true <-> exists i, v = Some i /\ In i ids.
Proof.
  unfold in_list. rewrite existsb_exists. split.
  - intros (i & Hi & E). exists i. split; auto.
    destruct v as [x|]; simpl in E; [|discriminate].
    apply Z.eqb_eq in E. now subst.
  - intros (i & -> & Hi). exists i. split; auto. simpl. apply Z.eqb_refl.
Qed.

Lemma applied_events_nonempty (c : option Z) (st : list StagedEvent) :
  (0 < length (applied_events c st))%nat ->
  exists s : StagedEvent,
    In s st /\ is_applied s = true /\ Staging.client_id s = c.
Proof.
  destruct (applied_events c st) as [|s l] eqn:E; simpl; [lia|]. intros _.
  assert (In s (applied_events c st)) as Hs by (rewrite E; now left).
  apply filter_In in Hs as [Hs Hp]. apply andb_true_iff in Hp as [Ha Hc].
  apply same_z_eq in Hc. eauto.
Qed.

(** The detail query, when the ids spliced into it are those of the clients
    with more than one applied event. *)
Lemma detail_rows (st : list StagedEvent) (ids : list Z) :
  (forall c, in_list c ids = true <->
             (1 < length (applied_events c st))%nat) ->
  forall f,
    In f (map detail_row
            (group_by same_z by_client
               (filter (fun s : StagedEvent =>
                          is_applied s && in_list (Staging.client_id s) ids)
                  st)))
    <-> exists c, (1 < length (applied_events c st))%nat
                  /\ f = detail_row (c, applied_events c st).
Proof.
  intros Hids f.
  set (B := filter (fun s : StagedEvent =>
                      is_applied s && in_list (Staging.client_id s) ids) st).
  assert (HB : forall c, in_list c ids = true ->
                rows_of same_z by_client c B = applied_events c st).
  { intros c Hc. unfold rows_of, B, applied_events.
    rewrite filter_filter. apply filter_ext. intro s. unfold by_client.
    destruct (same_z (Staging.client_id s) c) eqn:E.
    - apply same_z_eq in E. rewrite E, Hc. now rewrite !andb_true_r.
    - now rewrite !andb_false_r. }
  rewrite in_map_iff. split.
  - intros (g & <- & Hg). apply client_group_In in Hg as [Hk Hrows].
    apply in_map_iff in Hk as (s & Hc & Hs).
    apply filter_In in Hs as [Hs Hp]. apply andb_true_iff in Hp as [Ha Hin].
    unfold by_client in Hc. rewrite Hc in Hin.
    exists (fst g). split; [now apply Hids|].
    destruct g as [c rows]. simpl in *. subst rows. now rewrite HB.
  - intros (c & Hc & ->).
    assert (Hin : in_list c ids = true) by now apply Hids.
    exists (c, rows_of same_z by_client c B). split.
    + now rewrite HB.
    + apply client_group_In. simpl. split; auto.
      destruct (applied_events_nonempty c st) as (s & Hs & Ha & Hcs);
        [lia|].
      apply in_map_iff. exists s. split; auto.
      apply filter_In. split; auto. rewrite Ha, Hcs. exact Hin.
Qed.

Lemma detail_row_days (c : option Z) (g : list StagedEvent) :
  q1_date_range_days (detail_row (c, g))
  = opt_map2 Z.sub (sql_max (all_dates g)) (sql_min (all_dates g)).
Proof.
  unfold detail_row. simpl.
  destruct (sql_max (all_dates g)) as [last|]; simpl; auto.
  destruct (sql_min (all_dates g)) as [first|]; simpl; auto.
  now rewrite cast_julianday_diff.
Qed.

(** X1.  When at most one applied event lacks a client_id,
    [analyze_multiple_applications] returns; a client is in its output iff
    it has more than one applied event, and its finding reports the number
    of its applied events and the days between the first and the last. *)
Theorem multiple_applications_findings (st : list StagedEvent) :
  (length (applied_events None st) <= 1)%nat ->
  exists df,
    analyze_multiple_applications st = Ok df
    /\ (forall c,
          (exists f, In f (rows df) /\ q1_client_id f = c)
          <-> (1 < length (applied_events c st))%nat)
    /\ (forall f,
          In f (rows df) ->
          q1_application_count f
          = Z.of_nat (length (applied_events (q1_client_id f) st))
          /\ q1_date_range_days f
             = opt_map2 Z.sub
                 (sql_max (all_dates (applied_events (q1_client_id f) st)))
                 (sql_min (all_dates (applied_events (q1_client_id f) st)))).
Proof.
  intro Hnull. unfold analyze_multiple_applications.
  pose proof (multiple_apps_In st) as Hma.
  destruct (multiple_apps st) as [|a l].
  - exists (mkFrame q1_columns []). split; auto. simpl. split.
    + intro c. split; [now intros (f & [] & _)|].
      intro Hc.
      destruct (proj2 (Hma c (Z.of_nat (length (applied_events c st))))).
      split; auto. lia.
    + intros f [].
  - set (ma := a :: l) in *. unfold client_ids_str.
    destruct (existsb is_null (map fst ma)) eqn:Ex.
    { apply existsb_exists in Ex as ([x|] & Hx & Hnone); [discriminate|].
      apply in_map_iff in Hx as ([c n] & Hc & Hx). simpl in Hc. subst c.
      apply Hma in Hx as [-> Hn]. lia. }
    eexists. split; [reflexivity|]. simpl.
    assert (Hids : forall c,
               in_list c (non_null (map fst ma)) = true
               <-> (1 < length (applied_events c st))%nat).
    { intro c. rewrite in_list_spec. split.
      - intros (i & -> & Hi). apply non_null_In in Hi.
        apply in_map_iff in Hi as ([c n] & Hc & Hi). simpl in Hc. subst c.
        apply Hma in Hi as [-> Hn]. lia.
      - intro Hc. destruct c as [i|]; [|lia]. exists i. split; auto.
        apply non_null_In, in_map_iff.
        exists (Some i, Z.of_nat (length (applied_events (Some i) st))).
        split; auto. apply Hma. split; auto. lia. }
    split.
    + intro c. split.
      * intros (f & Hf & <-).
        apply (detail_rows st _ Hids) in Hf as (c & Hc & ->). exact Hc.
      * intro Hc. exists (detail_row (c, applied_events c st)).
        split; auto. apply (detail_rows st _ Hids). eauto.
    + intros f Hf. apply (detail_rows st _ Hids) in Hf as (c & Hc & ->).
      split; [reflexivity | apply detail_row_days].
Qed.

(** The sample of the specification: client 1002 applies on 2024-01-01 and
    on 2024-02-15. *)
Lemma multiple_applications_findings_witness :
  exists df,
    analyze_multiple_applications (Samples.staged Samples.applied_twice)
    = Ok df
    /\ (forall c,
          (exists f, In f (rows df) /\ q1_client_id f = c)
          <-> (1 < length (applied_events c
                             (Samples.staged Samples.applied_twice)))%nat)
    /\ (forall f,
          In f (rows df) ->
          q1_application_count f
          = Z.of_nat (length (applied_events (q1_client_id f)
                                (Samples.staged Samples.applied_twice)))
          /\ q1_date_range_days f
             = opt_map2 Z.sub
                 (sql_max (all_dates
                             (applied_events (q1_client_id f)
                                (Samples.staged Samples.applied_twice))))
                 (sql_min (all_dates
                             (applied_events (q1_client_id f)
                                (Samples.staged Samples.applied_twice))))).
Proof.
  apply (multiple_applications_findings
           (Samples.staged Samples.applied_twice)).
  vm_compute. lia.
Defined.

(** Client 1002 of the specification: application_count = 2 and
    date_range_days = 45. *)
Lemma client_1002_applied_twice :
  analyze_multiple_applications (Samples.staged Samples.applied_twice)
  = Ok (mkFrame q1_columns
          [mkQ1 (Some 1002) "Q1_multiple_applications"
                "Client has multiple application events"
                (Some (date_of_ymd 2024 1 1)) 2 (Some 45)]).
Proof. vm_compute. reflexivity. Qed.

(** C8 at the failing input.  Client 1002 applies twice, and two more
    applied events carry no client_id: the ids spliced into the detail
    query hold a missing value, the query is rejected, and the call raises
    where the claim has a finding for client 1002. *)
Theorem multiple_applications_raise_on_missing_client_id :
  analyze_multiple_applications
    (Samples.staged Samples.applied_twice_anonymous)
  = Raise "no such column: nan"
  /\ length (applied_events (Some 1002)
               (Samples.staged Samples.applied_twice_anonymous)) = 2%nat.
Proof. split; vm_compute; reflexivity. Qed.

(** *** Sequence violations *)

Lemma lt_z_precedes (a b : option Z) : lt_z a b = true <-> precedes a b.
Proof.
  unfold precedes. destruct a as [x|], b as [y|]; simpl; split;
    try discriminate;
    try (intros (x' & y' & E1 & E2 & _); discriminate).
  - intro H. apply Z.ltb_lt in H. eauto.
  - intros (x' & y' & [= <-] & [= <-] & H). now apply Z.ltb_lt.
Qed.

Lemma lt_z_not_precedes (a b : option Z) :
  lt_z a b = false <-> ~ precedes a b.
Proof.
  rewrite <- lt_z_precedes. destruct (lt_z a b); split; intro H;
    auto; try discriminate. now destruct H.
Qed.

Ltac as_precedes E :=
  match type of E with
  | lt_z _ _ = true => apply lt_z_precedes in E
  | lt_z _ _ = false => apply lt_z_not_precedes in E
  end.

Lemma churned_guard (churned signed : option Z) :
  not_null churned && not_null signed && lt_z churned signed
  = lt_z churned signed.
Proof. now destruct churned, signed. Qed.

Lemma violation_rows_In (st : list StagedEvent) (r : SequenceViolation) :
  In r (analyze_event_sequence_violations st) <->
  exists c, In c (map by_client st)
            /\ r = violation_row (c, rows_of same_z by_client c st)
            /\ sv_violation_type r <> None.
Proof.
  unfold analyze_event_sequence_violations. simpl.
  rewrite order_by_In, filter_In, in_map_iff. split.
  - intros [(g & <- & Hg) Hv]. apply client_group_In in Hg as [Hk Hrows].
    exists (fst g). split; auto. split.
    + destruct g; simpl in *. now subst.
    + intro E. now rewrite E in Hv.
  - intros (c & Hc & -> & Hv). split.
    + exists (c, rows_of same_z by_client c st). split; auto.
      now apply client_group_In.
    + destruct (sv_violation_type _); [reflexivity | contradiction].
Qed.

(** C9.  [analyze_event_sequence_violations] reports a client at most once,
    and exactly when one of the four conditions holds for it; the
    violation_type is that of the first condition that holds, in the order
    signed_before_applied, docs_submitted_before_applied,
    rejected_before_applied, churned_before_signed. *)
Theorem one_sequence_violation_per_client (st : list StagedEvent) :
  NoDup (map sv_client_id (analyze_event_sequence_violations st))
  /\ (forall r,
        In r (analyze_event_sequence_violations st) ->
        let g := rows_of same_z by_client (sv_client_id r) st in
        let applied := first_date_when "applied" g in
        let signed := first_date_when "signed" g in
        let docs := first_date_when "docs_submitted" g in
        let rejected := first_date_when "rejected" g in
        let churned := first_date_when "churned" g in
        (precedes signed applied ->
         sv_violation_type r = Some "signed_before_applied")
        /\ (~ precedes signed applied -> precedes docs applied ->
            sv_violation_type r = Some "docs_submitted_before_applied")
        /\ (~ precedes signed applied -> ~ precedes docs applied ->
            precedes rejected applied ->
            sv_violation_type r = Some "rejected_before_applied")
        /\ (~ precedes signed applied -> ~ precedes docs applied ->
            ~ precedes rejected applied -> precedes churned signed ->
            sv_violation_type r = Some "churned_before_signed")
        /\ (precedes signed applied \/ precedes docs applied
            \/ precedes rejected applied \/ precedes churned signed))
  /\ (forall c,
        In c (map by_client st) ->
        let g := rows_of same_z by_client c st in
        precedes (first_date_when "signed" g) (first_date_when "applied" g)
        \/ precedes (first_date_when "docs_submitted" g)
                    (first_date_when "applied" g)
        \/ precedes (first_date_when "rejected" g)
                    (first_date_when "applied" g)
        \/ precedes (first_date_when "churned" g)
                    (first_date_when "signed" g) ->
        exists r,
          In r (analyze_event_sequence_violations st)
          /\ sv_client_id r = c).
Proof.
  split; [apply sequence_clients_NoDup|]. split.
  - intros r Hr. apply violation_rows_In in Hr as (c & Hc & -> & Hv).
    simpl in *. unfold violation_type_of in *.
    rewrite churned_guard in *.
    set (g := rows_of same_z by_client c st) in *.
    destruct (lt_z (first_date_when "signed" g)
                (first_date_when "applied" g)) eqn:E1;
      destruct (lt_z (first_date_when "docs_submitted" g)
                  (first_date_when "applied" g)) eqn:E2;
      destruct (lt_z (first_date_when "rejected" g)
                  (first_date_when "applied" g)) eqn:E3;
      destruct (lt_z (first_date_when "churned" g)
                  (first_date_when "signed" g)) eqn:E4;
      try congruence;
      as_precedes E1; as_precedes E2; as_precedes E3; as_precedes E4;
      repeat split; intros; try reflexivity; try contradiction; tauto.
  - intros c Hc g Hcond.
    exists (violation_row (c, g)). split; auto.
    apply violation_rows_In. exists c. repeat split; auto.
    simpl. unfold violation_type_of. rewrite churned_guard.
    fold g. rewrite <- !lt_z_precedes in Hcond.
    destruct Hcond as [H|[H|[H|H]]]; rewrite ?H;
      repeat match goal with
             | |- context [if ?b then _ else _] => destruct b
             end; discriminate.
Qed.

(** C9 at a sample: client 4001 meets three of the conditions and is
    reported once, as signed_before_applied. *)
Lemma one_sequence_violation_witness :
  exists r,
    In r (analyze_event_sequence_violations
            (Samples.staged Samples.out_of_order))
    /\ sv_client_id r = Some 4001
    /\ sv_violation_type r = Some "signed_before_applied".
Proof.
  destruct (one_sequence_violation_per_client
              (Samples.staged Samples.out_of_order)) as (_ & Htype & Hin).
  destruct (Hin (Some 4001)) as (r & Hr & Hc).
  - vm_compute. auto.
  - left. exists (Samples.date_of 2024 1 3), (Samples.date_of 2024 1 4).
    vm_compute. repeat split.
  - exists r. repeat split; auto.
    apply (Htype r Hr). rewrite Hc.
    exists (Samples.date_of 2024 1 3), (Samples.date_of 2024 1 4).
    vm_compute. repeat split.
Defined.

(** *** Missing channel and source system *)


Lemma unknown_findings_In (st : list StagedEvent) (f : UnknownValues) :
  In f (analyze_unknown_values st) <->
  exists s : StagedEvent,
    In s st /\ unknown_where s = true /\ f = unknown_finding s.
Proof.
  unfold analyze_unknown_values. simpl.
  rewrite order_by_In, in_map_iff. split.
  - intros (s & <- & Hs). apply filter_In in Hs as [Hs Hw]. eauto.
  - intros (s & Hs & Hw & ->). exists s. split; auto.
    apply filter_In. auto.
Qed.



(** *** Missing sales_rep_id *)

(** X4.  A dated raw row without sales_rep_id is staged with sales_rep_id = -1
    and has an unknown_values finding. *)
Theorem blank_sales_rep_is_reported (raw_events : list Event) (e : Event) :
  In e raw_events -> event_date e <> None -> sales_rep_id e = None ->
  sales_rep_id (fill_missing_values_row e) = Some (-1)
  /\ In (unknown_finding (fill_missing_values_row e))
        (analyze_unknown_values
           (create_staging_table (fill_missing_values raw_events))).
Proof.
  intros He Hd Hrep. split; [simpl; now rewrite Hrep|].
  destruct (StagingFacts.staging_rows_complete
              (fill_missing_values raw_events) (fill_missing_values_row e))
    as [n Hn].
  - now apply in_map.
  - exact Hd.
  - apply unknown_findings_In.
    exists (mkStaged (fill_missing_values_row e) n). split; auto. split; auto.
    unfold unknown_where. simpl. rewrite Hrep. simpl.
    now rewrite orb_true_r.
Qed.

(** The first record of client 3001 has no sales_rep_id. *)
Lemma blank_sales_rep_witness :
  sales_rep_id
    (fill_missing_values_row
       (mkEvent (Some 1) (Some 3001) (Some "applied")
                (Some (date_of_ymd 2024 1 1)) (Some "basic") (Some "EU")
                (Some "web") None (Some "crm")))
  = Some (-1)
  /\ In (unknown_finding
           (fill_missing_values_row
              (mkEvent (Some 1) (Some 3001) (Some "applied")
                       (Some (date_of_ymd 2024 1 1)) (Some "basic")
                       (Some "EU") (Some "web") None (Some "crm"))))
        (analyze_unknown_values
           (create_staging_table
              (fill_missing_values Samples.missing_sales_rep))).
Proof.
  apply (blank_sales_rep_is_reported Samples.missing_sales_rep).
  - now left.
  - discriminate.
  - reflexivity.
Defined.

(** Client 1009 of the specification: one signed event and no applied
    event give a signed_without_applied finding with applied_count = 0 and
    signed_count = 1. *)
Lemma client_1009_signed_without_applied :
  rows (analyze_signed_without_applied
          (Samples.staged [Samples.ev 1 1009 "signed" 2024 1 5]))
  = [mkQ2 (Some 1009) "Q2_signed_without_applied"
          "Client signed without applying first"
          (Some (date_of_ymd 2024 1 5)) 0 1].
Proof. vm_compute. reflexivity. Qed.

End InconsistenciesFacts.

(** ** Groups partition a table *)

Module PartitionFacts.
Import Sql SqlFacts.

Lemma flat_map_agree {Key Row} (block block' : Key -> list Row)
    (keys : list Key) :
  (forall k, In k keys -> block k = block' k) ->
  flat_map block keys = flat_map block' keys.
Proof.
  induction keys as [|k keys IH]; simpl; intro Hsame; auto.
  rewrite (Hsame k (or_introl eq_refl)), IH; auto.
Qed.

Section Partition.
Context {R K : Type}.
Variable same : K -> K -> bool.
Variable key : R -> K.
Hypothesis same_eq : forall a b, same a b = true <-> a = b.

Lemma same_false (a b : K) : same a b = false <-> a <> b.
Proof.
  destruct (same a b) eqn:E; split; intro H; try discriminate; auto.
  - apply same_eq in E. contradiction.
  - intro Hab. apply same_eq in Hab. congruence.
Qed.

Lemma filter_other_keys_id (k : K) (keys : list K) :
  ~ In k keys -> filter (fun k' => negb (same k k')) keys = keys.
Proof.
  intro Hk. apply InconsistenciesFacts.filter_all. intros k' Hk'.
  apply negb_true_iff, same_false. intros ->. contradiction.
Qed.

(** One block taken out of a concatenation of blocks. *)
Lemma flat_map_take_key (f : K -> list R) (k : K) (keys : list K) :
  NoDup keys -> In k keys ->
  Permutation (flat_map f keys)
    (f k ++ flat_map f (filter (fun k' => negb (same k k')) keys)).
Proof.
  induction keys as [|a keys IH]; simpl; [tauto|].
  intros Hnd Hin. apply NoDup_cons_iff in Hnd as [Ha Hnd].
  destruct (same k a) eqn:E; simpl.
  - apply same_eq in E. subst a.
    now rewrite filter_other_keys_id.
  - destruct Hin as [->|Hin];
      [rewrite (proj2 (same_eq k k) eq_refl) in E; discriminate|].
    rewrite (IH Hnd Hin). apply Permutation_app_swap_app.
Qed.

(** The groups of a GROUP BY hold every row once. *)
Lemma groups_hold_every_row (rows : list R) :
  Permutation
    (flat_map (fun k => rows_of same key k rows)
       (distinct same (map key rows)))
    rows.
Proof.
  induction rows as [|r rows IH]; simpl; [constructor|].
  unfold rows_of at 1. simpl. rewrite (proj2 (same_eq _ _) eq_refl).
  simpl. constructor. fold (rows_of same key (key r) rows).
  set (keys := distinct same (map key rows)) in *.
  rewrite (flat_map_agree _ (fun k => rows_of same key k rows)).
  2:{ intros k Hk. apply filter_In in Hk as [_ Hk].
      apply negb_true_iff in Hk. now rewrite Hk. }
  destruct (in_dec (fun a b => Bool.reflect_dec _ _
                      (iff_reflect _ _ (iff_sym (same_eq a b))))
              (key r) keys) as [Hin|Hout].
  - rewrite <- (flat_map_take_key (fun k => rows_of same key k rows));
      auto.
    apply distinct_NoDup, same_eq.
  - rewrite filter_other_keys_id by exact Hout.
    unfold rows_of at 1.
    rewrite (filter_none (fun r' => same (key r') (key r)) rows).
    + exact IH.
    + intros r' Hr'. apply same_false. intro E. apply Hout.
      apply (distinct_In same same_eq). rewrite <- E. now apply in_map.
Qed.

Lemma group_by_rows (rows : list R) :
  Permutation (flat_map snd (group_by same key rows)) rows.
Proof.
  unfold group_by. rewrite StagingFacts.flat_map_of_map. simpl.
  apply groups_hold_every_row.
Qed.
End Partition.

Lemma flat_map_perm {A B} (f g : A -> list B) (l : list A) :
  (forall x, In x l -> Permutation (f x) (g x)) ->
  Permutation (flat_map f l) (flat_map g l).
Proof.
  induction l as [|x l IH]; simpl; intro H; [constructor|].
  apply Permutation_app; [apply H; now left|].
  apply IH. intros y Hy. apply H. now right.
Qed.

Lemma length_flat_map_sum {A B} (f : A -> list B) (l : list A) :
  Z.of_nat (length (flat_map f l))
  = fold_right Z.add 0 (map (fun x => Z.of_nat (length (f x))) l).
Proof.
  induction l as [|x l IH]; simpl; auto.
  rewrite length_app, Nat2Z.inj_add, IH. reflexivity.
Qed.

End PartitionFacts.

(** ** The staging step as a whole *)

Module PipelineFacts.
Import Sql Staging SqlFacts StagingFacts PartitionFacts Pipeline.

(** X6.  The ranker reorders the dated rows and numbers them: the staging table
    holds every raw row with a date as often as the input does, and no
    other row. *)
Theorem staging_reorders_dated_rows (raw_events : list Event) :
  Permutation (map event (create_staging_table raw_events))
              (dated raw_events)
  /\ length (create_staging_table raw_events) = length (dated raw_events).
Proof.
  assert (Hperm : Permutation (map event (create_staging_table raw_events))
                    (dated raw_events)).
  { unfold create_staging_table, read_sql_query, row_number, group_by.
    cbn [rows]. rewrite map_map. cbn [event].
    rewrite flat_map_of_map, ChurnFacts.map_of_flat_map. cbn [snd].
    rewrite <- (groups_hold_every_row same_partition partition_key
                  same_partition_eq (dated raw_events)) at 2.
    apply flat_map_perm. intros k _.
    rewrite (map_ext _ fst) by reflexivity.
    rewrite number_from_fst. apply order_by_perm. }
  split; [exact Hperm|].
  rewrite <- (length_map event). now apply Permutation_length.
Qed.

(** X7.  After [fill_missing_values] and [create_staging_table] every staged row
    has a date, a marketing_channel, a source_system, a sales_rep_id and a
    rank of at least 1; on a frame whose plans are ASCII text it has a
    plan in ASCII text that is title-cased. *)
Theorem staged_rows_are_normalized (df : list Event) (s : StagedEvent) :
  (forall e p, In e df -> plan e = Some p -> isascii p = true) ->
  In s (process_staging_events df) ->
  event_date s <> None
  /\ (exists p, plan s = Some p /\ isascii p = true /\ title p = p)
  /\ marketing_channel s <> None
  /\ source_system s <> None
  /\ sales_rep_id s <> None
  /\ 1 <= event_rank s.
Proof.
  intros Hascii Hs. unfold process_staging_events in Hs.
  pose proof (staging_rows_sound _ _ Hs) as [Hin Hd].
  apply in_map_iff in Hin as (e & He & Hdf).
  split; [exact Hd|]. rewrite <- He.
  split; [apply filled_plan_isascii; intro p; now apply Hascii|].
  simpl. repeat split; try discriminate.
  assert (In (event_rank s)
            (map event_rank
               (partition_rows (partition_key s)
                  (create_staging_table (fill_missing_values df)))))
    as Hr.
  { apply in_map, filter_In. split; auto. now apply same_partition_eq. }
  rewrite staging_ranks in Hr. apply zseq_In in Hr. lia.
Qed.

(** A raw frame with one dated record: a plan in capitals and small
    letters, and no other optional field. *)
Lemma staged_rows_are_normalized_witness :
  let s := mkStaged
             (fill_missing_values_row
                (mkEvent (Some 1) (Some 7) (Some "applied") (Some 19723)
                         (Some "GOLD plan") None None None None)) 1 in
  event_date s <> None
  /\ (exists p, plan s = Some p /\ isascii p = true /\ title p = p)
  /\ marketing_channel s <> None
  /\ source_system s <> None
  /\ sales_rep_id s <> None
  /\ 1 <= event_rank s.
Proof.
  intro s.
  apply (staged_rows_are_normalized
           [mkEvent (Some 1) (Some 7) (Some "applied") (Some 19723)
                    (Some "GOLD plan") None None None None] s).
  - intros e p He Hp. simpl in He. destruct He as [<-|[]].
    injection Hp as <-. reflexivity.
  - vm_compute. now left.
Defined.

(** *** Funnel and churn tables of a staging table *)

Lemma staged_rows_of_client (raw_events : list Event) (c : option Z)
    (col : Event -> option Z) (x : Z) :
  In (Some x)
     (map (fun s : StagedEvent => col s)
        (rows_of same_z (fun s : StagedEvent => Staging.client_id s) c
           (create_staging_table raw_events)))
  <-> exists e,
        In e raw_events /\ event_date e <> None
        /\ Staging.client_id e = c /\ col e = Some x.
Proof.
  rewrite in_map_iff. split.
  - intros (s & Hx & Hs). apply (rows_of_In _ _ same_z_eq) in Hs as [Hs Hc].
    apply staging_rows_sound in Hs as [Hin Hd]. exists (event s). auto.
  - intros (e & He & Hd & Hc & Hx).
    destruct (staging_rows_complete raw_events e He Hd) as [n Hn].
    exists (mkStaged e n). split; auto.
    apply (rows_of_In _ _ same_z_eq). auto.
Qed.

Lemma staged_dates_of_type (raw_events : list Event) (c : option Z)
    (t : string) :
  forall x,
    In (Some x)
       (map (Funnel.date_when t)
          (rows_of same_z (fun s : StagedEvent => Staging.client_id s) c
             (create_staging_table raw_events)))
    <-> In (Some x) (raw_dates t c raw_events).
Proof.
  intro x.
  rewrite (staged_rows_of_client raw_events c
             (fun e => if eq_str (event_type e) t then event_date e
                       else None) x).
  unfold raw_dates. rewrite in_map_iff. split.
  - intros (e & He & _ & Hc & Hx). exists e. split; auto.
    apply filter_In. split; auto. now apply same_z_eq.
  - intros (e & Hx & He). apply filter_In in He as [He Hc].
    apply same_z_eq in Hc. exists e. repeat split; auto.
    destruct (eq_str (event_type e) t); [congruence|discriminate].
Qed.

Lemma staged_dates_of_client (raw_events : list Event) (c : option Z) :
  forall x,
    In (Some x)
       (map (fun s : StagedEvent => event_date s)
          (rows_of same_z (fun s : StagedEvent => Staging.client_id s) c
             (create_staging_table raw_events)))
    <-> In (Some x) (raw_dates_of_client c raw_events).
Proof.
  intro x.
  rewrite (staged_rows_of_client raw_events c (fun e => event_date e) x).
  unfold raw_dates_of_client. rewrite in_map_iff. split.
  - intros (e & He & _ & Hc & Hx). exists e. split; auto.
    apply filter_In. split; auto. now apply same_z_eq.
  - intros (e & Hx & He). apply filter_In in He as [He Hc].
    apply same_z_eq in Hc. exists e. repeat split; auto. congruence.
Qed.

Lemma staged_clients (raw_events : list Event) (c : option Z) :
  In c (map (fun s : StagedEvent => Staging.client_id s)
          (create_staging_table raw_events))
  <-> In c (map Staging.client_id (dated raw_events)).
Proof.
  rewrite !in_map_iff. split.
  - intros (s & Hc & Hs). apply staging_rows_sound in Hs as [Hin Hd].
    exists (event s). split; auto. apply filter_In. split; auto.
    unfold not_null. now destruct (event_date s).
  - intros (e & Hc & He). apply filter_In in He as [He Hd].
    destruct (staging_rows_complete raw_events e He) as [n Hn].
    + intro E. now rewrite E in Hd.
    + now exists (mkStaged e n).
Qed.

Lemma funnel_dates_of_staging (raw_events : list Event)
    (r : Funnel.FunnelRecord) :
  In r (rows (Funnel.create_funnel_analysis
                (create_staging_table raw_events))) ->
  Funnel.applied_date r
  = sql_min (raw_dates "applied" (Funnel.client_id r) raw_events)
  /\ Funnel.docs_submitted_date r
     = sql_min (raw_dates "docs_submitted" (Funnel.client_id r) raw_events)
  /\ Funnel.rejected_date r
     = sql_min (raw_dates "rejected" (Funnel.client_id r) raw_events)
  /\ Funnel.signed_date r
     = sql_min (raw_dates "signed" (Funnel.client_id r) raw_events)
  /\ Funnel.churned_date r
     = sql_min (raw_dates "churned" (Funnel.client_id r) raw_events).
Proof.
  pose proof (staging_ranker_invariant raw_events) as Hinv.
  set (st := create_staging_table raw_events) in *.
  intro Hr. unfold Funnel.create_funnel_analysis in Hr.
  cbn [rows read_sql_query] in Hr.
  apply in_map_iff in Hr as (g & <- & Hg).
  apply (group_by_In same_z _ same_z_eq) in Hg as [_ Hrows].
  unfold Funnel.funnel_row. simpl. rewrite Hrows.
  rewrite !(FunnelFacts.min_date_rank1 st Hinv).
  repeat split; apply AggregateFacts.sql_min_same_values;
    apply staged_dates_of_type.
Qed.

Lemma funnel_clients_of_staging (raw_events : list Event) (c : option Z) :
  In c (map Funnel.client_id
          (Funnel.create_funnel_analysis (create_staging_table raw_events)))
  <-> In c (map Staging.client_id (dated raw_events)).
Proof.
  pose proof (staging_ranker_invariant raw_events) as Hinv.
  set (st := create_staging_table raw_events) in *.
  rewrite <- staged_clients. fold st.
  rewrite <- (FunnelFacts.rank1_clients st Hinv c).
  unfold Funnel.create_funnel_analysis. cbn [rows read_sql_query].
  rewrite map_map. simpl.
  change (map (fun x : option Z * list StagedEvent => fst x)) with
    (map (@fst (option Z) (list StagedEvent))).
  rewrite (group_by_keys same_z).
  apply (distinct_In same_z same_z_eq).
Qed.

(** X8.  The funnel table of a staging table: one record per client with a dated
    event, each date the earliest date of the raw events of that client and
    type, and [total_clients] the number of such clients. *)
Theorem funnel_of_staging_table (raw_events : list Event) :
  let funnel_df :=
    Funnel.create_funnel_analysis (create_staging_table raw_events) in
  NoDup (map Funnel.client_id funnel_df)
  /\ (forall c,
        In c (map Funnel.client_id funnel_df)
        <-> In c (map Staging.client_id (dated raw_events)))
  /\ (forall r,
        In r (rows funnel_df) ->
        Funnel.applied_date r
        = sql_min (raw_dates "applied" (Funnel.client_id r) raw_events)
        /\ Funnel.docs_submitted_date r
           = sql_min (raw_dates "docs_submitted" (Funnel.client_id r)
                        raw_events)
        /\ Funnel.rejected_date r
           = sql_min (raw_dates "rejected" (Funnel.client_id r) raw_events)
        /\ Funnel.signed_date r
           = sql_min (raw_dates "signed" (Funnel.client_id r) raw_events)
        /\ Funnel.churned_date r
           = sql_min (raw_dates "churned" (Funnel.client_id r) raw_events))
  /\ Funnel.total_clients (Funnel.analyze_funnel_metrics funnel_df)
     = Z.of_nat
         (length (distinct same_z
                    (map Staging.client_id (dated raw_events)))).
Proof.
  intro funnel_df.
  split; [apply FunnelFacts.funnel_clients_NoDup|].
  split; [apply funnel_clients_of_staging|]. split.
  - apply funnel_dates_of_staging.
  - unfold Funnel.analyze_funnel_metrics. simpl. f_equal.
    rewrite <- (length_map Funnel.client_id).
    apply Permutation_length, NoDup_Permutation.
    + apply FunnelFacts.funnel_clients_NoDup.
    + apply distinct_NoDup, same_z_eq.
    + intro c. rewrite (distinct_In same_z same_z_eq).
      apply funnel_clients_of_staging.
Qed.

(** A first date of the funnel is known exactly when the client has a dated
    event of the type. *)
Lemma funnel_date_known (raw_events : list Event) (c : option Z)
    (t : string) :
  not_null (sql_min (raw_dates t c raw_events)) = true
  <-> exists e,
        In e raw_events /\ Staging.client_id e = c
        /\ event_type e = Some t /\ event_date e <> None.
Proof.
  unfold not_null, is_null. split.
  - destruct (sql_min (raw_dates t c raw_events)) as [d|] eqn:E;
      [intros _|discriminate].
    apply AggregateFacts.sql_min_In in E. unfold raw_dates in E.
    apply in_map_iff in E as (e & Hd & He).
    apply filter_In in He as [He Hc]. apply same_z_eq in Hc.
    destruct (eq_str (event_type e) t) eqn:Et; [|discriminate].
    apply eq_str_eq in Et. exists e. repeat split; auto. congruence.
  - intros (e & He & Hc & Ht & Hd).
    destruct (event_date e) as [d|] eqn:Ed; [|contradiction].
    destruct (sql_min (raw_dates t c raw_events)) as [m|] eqn:E;
      [reflexivity|].
    rewrite AggregateFacts.sql_min_None in E. destruct (E d).
    unfold raw_dates. apply in_map_iff. exists e. split.
    + now rewrite (proj2 (eq_str_eq _ _) Ht).
    + apply filter_In. split; auto. now apply same_z_eq.
Qed.

(** A count of the metrics is the number of the clients with a dated event
    of the type. *)
Lemma notna_sum_of_staging (raw_events : list Event)
    (col : Funnel.FunnelRecord -> option Z) (t : string) :
  (forall r,
      In r (rows (Funnel.create_funnel_analysis
                    (create_staging_table raw_events))) ->
      col r = sql_min (raw_dates t (Funnel.client_id r) raw_events)) ->
  Funnel.notna_sum col
    (Funnel.create_funnel_analysis (create_staging_table raw_events))
  = Z.of_nat
      (length
         (distinct same_z
            (map Staging.client_id
               (filter (fun e => not_null (event_date e)
                                 && eq_str (event_type e) t)
                  raw_events)))).
Proof.
  intro Hcol. unfold Funnel.notna_sum. f_equal.
  rewrite <- (length_map Funnel.client_id).
  apply Permutation_length, NoDup_Permutation.
  - apply InconsistenciesFacts.NoDup_map_filter.
    apply FunnelFacts.funnel_clients_NoDup.
  - apply distinct_NoDup, same_z_eq.
  - intro c. rewrite (distinct_In same_z same_z_eq), !in_map_iff. split.
    + intros (r & Hc & Hr). apply filter_In in Hr as [Hr Hknown].
      rewrite (Hcol r Hr), Hc in Hknown.
      apply funnel_date_known in Hknown as (e & He & Hce & Ht & Hd).
      exists e. split; auto. apply filter_In. split; auto.
      rewrite (proj2 (eq_str_eq _ _) Ht). unfold not_null.
      now destruct (event_date e).
    + intros (e & Hce & He). apply filter_In in He as [He Hp].
      apply andb_true_iff in Hp as [Hd Ht]. apply eq_str_eq in Ht.
      assert (Hin : In c (map Funnel.client_id
                            (Funnel.create_funnel_analysis
                               (create_staging_table raw_events)))).
      { apply funnel_clients_of_staging, in_map_iff. exists e.
        split; auto. apply filter_In. auto. }
      apply in_map_iff in Hin as (r & Hc & Hr). exists r. split; auto.
      apply filter_In. split; auto. rewrite (Hcol r Hr), Hc.
      apply funnel_date_known. exists e. repeat split; auto.
      intro E. now rewrite E in Hd.
Qed.

(** X9.  The counts of the funnel metrics of a staging table: each is the number
    of the clients that have a dated raw event of the type, a client
    counted once however many such events it has, and the clients without
    client_id counted as one. *)
Theorem funnel_counts_of_staging_table (raw_events : list Event) :
  let m := snd (process_funnel_analysis (create_staging_table raw_events)) in
  let clients_with t :=
    Z.of_nat
      (length
         (distinct same_z
            (map Staging.client_id
               (filter (fun e => not_null (event_date e)
                                 && eq_str (event_type e) t)
                  raw_events)))) in
  Funnel.applied_clients m = clients_with "applied"
  /\ Funnel.docs_submitted_clients m = clients_with "docs_submitted"
  /\ Funnel.rejected_clients m = clients_with "rejected"
  /\ Funnel.signed_clients m = clients_with "signed"
  /\ Funnel.churned_clients m = clients_with "churned".
Proof.
  cbv zeta. unfold process_funnel_analysis, Funnel.analyze_funnel_metrics.
  cbn [snd Funnel.applied_clients Funnel.docs_submitted_clients
         Funnel.rejected_clients Funnel.signed_clients
         Funnel.churned_clients].
  repeat split; apply notna_sum_of_staging; intros r Hr;
    apply (funnel_dates_of_staging raw_events r Hr).
Qed.

Lemma churn_rows_of_staging (now : Q) (st : list StagedEvent)
    (r : Churn.ChurnRecord) :
  In r (rows (Churn.create_churn_analysis now st)) ->
  In (Churn.client_id r)
     (map (fun s : StagedEvent => Staging.client_id s) st)
  /\ (let g := rows_of same_z (fun s : StagedEvent => Staging.client_id s)
                 (Churn.client_id r) st in
      Churn.last_event_date r
      = sql_max (map (fun s : StagedEvent => event_date s) g)
      /\ Churn.applied_date r = sql_max (map (Churn.date_when "applied") g)
      /\ Churn.signed_date r = sql_max (map (Churn.date_when "signed") g)
      /\ Churn.churned_date r = sql_max (map (Churn.date_when "churned") g))
  /\ Churn.is_churned r = (if not_null (Churn.churned_date r) then 1 else 0)
  /\ Churn.days_since_last_event r
     = option_map (fun d => (now - julianday d)%Q) (Churn.last_event_date r)
  /\ Churn.days_since_signed r
     = option_map (fun d => (now - julianday d)%Q) (Churn.signed_date r).
Proof.
  unfold Churn.create_churn_analysis, Churn.last_event_details.
  cbn [rows read_sql_query]. rewrite map_map. intro Hr.
  apply in_map_iff in Hr as ([le ob] & <- & Hin).
  apply ChurnFacts.left_join_In in Hin as [Hle _].
  apply ChurnFacts.last_events_In in Hle as (c & Hc & ->). simpl.
  repeat split; auto.
Qed.

(** X10.  The churn table of a staging table: every row carries the latest date
    of the raw events of its client, never NULL, the latest dates of its
    applied, signed and churned events, the days since the last event,
    never NULL, and the days since signature exactly when the client has
    signed; is_churned is 1 exactly when the client has a churned event. *)
Theorem churn_of_staging_table (now : Q) (raw_events : list Event) :
  forall r,
    In r (rows (Churn.create_churn_analysis now
                  (create_staging_table raw_events))) ->
    Churn.last_event_date r
    = sql_max (raw_dates_of_client (Churn.client_id r) raw_events)
    /\ Churn.last_event_date r <> None
    /\ Churn.days_since_last_event r <> None
    /\ Churn.applied_date r
       = sql_max (raw_dates "applied" (Churn.client_id r) raw_events)
    /\ Churn.signed_date r
       = sql_max (raw_dates "signed" (Churn.client_id r) raw_events)
    /\ Churn.churned_date r
       = sql_max (raw_dates "churned" (Churn.client_id r) raw_events)
    /\ (Churn.days_since_signed r = None <-> Churn.signed_date r = None)
    /\ (Churn.is_churned r = 1
        <-> exists e,
              In e raw_events /\ event_date e <> None
              /\ Staging.client_id e = Churn.client_id r
              /\ event_type e = Some "churned").
Proof.
  intros r Hr.
  destruct (churn_rows_of_staging now _ r Hr)
    as (Hc & (Hlast & Happ & Hsig & Hchu) & His & Hdays & Hdays_signed).
  assert (Elast : Churn.last_event_date r
                  = sql_max (raw_dates_of_client (Churn.client_id r)
                               raw_events)).
  { rewrite Hlast. apply AggregateFacts.sql_max_same_values.
    apply staged_dates_of_client. }
  assert (Hsome : Churn.last_event_date r <> None).
  { rewrite Elast. intro E. rewrite AggregateFacts.sql_max_None in E.
    apply staged_clients in Hc. apply in_map_iff in Hc as (e & Hce & He).
    apply filter_In in He as [He Hd].
    destruct (event_date e) as [d|] eqn:Ed; [|discriminate].
    apply (E d). unfold raw_dates_of_client. apply in_map_iff.
    exists e. split; auto. apply filter_In. split; auto.
    now apply same_z_eq. }
  assert (Echu : Churn.churned_date r
                 = sql_max (raw_dates "churned" (Churn.client_id r)
                              raw_events)).
  { rewrite Hchu. apply AggregateFacts.sql_max_same_values.
    apply staged_dates_of_type. }
  split; [exact Elast|]. split; [exact Hsome|]. split.
  { rewrite Hdays. now destruct (Churn.last_event_date r). }
  split.
  { rewrite Happ. apply AggregateFacts.sql_max_same_values.
    apply staged_dates_of_type. }
  split.
  { rewrite Hsig. apply AggregateFacts.sql_max_same_values.
    apply staged_dates_of_type. }
  split; [exact Echu|]. split.
  { rewrite Hdays_signed. destruct (Churn.signed_date r); simpl;
      split; intro; auto; discriminate. }
  rewrite His, Echu. unfold not_null, is_null. split.
  - destruct (sql_max (raw_dates "churned" (Churn.client_id r) raw_events))
      as [d|] eqn:E; simpl; [intros _|discriminate].
    apply AggregateFacts.sql_max_In in E. unfold raw_dates in E.
    apply in_map_iff in E as (e & Hx & He).
    apply filter_In in He as [He Hce]. apply same_z_eq in Hce.
    destruct (eq_str (event_type e) "churned") eqn:Et; [|discriminate].
    apply eq_str_eq in Et. exists e. repeat split; auto. congruence.
  - intros (e & He & Hd & Hce & Ht).
    destruct (event_date e) as [d|] eqn:Ed; [|contradiction].
    destruct (sql_max (raw_dates "churned" (Churn.client_id r) raw_events))
      as [m|] eqn:E; [reflexivity|].
    rewrite AggregateFacts.sql_max_None in E. destruct (E d).
    unfold raw_dates. apply in_map_iff. exists e. split.
    + now rewrite (proj2 (eq_str_eq _ _) Ht).
    + apply filter_In. split; auto. now apply same_z_eq.
Qed.

(** The churn row of client 1009, which signs on 2024-01-05. *)
Lemma churn_of_staging_table_witness :
  exists r,
    In r (rows (Churn.create_churn_analysis Samples.february_2024
                  (create_staging_table Samples.signed_without_applying)))
    /\ Churn.client_id r = Some 1009
    /\ Churn.last_event_date r
       = sql_max (raw_dates_of_client (Churn.client_id r)
                    Samples.signed_without_applying)
    /\ Churn.last_event_date r <> None
    /\ Churn.days_since_last_event r <> None
    /\ Churn.applied_date r
       = sql_max (raw_dates "applied" (Churn.client_id r)
                    Samples.signed_without_applying)
    /\ Churn.signed_date r
       = sql_max (raw_dates "signed" (Churn.client_id r)
                    Samples.signed_without_applying)
    /\ Churn.churned_date r
       = sql_max (raw_dates "churned" (Churn.client_id r)
                    Samples.signed_without_applying)
    /\ (Churn.days_since_signed r = None <-> Churn.signed_date r = None)
    /\ (Churn.is_churned r = 1
        <-> exists e,
              In e Samples.signed_without_applying
              /\ event_date e <> None
              /\ Staging.client_id e = Churn.client_id r
              /\ event_type e = Some "churned").
Proof.
  eexists.
  match goal with
  | |- ?A /\ _ => assert (Hr : A) by (cbv; right; left; reflexivity)
  end.
  split; [exact Hr|]. split; [reflexivity|].
  exact (churn_of_staging_table _ _ _ Hr).
Defined.

(** X11.  Funnel and churn tables of one staging table agree: for a client, a
    first date of the funnel and the matching latest date of the churn
    table are missing together, the first is never after the latest, and
    is_churned is 1 exactly when the funnel has a churned date. *)
Theorem funnel_and_churn_agree (now : Q) (raw_events : list Event)
    (f : Funnel.FunnelRecord) (r : Churn.ChurnRecord) :
  In f (rows (Funnel.create_funnel_analysis
                (create_staging_table raw_events))) ->
  In r (rows (Churn.create_churn_analysis now
                (create_staging_table raw_events))) ->
  Funnel.client_id f = Churn.client_id r ->
  (Funnel.applied_date f = None <-> Churn.applied_date r = None)
  /\ (Funnel.signed_date f = None <-> Churn.signed_date r = None)
  /\ (Funnel.churned_date f = None <-> Churn.churned_date r = None)
  /\ (forall a b, Funnel.applied_date f = Some a ->
                  Churn.applied_date r = Some b -> a <= b)
  /\ (forall a b, Funnel.signed_date f = Some a ->
                  Churn.signed_date r = Some b -> a <= b)
  /\ (forall a b, Funnel.churned_date f = Some a ->
                  Churn.churned_date r = Some b -> a <= b)
  /\ (Churn.is_churned r = 1 <-> Funnel.churned_date f <> None).
Proof.
  intros Hf Hr Hc.
  destruct (funnel_dates_of_staging raw_events f Hf)
    as (Fa & _ & _ & Fs & Fc).
  destruct (churn_rows_of_staging now _ r Hr)
    as (_ & (_ & Ca & Cs & Cc) & His & _).
  assert (Hmax : forall t,
             sql_max (map (Churn.date_when t)
                        (rows_of same_z
                           (fun s : StagedEvent => Staging.client_id s)
                           (Churn.client_id r)
                           (create_staging_table raw_events)))
             = sql_max (raw_dates t (Funnel.client_id f) raw_events)).
  { intro t. rewrite Hc. apply AggregateFacts.sql_max_same_values.
    apply staged_dates_of_type. }
  rewrite Hmax in Ca, Cs, Cc. rewrite Fa, Fs, Fc, Ca, Cs, Cc, His, Cc.
  pose proof (AggregateFacts.sql_min_le_max
                (raw_dates "applied" (Funnel.client_id f) raw_events))
    as [Ha1 Ha2].
  pose proof (AggregateFacts.sql_min_le_max
                (raw_dates "signed" (Funnel.client_id f) raw_events))
    as [Hs1 Hs2].
  pose proof (AggregateFacts.sql_min_le_max
                (raw_dates "churned" (Funnel.client_id f) raw_events))
    as [Hc1 Hc2].
  repeat split; auto; try tauto.
  - unfold not_null, is_null. intros H E. apply Hc1 in E.
    rewrite E in H. discriminate.
  - intro Hne. unfold not_null, is_null.
    destruct (sql_max (raw_dates "churned" (Funnel.client_id f) raw_events));
      [reflexivity|].
    destruct Hne. now apply Hc1.
Qed.

(** Client 1001 signs without applying, and has a row in both tables. *)
Lemma funnel_and_churn_agree_witness :
  exists f r,
    In f (rows (Funnel.create_funnel_analysis
                  (create_staging_table Samples.signed_without_applying)))
    /\ In r (rows (Churn.create_churn_analysis Samples.february_2024
                     (create_staging_table Samples.signed_without_applying)))
    /\ Funnel.client_id f = Churn.client_id r
    /\ (Funnel.applied_date f = None <-> Churn.applied_date r = None)
    /\ (Funnel.signed_date f = None <-> Churn.signed_date r = None)
    /\ (Funnel.churned_date f = None <-> Churn.churned_date r = None)
    /\ (forall a b, Funnel.applied_date f = Some a ->
                    Churn.applied_date r = Some b -> a <= b)
    /\ (forall a b, Funnel.signed_date f = Some a ->
                    Churn.signed_date r = Some b -> a <= b)
    /\ (forall a b, Funnel.churned_date f = Some a ->
                    Churn.churned_date r = Some b -> a <= b)
    /\ (Churn.is_churned r = 1 <-> Funnel.churned_date f <> None).
Proof.
  do 2 eexists.
  match goal with
  | |- ?A /\ ?B /\ ?C /\ _ =>
      assert (Hf : A) by (cbv; left; reflexivity);
      assert (Hr : B) by (cbv; left; reflexivity);
      assert (Hc : C) by reflexivity
  end.
  split; [exact Hf|]. split; [exact Hr|]. split; [exact Hc|].
  exact (funnel_and_churn_agree _ _ _ _ Hf Hr Hc).
Defined.

End PipelineFacts.

(** ** What the rule-checks report *)

Module RuleCheckFacts.
Import Sql Staging Inconsistencies SqlFacts AggregateFacts.
Import InconsistenciesFacts PartitionFacts.

(** The non-NULL values of MIN(CASE WHEN event_type = t THEN event_date END)
    over a group. *)
Lemma dates_when_In (t : string) (g : list StagedEvent) (x : Z) :
  In (Some x)
     (map (fun s : StagedEvent =>
             if eq_str (event_type s) t then event_date s else None) g)
  <-> exists s : StagedEvent,
        In s g /\ event_type s = Some t /\ event_date s = Some x.
Proof.
  split.
  - intro H. apply in_map_iff in H as (s & Hx & Hs).
    destruct (eq_str (event_type s) t) eqn:E; [|discriminate].
    apply eq_str_eq in E. eauto.
  - intros (s & Hs & Ht & Hx). apply in_map_iff. exists s. split; auto.
    now rewrite (proj2 (eq_str_eq _ _) Ht).
Qed.

(** [first_date_when] is the earliest date of the events of one type. *)
Lemma first_date_when_earliest (t : string) (g : list StagedEvent) (d : Z) :
  first_date_when t g = Some d
  <-> (exists s : StagedEvent,
          In s g /\ event_type s = Some t /\ event_date s = Some d)
      /\ (forall (s : StagedEvent) (x : Z),
             In s g -> event_type s = Some t -> event_date s = Some x ->
             d <= x).
Proof.
  unfold first_date_when. split.
  - intro H. split.
    + apply dates_when_In. now apply sql_min_In.
    + intros s x Hs Ht Hx. apply (sql_min_le _ _ _ H).
      apply dates_when_In. eauto.
  - intros [Hin Hle]. apply sql_min_least.
    + now apply dates_when_In.
    + intros x Hx. apply dates_when_In in Hx as (s & Hs & Ht & Hx). eauto.
Qed.

(** The clients that a per-client query reads. *)
Lemma client_of_row (st : list StagedEvent) (c : option Z) :
  In c (map by_client st)
  <-> exists s : StagedEvent, In s st /\ client_id s = c.
Proof.
  rewrite in_map_iff. unfold by_client.
  split; intros (s & H1 & H2); exists s; auto.
Qed.

(** The first date of one event type of a client. *)
Lemma first_date_of_client (t : string) (c : option Z)
    (st : list StagedEvent) (d : Z) :
  first_date_when t (rows_of same_z by_client c st) = Some d
  <-> (exists s : StagedEvent,
          In s st /\ client_id s = c /\ event_type s = Some t
          /\ event_date s = Some d)
      /\ (forall (s : StagedEvent) (x : Z),
             In s st -> client_id s = c -> event_type s = Some t ->
             event_date s = Some x -> d <= x).
Proof.
  rewrite first_date_when_earliest. split.
  - intros [(s & Hs & Ht & Hd) Hle].
    apply client_rows_In in Hs as [Hs Hcs]. split; [eauto|].
    intros s' x Hs' Hc' Ht' Hx. apply (Hle s' x); auto.
    now apply client_rows_In.
  - intros [(s & Hs & Hcs & Ht & Hd) Hle]. split.
    + exists s. split; auto. now apply client_rows_In.
    + intros s' x Hs' Ht' Hx. apply client_rows_In in Hs' as [Hs' Hc'].
      now apply (Hle s' x).
Qed.

(** X12.  [analyze_signed_without_applied] reports every client once at
    most; a client is reported exactly when it has a signed event and no
    applied event; the finding has applied_count 0, a signed_count of one
    at least, and as relevant_date the earliest date of the signed events
    of the client. *)
Theorem signed_without_applied_report (st : list StagedEvent) :
  NoDup (map q2_client_id (analyze_signed_without_applied st))
  /\ (forall c : option Z,
        In c (map q2_client_id (analyze_signed_without_applied st))
        <-> (exists s : StagedEvent,
                In s st /\ client_id s = c /\ event_type s = Some "signed")
            /\ (forall s : StagedEvent,
                   In s st -> client_id s = c ->
                   event_type s <> Some "applied"))
  /\ (forall f,
        In f (analyze_signed_without_applied st) ->
        q2_applied_count f = 0
        /\ 1 <= q2_signed_count f
        /\ forall d : Z,
             q2_relevant_date f = Some d
             <-> (exists s : StagedEvent,
                     In s st /\ client_id s = q2_client_id f
                     /\ event_type s = Some "signed"
                     /\ event_date s = Some d)
                 /\ (forall (s : StagedEvent) (x : Z),
                        In s st -> client_id s = q2_client_id f ->
                        event_type s = Some "signed" ->
                        event_date s = Some x -> d <= x)).
Proof.
  assert (Hrow : forall f,
             In f (analyze_signed_without_applied st) <->
             exists c,
               In c (map by_client st)
               /\ (let g := rows_of same_z by_client c st in
                   f = mkQ2 c "Q2_signed_without_applied"
                         "Client signed without applying first"
                         (first_date_when "signed" g)
                         (count_when "applied" g) (count_when "signed" g)
                   /\ 0 < count_when "signed" g
                   /\ count_when "applied" g = 0)).
  { intro f. unfold analyze_signed_without_applied.
    cbn [rows read_sql_query]. rewrite in_map_iff. split.
    - intros ([[[c n_applied] n_signed] d] & <- & Hf).
      apply filter_In in Hf as [Hf Hwhere].
      apply in_map_iff in Hf as (g & [= <- <- <- <-] & Hg).
      apply client_group_In in Hg as [Hc Hrows].
      apply andb_true_iff in Hwhere as [Hpos Hzero].
      apply Z.gtb_lt in Hpos. apply Z.eqb_eq in Hzero.
      exists (fst g). rewrite <- Hrows. auto.
    - intros (c & Hc & -> & Hpos & Hzero).
      set (g := rows_of same_z by_client c st) in *.
      exists (c, count_when "applied" g, count_when "signed" g,
              first_date_when "signed" g).
      split; auto. apply filter_In. split.
      + apply in_map_iff. exists (c, g). split; auto.
        now apply client_group_In.
      + rewrite Hzero. simpl. rewrite andb_true_r. now apply Z.gtb_lt. }
  split; [apply q2_clients_NoDup|]. split.
  - intro c. rewrite in_map_iff. split.
    + intros (f & <- & Hf). apply Hrow in Hf as (c & Hc & -> & Hpos & Hzero).
      simpl. split.
      * apply count_when_pos in Hpos as (s & Hs & Ht).
        apply client_rows_In in Hs as [Hs Hcs]. eauto.
      * intros s Hs Hcs.
        apply (proj1 (count_when_zero _ _) Hzero).
        now apply client_rows_In.
    + intros [(s0 & Hs0 & Hc0 & Ht0) Hnone].
      eexists. split; [|apply Hrow; exists c; split; [|split; [reflexivity|]]].
      * reflexivity.
      * apply client_of_row. eauto.
      * split.
        -- apply count_when_pos. exists s0. split; auto.
           now apply client_rows_In.
        -- apply count_when_zero. intros s Hs.
           apply client_rows_In in Hs as [Hs Hcs]. now apply Hnone.
  - intros f Hf. apply Hrow in Hf as (c & Hc & -> & Hpos & Hzero).
    simpl. split; [exact Hzero|]. split; [lia|].
    intro d. apply first_date_of_client.
Qed.

(** julianday keeps the order of the dates. *)
Lemma days_since_antitone (now : Q) (a b : Z) :
  a <= b -> (now - julianday b <= now - julianday a)%Q.
Proof.
  intro H. unfold julianday.
  apply Qplus_le_r, Qopp_le_compat, Qplus_le_l.
  now rewrite <- Zle_Qle.
Qed.

Lemma gt_60_spec (days : option Q) :
  gt_60 days = true <-> exists d, days = Some d /\ (60 < d)%Q.
Proof.
  unfold gt_60. destruct days as [d|].
  - split.
    + intro H. exists d. split; auto.
      destruct (d ?= 60)%Q eqn:E; try discriminate.
      now apply Qgt_alt.
    + intros (d' & [= <-] & H). apply Qgt_alt in H. now rewrite H.
  - split; [discriminate|]. now intros (d & E & _).
Qed.

(** CAST(x AS INTEGER) of more than 60 days is 60 at least. *)
Lemma cast_integer_above_60 (x : Q) : (60 < x)%Q -> 60 <= cast_integer x.
Proof.
  unfold Qlt, cast_integer. simpl. intro H.
  apply Z.quot_le_lower_bound; lia.
Qed.

Lemma all_dates_In (g : list StagedEvent) (x : Z) :
  In (Some x) (all_dates g)
  <-> exists s : StagedEvent, In s g /\ event_date s = Some x.
Proof.
  unfold all_dates. rewrite in_map_iff.
  split; intros (s & H1 & H2); exists s; auto.
Qed.

(** X13.  [analyze_long_inactive_unsigned] reports every client once at
    most.  A reported client has no signed event; relevant_date is the
    date of its latest event, which lies more than 60 days before now;
    days_inactive is the whole number of days since, 60 at least.  A
    client without signed event whose latest event lies more than 60 days
    back is reported. *)
Theorem long_inactive_unsigned_report (now : Q) (st : list StagedEvent) :
  NoDup (map q6_client_id (analyze_long_inactive_unsigned now st))
  /\ (forall f,
        In f (analyze_long_inactive_unsigned now st) ->
        (forall s : StagedEvent,
            In s st -> client_id s = q6_client_id f ->
            event_type s <> Some "signed")
        /\ exists d : Z,
             q6_relevant_date f = Some d
             /\ (exists s : StagedEvent,
                    In s st /\ client_id s = q6_client_id f
                    /\ event_date s = Some d)
             /\ (forall (s : StagedEvent) (x : Z),
                    In s st -> client_id s = q6_client_id f ->
                    event_date s = Some x -> x <= d)
             /\ (60 < now - julianday d)%Q
             /\ q6_days_inactive f = Some (cast_integer (now - julianday d))
             /\ 60 <= cast_integer (now - julianday d))
  /\ (forall (c : option Z) (d : Z),
        (exists s : StagedEvent,
            In s st /\ client_id s = c /\ event_date s = Some d) ->
        (forall s : StagedEvent,
            In s st -> client_id s = c ->
            event_type s <> Some "signed"
            /\ forall x : Z, event_date s = Some x -> x <= d) ->
        (60 < now - julianday d)%Q ->
        In c (map q6_client_id (analyze_long_inactive_unsigned now st))).
Proof.
  split; [apply q6_clients_NoDup|]. split.
  - intros f Hf. unfold analyze_long_inactive_unsigned in Hf.
    cbn [rows read_sql_query] in Hf.
    apply in_map_iff in Hf as ([[[c last] n_signed] days] & <- & Hf).
    apply filter_In in Hf as [Hf Hwhere].
    apply in_map_iff in Hf as (g & [= <- <- <- <-] & Hg).
    apply client_group_In in Hg as [Hc Hrows].
    apply andb_true_iff in Hwhere as [Hzero Hlong].
    apply Z.eqb_eq in Hzero.
    apply gt_60_spec in Hlong as (days & Hdays & Hlong).
    cbn [q6_client_id q6_relevant_date q6_days_inactive].
    rewrite Hrows in *.
    set (rows_c := rows_of same_z by_client (fst g) st) in *.
    split.
    + intros s Hs Hcs. apply (proj1 (count_when_zero _ _) Hzero).
      now apply client_rows_In.
    + destruct (sql_max (all_dates rows_c)) as [d|] eqn:Emax;
        [|discriminate].
      simpl in Hdays. injection Hdays as <-. exists d.
      split; [reflexivity|]. split.
      { apply sql_max_In, all_dates_In in Emax as (s & Hs & Hd).
        apply client_rows_In in Hs as [Hs Hcs]. eauto. }
      split.
      { intros s x Hs Hcs Hx. apply (sql_max_ge _ _ _ Emax).
        apply all_dates_In. exists s. split; auto.
        now apply client_rows_In. }
      split; [exact Hlong|]. split; [reflexivity|].
      now apply cast_integer_above_60.
  - intros c d (s0 & Hs0 & Hc0 & Hd0) Hall Hlong.
    set (g := rows_of same_z by_client c st).
    assert (Emax : sql_max (all_dates g) = Some d).
    { apply sql_max_greatest.
      - apply all_dates_In. exists s0. split; auto.
        now apply client_rows_In.
      - intros x Hx. apply all_dates_In in Hx as (s & Hs & Hx).
        apply client_rows_In in Hs as [Hs Hcs].
        now apply (proj2 (Hall s Hs Hcs)). }
    assert (Hzero : count_when "signed" g = 0).
    { apply count_when_zero. intros s Hs.
      apply client_rows_In in Hs as [Hs Hcs].
      now apply (proj1 (Hall s Hs Hcs)). }
    unfold analyze_long_inactive_unsigned. cbn [rows read_sql_query].
    rewrite map_map. apply in_map_iff.
    exists (c, Some d, 0, Some (now - julianday d)%Q). split; auto.
    apply filter_In. split.
    + apply in_map_iff. exists (c, g). simpl. fold g.
      rewrite Emax, Hzero. split; auto.
      apply client_group_In. split; auto.
      apply client_of_row. eauto.
    + cbn [Z.eqb andb].
      apply (proj2 (gt_60_spec (Some (now - julianday d)%Q))). eauto.
Qed.

(** *** ORDER BY makes sorted tables *)

Ltac by_cases_on_keys :=
  repeat match goal with
         | |- context [Z.eqb ?x ?y] => destruct (Z.eqb_spec x y)
         | |- context [Z.leb ?x ?y] => destruct (Z.leb_spec x y)
         end;
  intros; subst; try discriminate; try reflexivity; try lia; auto.

Lemma le_z2_total (a b : option Z * option Z) :
  le_z2 a b = true \/ le_z2 b a = true.
Proof.
  destruct a as [[a1|] [a2|]], b as [[b1|] [b2|]]; unfold le_z2; simpl;
    auto; by_cases_on_keys;
    first [left; reflexivity | right; reflexivity | idtac].
Qed.

Lemma le_z2_trans (a b c : option Z * option Z) :
  le_z2 a b = true -> le_z2 b c = true -> le_z2 a c = true.
Proof.
  destruct a as [[a1|] [a2|]], b as [[b1|] [b2|]], c as [[c1|] [c2|]];
    unfold le_z2; simpl; auto; by_cases_on_keys.
Qed.

Lemma sorted_weaken {A} (rel rel' : A -> A -> Prop) (l : list A) :
  (forall a b, rel a b -> rel' a b) ->
  StronglySorted rel l -> StronglySorted rel' l.
Proof.
  intros Himp Hs. induction Hs as [|x l Hs IH Hx]; constructor; auto.
  rewrite Forall_forall in *. auto.
Qed.

(** Sorting on a key of the rows, by an order of the keys. *)
Lemma order_by_key_sorted {A B} (key : A -> B) (le : B -> B -> bool)
    (l : list A) :
  (forall a b, le a b = true \/ le b a = true) ->
  (forall a b c, le a b = true -> le b c = true -> le a c = true) ->
  StronglySorted (fun x y => le (key x) (key y) = true)
    (order_by (fun x y => le (key x) (key y)) l).
Proof.
  intros Htotal Htrans.
  apply (order_by_sorted (fun x y => le (key x) (key y))).
  - intros x y. apply Htotal.
  - intros x y z. apply Htrans.
Qed.

(** *** Unknown values *)

(** X14.  [analyze_unknown_values] reports every staged row that has an
    unknown value, once per row, in the order of client_id and
    event_date.  The description names the first reason that holds, in the
    order plan, sales rep, region, marketing channel, source system; the
    fallback text of the query is never written. *)
Theorem unknown_values_report (st : list StagedEvent) :
  let df := analyze_unknown_values st in
  length df
  = length (filter (fun s : StagedEvent => unknown_where s) st)
  /\ StronglySorted
       (fun a b => le_z2 (uv_client_id a, uv_event_date a)
                         (uv_client_id b, uv_event_date b) = true) df
  /\ (forall f,
        In f (rows df) ->
        let no_plan := uv_plan f <> Some "Unknown" in
        let no_rep := uv_sales_rep_id f <> Some (-1) in
        let no_region := null_or_empty (uv_region f) = false in
        let no_channel := null_or_empty (uv_marketing_channel f) = false in
        uv_description f <> "Other unknown value detected"
        /\ (uv_description f = "Plan field has Unknown value"
            <-> uv_plan f = Some "Unknown")
        /\ (uv_description f = "Sales rep ID is -1 (missing/unknown)"
            <-> no_plan /\ uv_sales_rep_id f = Some (-1))
        /\ (uv_description f = "Region field is missing"
            <-> no_plan /\ no_rep /\ null_or_empty (uv_region f) = true)
        /\ (uv_description f = "Marketing channel is missing"
            <-> no_plan /\ no_rep /\ no_region
                /\ null_or_empty (uv_marketing_channel f) = true)
        /\ (uv_description f = "Source system is missing"
            <-> no_plan /\ no_rep /\ no_region /\ no_channel
                /\ null_or_empty (uv_source_system f) = true)).
Proof.
  intro df. split; [|split].
  - unfold df, analyze_unknown_values. cbn [rows read_sql_query].
    now rewrite order_by_length, length_map.
  - unfold df, analyze_unknown_values. cbn [rows read_sql_query].
    apply (order_by_key_sorted
             (fun f => (uv_client_id f, uv_event_date f)) le_z2).
    + apply le_z2_total.
    + apply le_z2_trans.
  - intros f Hf. apply unknown_findings_In in Hf as (s & _ & Hw & ->).
    unfold unknown_where in Hw. cbv zeta.
    unfold unknown_finding, unknown_description; simpl.
    assert (Hplan : eq_str (plan s) "Unknown" = false
                    <-> plan s <> Some "Unknown").
    { rewrite <- eq_str_eq.
      destruct (eq_str (plan s) "Unknown"); split; congruence. }
    assert (Hrep : eq_z (sales_rep_id s) (Some (-1)) = false
                   <-> sales_rep_id s <> Some (-1)).
    { destruct (sales_rep_id s) as [z|]; simpl; [|split; congruence].
      destruct (Z.eqb_spec z (-1)); split; congruence. }
    destruct (eq_str (plan s) "Unknown") eqn:E1.
    { apply eq_str_eq in E1. rewrite E1.
      repeat split; try discriminate; auto; intros [H _]; congruence. }
    destruct (eq_z (sales_rep_id s) (Some (-1))) eqn:E2.
    { pose proof (proj1 Hplan eq_refl) as Hp.
      assert (sales_rep_id s = Some (-1)) as Hr.
      { destruct (sales_rep_id s) as [z|]; simpl in E2; [|discriminate].
        apply Z.eqb_eq in E2. now subst. }
      repeat split; try discriminate; auto; try contradiction;
        intros (_ & H & _); contradiction. }
    pose proof (proj1 Hplan eq_refl) as Hp.
    pose proof (proj1 Hrep eq_refl) as Hr.
    destruct (null_or_empty (region s)) eqn:E3.
    { repeat split; try discriminate; auto; try contradiction;
        try (intros [_ H]; contradiction);
        intros (_ & _ & H & _); discriminate. }
    destruct (null_or_empty (marketing_channel s)) eqn:E4.
    { repeat split; try discriminate; auto; try contradiction;
        try (intros [_ H]; contradiction);
        try (intros (_ & _ & H); discriminate);
        intros (_ & _ & _ & H & _); discriminate. }
    destruct (null_or_empty (source_system s)) eqn:E5.
    { repeat split; try discriminate; auto; try contradiction;
        try (intros [_ H]; contradiction);
        try (intros (_ & _ & H); discriminate);
        intros (_ & _ & _ & H); discriminate. }
    simpl in Hw. discriminate.
Qed.

(** *** The docs_submitted pattern *)

Lemma count_when_sign (t : string) (g : list StagedEvent) :
  (count_when t g >? 0) = negb (count_when t g =? 0).
Proof.
  pose proof (count_when_length t g) as H.
  destruct (Z.gtb_spec (count_when t g) 0), (Z.eqb_spec (count_when t g) 0);
    simpl; auto; lia.
Qed.

(** A client has an event of a type exactly when the count of the type in
    its group is positive. *)
Lemma client_has (t : string) (c : option Z) (st : list StagedEvent) :
  (count_when t (rows_of same_z by_client c st) >? 0) = true
  <-> exists s : StagedEvent,
        In s st /\ client_id s = c /\ event_type s = Some t.
Proof.
  rewrite Z.gtb_lt, count_when_pos. split.
  - intros (s & Hs & Ht). apply client_rows_In in Hs as [Hs Hc]. eauto.
  - intros (s & Hs & Hc & Ht). exists s. split; auto.
    now apply client_rows_In.
Qed.

Lemma docs_rows_In (st : list StagedEvent) (f : DocsPattern) :
  In f (analyze_docs_submitted_pattern st)
  <-> exists c,
        In c (map by_client st)
        /\ f = docs_row (c, rows_of same_z by_client c st)
        /\ (count_when "applied" (rows_of same_z by_client c st) >? 0)
           = true.
Proof.
  unfold analyze_docs_submitted_pattern. cbn [rows read_sql_query].
  rewrite order_by_In, filter_In, in_map_iff. split.
  - intros [(g & <- & Hg) Hpos]. apply client_group_In in Hg as [Hc Hrows].
    exists (fst g). split; auto. rewrite <- Hrows. split; auto.
  - intros (c & Hc & -> & Hpos). split; auto.
    exists (c, rows_of same_z by_client c st). split; auto.
    now apply client_group_In.
Qed.

Lemma docs_order_total (a b : Z * option Z) :
  (if fst a =? fst b then le_z (snd a) (snd b) else fst a <=? fst b) = true
  \/ (if fst b =? fst a then le_z (snd b) (snd a) else fst b <=? fst a)
     = true.
Proof.
  destruct a as [a1 [a2|]], b as [b1 [b2|]]; simpl; by_cases_on_keys;
    first [left; reflexivity | right; reflexivity | idtac].
Qed.

Lemma docs_order_trans (a b c : Z * option Z) :
  (if fst a =? fst b then le_z (snd a) (snd b) else fst a <=? fst b) = true ->
  (if fst b =? fst c then le_z (snd b) (snd c) else fst b <=? fst c) = true ->
  (if fst a =? fst c then le_z (snd a) (snd c) else fst a <=? fst c) = true.
Proof.
  destruct a as [a1 [a2|]], b as [b1 [b2|]], c as [c1 [c2|]]; simpl;
    by_cases_on_keys.
Qed.

(** X15.  [analyze_docs_submitted_pattern] reports exactly the clients with
    an applied event, each once.  The description tells which of four
    patterns the client shows: a docs_submitted event; a signed event
    without docs_submitted; neither docs_submitted, signed nor rejected;
    or a rejection without docs_submitted and signed, which gets the text
    of the ELSE branch.  The rows with a docs_submitted event come first,
    then those signed without one, then the others, each part by
    client_id. *)
Theorem docs_pattern_report (st : list StagedEvent) :
  let df := analyze_docs_submitted_pattern st in
  NoDup (map dp_client_id df)
  /\ (forall c : option Z,
        In c (map dp_client_id df)
        <-> exists s : StagedEvent,
              In s st /\ client_id s = c /\ event_type s = Some "applied")
  /\ (forall f,
        In f (rows df) ->
        let has t := exists s : StagedEvent,
                       In s st /\ client_id s = dp_client_id f
                       /\ event_type s = Some t in
        (dp_description f = "Has docs submission event"
         <-> has "docs_submitted")
        /\ (dp_description f = "Applied and signed without docs submission"
            <-> ~ has "docs_submitted" /\ has "signed")
        /\ (dp_description f
            = "Applied but no docs submission (still pending?)"
            <-> ~ has "docs_submitted" /\ ~ has "signed"
                /\ ~ has "rejected")
        /\ (dp_description f = "Other pattern"
            <-> ~ has "docs_submitted" /\ ~ has "signed"
                /\ has "rejected"))
  /\ StronglySorted
       (fun a b =>
          docs_order a < docs_order b
          \/ (docs_order a = docs_order b
              /\ le_z (dp_client_id a) (dp_client_id b) = true)) df.
Proof.
  intro df. split; [apply docs_clients_NoDup|]. split; [|split].
  - intro c. rewrite in_map_iff. split.
    + intros (f & <- & Hf). apply docs_rows_In in Hf as (c & Hc & -> & Hpos).
      simpl. now apply client_has.
    + intro Hhas. exists (docs_row (c, rows_of same_z by_client c st)).
      split; auto. apply docs_rows_In. exists c. split; [|split]; auto.
      * destruct Hhas as (s & Hs & Hc & _). apply client_of_row. eauto.
      * now apply client_has.
  - intros f Hf. apply docs_rows_In in Hf as (c & Hc & -> & Hpos).
    cbv zeta. unfold docs_row. cbn [fst snd dp_client_id dp_description].
    set (g := rows_of same_z by_client c st) in *.
    pose proof (client_has "docs_submitted" c st) as Hdocs.
    pose proof (client_has "signed" c st) as Hsigned.
    pose proof (client_has "rejected" c st) as Hrejected.
    fold g in Hdocs, Hsigned, Hrejected.
    unfold docs_description. rewrite Hpos.
    rewrite <- Hdocs, <- Hsigned, <- Hrejected.
    rewrite (count_when_sign "docs_submitted"), (count_when_sign "signed"),
      (count_when_sign "rejected").
    destruct (count_when "docs_submitted" g =? 0),
      (count_when "signed" g =? 0), (count_when "rejected" g =? 0);
      simpl; repeat split; try discriminate; auto;
      try (intros []; intuition congruence);
      try (intros (? & ? & ?); intuition congruence); intuition congruence.
  - unfold df, analyze_docs_submitted_pattern. cbn [rows read_sql_query].
    eapply sorted_weaken;
      [|apply (order_by_key_sorted
                 (fun r => (docs_order r, dp_client_id r))
                 (fun a b => if fst a =? fst b then le_z (snd a) (snd b)
                             else fst a <=? fst b));
        [apply docs_order_total | apply docs_order_trans]].
    intros a b. simpl.
    destruct (Z.eqb_spec (docs_order a) (docs_order b)); intro H.
    + right. auto.
    + left. apply Z.leb_le in H. lia.
Qed.

(** *** Plan inconsistencies *)

Lemma distinct_length {K} (same : K -> K -> bool) (l : list K) :
  (length (distinct same l) <= length l)%nat.
Proof.
  induction l as [|k l IH]; simpl; [lia|].
  pose proof (filter_length_le (fun k' => negb (same k k'))
                (distinct same l)). lia.
Qed.

Lemma non_null_length {A} (l : list (option A)) :
  (length (non_null l) <= length l)%nat.
Proof. induction l as [|[x|] l IH]; simpl; lia. Qed.

Lemma string_eqb_eq (a b : string) : String.eqb a b = true <-> a = b.
Proof. apply String.eqb_eq. Qed.

(** COUNT(DISTINCT col) > 1 means two different values. *)
Lemma two_distinct_values (l : list string) :
  (1 < length (distinct String.eqb l))%nat
  <-> exists a b, In a l /\ In b l /\ a <> b.
Proof.
  pose proof (distinct_NoDup String.eqb string_eqb_eq l) as Hnd.
  pose proof (distinct_In String.eqb string_eqb_eq l) as Hin.
  destruct (distinct String.eqb l) as [|x [|y d]]; simpl in *.
  - split; [lia|]. intros (a & _ & Ha & _). now apply Hin in Ha.
  - split; [lia|]. intros (a & b & Ha & Hb & Hab).
    apply Hin in Ha, Hb. destruct Ha as [<-|[]], Hb as [<-|[]].
    now destruct Hab.
  - split; [intros _|lia]. exists x, y. repeat split.
    + apply Hin. auto.
    + apply Hin. auto.
    + intros ->. apply NoDup_cons_iff in Hnd as [Hx _]. apply Hx. now left.
Qed.

Lemma plans_of_group (g : list StagedEvent) (p : string) :
  In p (non_null (map (fun s : StagedEvent => plan s) g))
  <-> exists s : StagedEvent, In s g /\ plan s = Some p.
Proof.
  rewrite non_null_In, in_map_iff.
  split; intros (s & H1 & H2); exists s; auto.
Qed.

Lemma plan_rows_In (st : list StagedEvent) (f : PlanInconsistency) :
  In f (analyze_plan_inconsistencies st)
  <-> exists c,
        In c (map by_client st)
        /\ f = plan_row (c, rows_of same_z by_client c st)
        /\ 1 < pi_unique_plans f.
Proof.
  unfold analyze_plan_inconsistencies. cbn [rows read_sql_query].
  rewrite order_by_In, filter_In, in_map_iff, Z.gtb_lt. split.
  - intros [(g & <- & Hg) Hpos]. apply client_group_In in Hg as [Hc Hrows].
    exists (fst g). split; auto. rewrite <- Hrows. split; auto.
  - intros (c & Hc & -> & Hpos). split; auto.
    exists (c, rows_of same_z by_client c st). split; auto.
    now apply client_group_In.
Qed.

Lemma plan_order_total (a b : Z * option Z) :
  (if fst a =? fst b then le_z (snd a) (snd b) else fst b <=? fst a) = true
  \/ (if fst b =? fst a then le_z (snd b) (snd a) else fst a <=? fst b)
     = true.
Proof.
  destruct a as [a1 [a2|]], b as [b1 [b2|]]; simpl; by_cases_on_keys;
    first [left; reflexivity | right; reflexivity | idtac].
Qed.

Lemma plan_order_trans (a b c : Z * option Z) :
  (if fst a =? fst b then le_z (snd a) (snd b) else fst b <=? fst a) = true ->
  (if fst b =? fst c then le_z (snd b) (snd c) else fst c <=? fst b) = true ->
  (if fst a =? fst c then le_z (snd a) (snd c) else fst c <=? fst a) = true.
Proof.
  destruct a as [a1 [a2|]], b as [b1 [b2|]], c as [c1 [c2|]]; simpl;
    by_cases_on_keys.
Qed.

(** X16.  [analyze_plan_inconsistencies] reports every client once at
    most, and exactly the clients with two events that carry different
    plans.  A finding counts two plans at least, lists them, and has its
    first event no later than its last.  The clients with more plans come
    first, clients with as many plans by client_id. *)
Theorem plan_inconsistencies_report (st : list StagedEvent) :
  let df := analyze_plan_inconsistencies st in
  NoDup (map pi_client_id df)
  /\ (forall c : option Z,
        In c (map pi_client_id df)
        <-> exists (s1 s2 : StagedEvent) (p1 p2 : string),
              In s1 st /\ In s2 st /\ client_id s1 = c /\ client_id s2 = c
              /\ plan s1 = Some p1 /\ plan s2 = Some p2 /\ p1 <> p2)
  /\ (forall f,
        In f (rows df) ->
        2 <= pi_unique_plans f
        /\ pi_all_plans f <> None
        /\ forall a b : Z,
             pi_first_event f = Some a -> pi_last_event f = Some b ->
             a <= b)
  /\ StronglySorted
       (fun a b =>
          pi_unique_plans b < pi_unique_plans a
          \/ (pi_unique_plans a = pi_unique_plans b
              /\ le_z (pi_client_id a) (pi_client_id b) = true)) df.
Proof.
  intro df. split; [apply plan_clients_NoDup|]. split; [|split].
  - intro c. rewrite in_map_iff. split.
    + intros (f & <- & Hf). apply plan_rows_In in Hf as (c & Hc & -> & Hn).
      simpl in *. unfold distinct_text in Hn.
      assert (Htwo : (1 < length
                            (distinct String.eqb
                               (non_null
                                  (map (fun s : StagedEvent => plan s)
                                     (rows_of same_z by_client c st)))))%nat)
        by lia.
      apply two_distinct_values in Htwo as (p1 & p2 & H1 & H2 & Hne).
      apply plans_of_group in H1 as (s1 & Hs1 & Hp1).
      apply plans_of_group in H2 as (s2 & Hs2 & Hp2).
      apply client_rows_In in Hs1 as [Hs1 Hc1].
      apply client_rows_In in Hs2 as [Hs2 Hc2].
      exists s1, s2, p1, p2. repeat split; auto.
    + intros (s1 & s2 & p1 & p2 & Hs1 & Hs2 & Hc1 & Hc2 & Hp1 & Hp2 & Hne).
      exists (plan_row (c, rows_of same_z by_client c st)). split; auto.
      apply plan_rows_In. exists c. split; [|split]; auto.
      * apply client_of_row. eauto.
      * simpl. unfold distinct_text.
        assert (Htwo : (1 < length
                              (distinct String.eqb
                                 (non_null
                                    (map (fun s : StagedEvent => plan s)
                                       (rows_of same_z by_client c st)))))%nat).
        { apply two_distinct_values. exists p1, p2. repeat split; auto.
          - apply plans_of_group. exists s1. split; auto.
            now apply client_rows_In.
          - apply plans_of_group. exists s2. split; auto.
            now apply client_rows_In. }
        lia.
  - intros f Hf. apply plan_rows_In in Hf as (c & Hc & -> & Hn).
    simpl in *. split; [lia|]. split.
    + destruct (distinct_text _); [simpl in Hn; lia | discriminate].
    + apply sql_min_le_max.
  - unfold df, analyze_plan_inconsistencies. cbn [rows read_sql_query].
    eapply sorted_weaken;
      [|apply (order_by_key_sorted
                 (fun r => (pi_unique_plans r, pi_client_id r))
                 (fun a b => if fst a =? fst b then le_z (snd a) (snd b)
                             else fst b <=? fst a));
        [apply plan_order_total | apply plan_order_trans]].
    intros a b. simpl.
    destruct (Z.eqb_spec (pi_unique_plans a) (pi_unique_plans b)); intro H.
    + right. auto.
    + left. apply Z.leb_le in H. lia.
Qed.

(** *** The event type distribution *)

Lemma sum_of_permutation (l l' : list Z) :
  Permutation l l' -> fold_right Z.add 0 l = fold_right Z.add 0 l'.
Proof. induction 1; simpl; lia. Qed.

Lemma distribution_rows_In (st : list StagedEvent)
    (r : EventTypeDistribution) :
  In r (analyze_event_type_distribution st)
  <-> exists t,
        In t (map (fun s : StagedEvent => event_type s) st)
        /\ r = distribution_row
                 (t, rows_of same_str (fun s : StagedEvent => event_type s)
                       t st).
Proof.
  unfold analyze_event_type_distribution. cbn [rows read_sql_query].
  rewrite order_by_In, in_map_iff. split.
  - intros (g & <- & Hg).
    apply (group_by_In same_str _ same_str_eq) in Hg as [Ht Hrows].
    exists (fst g). split; auto. now rewrite <- Hrows.
  - intros (t & Ht & ->). eexists. split; [reflexivity|].
    now apply (group_by_In same_str _ same_str_eq).
Qed.

(** X17.  [analyze_event_type_distribution] has one row for every event
    type of the staging table, a missing event type included; the
    event_count of a row is the number of staged rows of the type, so the
    counts add up to the number of staged rows; a row counts no more
    clients than events; the rows come by falling event_count. *)
Theorem event_distribution_report (st : list StagedEvent) :
  let df := analyze_event_type_distribution st in
  NoDup (map etd_event_type df)
  /\ (forall t : option string,
        In t (map etd_event_type df)
        <-> In t (map (fun s : StagedEvent => event_type s) st))
  /\ fold_right Z.add 0 (map etd_event_count df) = Z.of_nat (length st)
  /\ (forall r,
        In r (rows df) ->
        etd_event_count r
        = Z.of_nat (length (filter (fun s : StagedEvent =>
                                      same_str (event_type s)
                                        (etd_event_type r)) st))
        /\ 1 <= etd_event_count r
        /\ 0 <= etd_unique_clients r <= etd_event_count r
        /\ forall a b : Z,
             etd_earliest_date r = Some a -> etd_latest_date r = Some b ->
             a <= b)
  /\ StronglySorted
       (fun a b => etd_event_count b <= etd_event_count a) df.
Proof.
  intro df. split; [|split; [|split; [|split]]].
  - unfold df, analyze_event_type_distribution. cbn [rows read_sql_query].
    apply order_by_map_NoDup. rewrite map_map. simpl.
    apply (group_by_NoDup same_str _ same_str_eq).
  - intro t. rewrite in_map_iff. split.
    + intros (r & <- & Hr). apply distribution_rows_In in Hr as (t & Ht & ->).
      exact Ht.
    + intro Ht. eexists. split; [|apply distribution_rows_In; eauto].
      reflexivity.
  - unfold df, analyze_event_type_distribution. cbn [rows read_sql_query].
    rewrite (sum_of_permutation _ _
               (Permutation_map etd_event_count (order_by_perm _ _))).
    rewrite map_map. simpl.
    rewrite <- (length_flat_map_sum snd). f_equal.
    apply Permutation_length.
    apply (group_by_rows same_str _ same_str_eq).
  - intros r Hr. apply distribution_rows_In in Hr as (t & Ht & ->).
    simpl. split; [reflexivity|].
    fold (rows_of same_str (fun s : StagedEvent => event_type s) t st).
    set (g := rows_of same_str (fun s : StagedEvent => event_type s) t st).
    assert (Hpos : (0 < length g)%nat).
    { apply in_map_iff in Ht as (s & Ht & Hs).
      assert (In s g) as Hin
          by (apply (rows_of_In same_str _ same_str_eq); auto).
      destruct g; [destruct Hin | simpl; lia]. }
    split; [lia|]. split.
    + pose proof (distinct_length Z.eqb (non_null (map by_client g))).
      pose proof (non_null_length (map by_client g)).
      rewrite length_map in *. lia.
    + apply sql_min_le_max.
  - unfold df, analyze_event_type_distribution. cbn [rows read_sql_query].
    eapply sorted_weaken;
      [|apply (order_by_key_sorted etd_event_count
                 (fun x y => y <=? x))].
    + intros a b H. now apply Z.leb_le.
    + intros x y. destruct (Z.leb_spec y x); [now left|right].
      apply Z.leb_le. lia.
    + intros x y z. rewrite !Z.leb_le. lia.
Qed.

(** *** The columns of a sequence violation *)

(** X26.  The table of [analyze_event_sequence_violations] comes by
    client_id.  Every row has one of the four violation types with the
    description that belongs to it, never the text of the ELSE branch, and
    carries the earliest dates of the applied, signed, docs_submitted,
    rejected and churned events of its client. *)
Theorem sequence_violations_report (st : list StagedEvent) :
  let df := analyze_event_sequence_violations st in
  StronglySorted
    (fun a b => le_z (sv_client_id a) (sv_client_id b) = true) df
  /\ forall r,
       In r (rows df) ->
       let earliest t date :=
         forall d : Z,
           date = Some d
           <-> (exists s : StagedEvent,
                   In s st /\ client_id s = sv_client_id r
                   /\ event_type s = Some t /\ event_date s = Some d)
               /\ (forall (s : StagedEvent) (x : Z),
                      In s st -> client_id s = sv_client_id r ->
                      event_type s = Some t -> event_date s = Some x ->
                      d <= x) in
       In (sv_violation_type r, sv_description r)
          [(Some "signed_before_applied", "Client signed before applying");
           (Some "docs_submitted_before_applied",
            "Client submitted docs before applying");
           (Some "rejected_before_applied",
            "Client was rejected before applying");
           (Some "churned_before_signed", "Client churned before signing")]
       /\ earliest "applied" (sv_first_applied_date r)
       /\ earliest "signed" (sv_first_signed_date r)
       /\ earliest "docs_submitted" (sv_first_docs_date r)
       /\ earliest "rejected" (sv_first_rejected_date r)
       /\ earliest "churned" (sv_first_churned_date r).
Proof.
  intro df. split.
  - unfold df, analyze_event_sequence_violations. cbn [rows read_sql_query].
    apply (order_by_key_sorted sv_client_id le_z).
    + apply le_z_total.
    + apply le_z_trans.
  - intros r Hr. apply violation_rows_In in Hr as (c & Hc & -> & Hv).
    cbv zeta. unfold violation_row in *.
    cbn [fst snd sv_client_id sv_violation_type sv_description
           sv_first_applied_date sv_first_signed_date sv_first_docs_date
           sv_first_rejected_date sv_first_churned_date] in *.
    split.
    + unfold violation_type_of in *.
      destruct (lt_z _ _); [simpl; tauto|].
      destruct (lt_z _ _); [simpl; tauto|].
      destruct (lt_z _ _); [simpl; tauto|].
      destruct (_ && _); [simpl; tauto|]. now destruct Hv.
    + split; [|split; [|split; [|split]]]; intro d;
        apply first_date_of_client.
Qed.

End RuleCheckFacts.

(** ** The exports of the inconsistencies processor *)

Module ExportFacts.
Import Sql Staging Inconsistencies Pipeline SqlFacts AggregateFacts.
Import InconsistenciesFacts PartitionFacts RuleCheckFacts.

Lemma client_ids_str_returns (client_ids : list (option Z)) :
  ~ In None client_ids ->
  client_ids_str client_ids = Ok (non_null client_ids).
Proof.
  intro Hnone. unfold client_ids_str.
  destruct (existsb is_null client_ids) eqn:E; auto.
  apply existsb_exists in E as ([x|] & Hx & Hnull); [discriminate|].
  contradiction.
Qed.

Lemma client_ids_str_raises (client_ids : list (option Z)) :
  In None client_ids ->
  client_ids_str client_ids = Raise "no such column: nan".
Proof.
  intro Hnone. unfold client_ids_str.
  destruct (existsb is_null client_ids) eqn:E; auto.
  assert (existsb is_null client_ids = true) as E'
      by (apply existsb_exists; exists None; auto).
  congruence.
Qed.

(** The detail query of the multiple applications check is rejected
    exactly when the clients with several applied events include the one
    without client_id. *)
Lemma multiple_applications_returns (st : list StagedEvent) :
  (exists df, analyze_multiple_applications st = Ok df)
  <-> (length (applied_events None st) <= 1)%nat.
Proof.
  unfold analyze_multiple_applications.
  pose proof (multiple_apps_In st None) as Hma.
  destruct (multiple_apps st) as [|a l] eqn:E.
  - split; [intros _|eauto].
    destruct (le_lt_dec (length (applied_events None st)) 1) as [H|H]; auto.
    assert (In (None, Z.of_nat (length (applied_events None st))) [])
      as [] by (apply Hma; split; [reflexivity | lia]).
  - destruct (in_dec (fun a b : option Z =>
                        Bool.reflect_dec _ _
                          (iff_reflect _ _ (iff_sym (same_z_eq a b))))
                None (map fst (a :: l))) as [Hin|Hout].
    + rewrite (client_ids_str_raises _ Hin). split.
      * intros (df & Hdf). discriminate.
      * intro Hle. apply in_map_iff in Hin as ([c n] & Hc & Hin).
        simpl in Hc. subst c. apply Hma in Hin as [-> Hn]. lia.
    + rewrite (client_ids_str_returns _ Hout). split; [|eauto].
      intros _.
      destruct (le_lt_dec (length (applied_events None st)) 1) as [H|H];
        auto.
      destruct Hout. apply in_map_iff.
      exists (None, Z.of_nat (length (applied_events None st))).
      split; auto. apply Hma. split; auto. lia.
Qed.

Lemma summary_returns (now : Q) (st : list StagedEvent) :
  (exists df, create_inconsistencies_summary now st = Ok df)
  <-> (length (applied_events None st) <= 1)%nat.
Proof.
  rewrite <- multiple_applications_returns.
  unfold create_inconsistencies_summary.
  destruct (analyze_multiple_applications st) as [q1_results|message].
  - cbv zeta. split; [eauto|]. intros _.
    match goal with
    | |- exists df, match ?L with _ => _ end = _ => destruct L; eauto
    end.
  - split; intros (df & H); discriminate.
Qed.

Lemma q1_columns_of (st : list StagedEvent)
    (df : DataFrame MultipleApplications) :
  analyze_multiple_applications st = Ok df -> columns df = q1_columns.
Proof.
  unfold analyze_multiple_applications.
  destruct (multiple_apps st) as [|a l]; [now intros [= <-]|].
  destruct (client_ids_str _) as [ids|]; [|discriminate].
  now intros [= <-].
Qed.

Lemma q1_client_of_row (st : list StagedEvent)
    (df : DataFrame MultipleApplications) (r : MultipleApplications) :
  analyze_multiple_applications st = Ok df -> In r (rows df) ->
  In (q1_client_id r) (map by_client st).
Proof.
  unfold analyze_multiple_applications.
  destruct (multiple_apps st) as [|a l]; [now intros [= <-]|].
  destruct (client_ids_str _) as [ids|]; [|discriminate].
  intros [= <-]. cbn [rows read_sql_query]. rewrite in_map_iff.
  intros (g & <- & Hg). apply client_group_In in Hg as [Hc _]. simpl.
  apply in_map_iff in Hc as (s & Hc & Hs). apply filter_In in Hs as [Hs _].
  apply in_map_iff. eauto.
Qed.

(** Every finding is about a client of the staging table. *)
Lemma finding_clients (now : Q) (st : list StagedEvent)
    (df : DataFrame Finding) (f : Finding) :
  create_inconsistencies_summary now st = Ok df -> In f (rows df) ->
  In (finding_client_id f) (map by_client st).
Proof.
  intros Hdf Hf.
  destruct (summary_rows now st df Hdf) as (q1_results & Hq1 & Hrows).
  rewrite Hrows in Hf.
  repeat (apply in_app_or in Hf as [Hf|Hf]);
    apply in_map_iff in Hf as (r & <- & Hr); simpl.
  - unfold analyze_churned_without_signed in Hr.
    cbn [rows read_sql_query] in Hr.
    apply in_map_iff in Hr as ([[[c n] m] d] & <- & Hr).
    apply filter_In in Hr as [Hr _].
    apply in_map_iff in Hr as (g & [= <- <- <- <-] & Hg).
    now apply client_group_In in Hg as [Hc _].
  - unfold analyze_long_inactive_unsigned in Hr.
    cbn [rows read_sql_query] in Hr.
    apply in_map_iff in Hr as ([[[c n] m] d] & <- & Hr).
    apply filter_In in Hr as [Hr _].
    apply in_map_iff in Hr as (g & [= <- <- <- <-] & Hg).
    now apply client_group_In in Hg as [Hc _].
  - unfold analyze_signed_without_applied in Hr.
    cbn [rows read_sql_query] in Hr.
    apply in_map_iff in Hr as ([[[c n] m] d] & <- & Hr).
    apply filter_In in Hr as [Hr _].
    apply in_map_iff in Hr as (g & [= <- <- <- <-] & Hg).
    now apply client_group_In in Hg as [Hc _].
  - now apply (q1_client_of_row st q1_results).
  - apply unknown_findings_In in Hr as (s & Hs & _ & ->). simpl.
    apply in_map_iff. exists s. split; auto.
  - now apply violation_rows_In in Hr as (c & Hc & -> & _).
  - now apply docs_rows_In in Hr as (c & Hc & -> & _).
  - now apply plan_rows_In in Hr as (c & Hc & -> & _).
Qed.

Lemma by_client_and_date_sorted (l : list StagedEvent) :
  StronglySorted (fun a b => by_client_and_date a b = true)
    (order_by by_client_and_date l).
Proof.
  apply (order_by_key_sorted
           (fun s : StagedEvent => (client_id s, event_date s)) le_z2).
  - apply le_z2_total.
  - apply le_z2_trans.
Qed.

(** X18.  [get_client_event_details] raises exactly when the ids hold a
    missing one.  When it returns, its table holds the staged rows of the
    clients asked for, each as often as the staging table does, in the
    order of client_id and event_date; for no id at all the table has no
    column. *)
Theorem client_event_details_report (client_ids : list (option Z))
    (st : list StagedEvent) :
  ((exists message, get_client_event_details client_ids st = Raise message)
   <-> In None client_ids)
  /\ (forall df,
        get_client_event_details client_ids st = Ok df ->
        (forall s : StagedEvent,
            In s (rows df) <-> In s st /\ In (client_id s) client_ids)
        /\ Permutation (rows df)
             (filter (fun s : StagedEvent =>
                        existsb (same_z (client_id s)) client_ids) st)
        /\ StronglySorted (fun a b => by_client_and_date a b = true) df
        /\ (columns df = [] <-> client_ids = [])).
Proof.
  unfold get_client_event_details.
  destruct client_ids as [|i ids].
  { split.
    - split; [intros (m & H); discriminate | intros []].
    - intros df [= <-]. simpl. split; [|split; [|split]].
      + intro s. tauto.
      + rewrite (filter_none (fun _ => false)); auto.
      + constructor.
      + tauto. }
  set (client_ids := i :: ids).
  destruct (in_dec (fun a b : option Z =>
                      Bool.reflect_dec _ _
                        (iff_reflect _ _ (iff_sym (same_z_eq a b))))
              None client_ids) as [Hin|Hout].
  - rewrite (client_ids_str_raises _ Hin). split.
    + split; eauto.
    + intros df H. discriminate.
  - rewrite (client_ids_str_returns _ Hout). split.
    + split; [intros (m & H); discriminate | contradiction].
    + intros df [= <-]. cbn [rows columns read_sql_query].
      assert (Hsame : forall s : StagedEvent,
                 in_list (client_id s) (non_null client_ids)
                 = existsb (same_z (client_id s)) client_ids).
      { intro s. apply eq_true_iff_eq.
        rewrite in_list_spec, existsb_exists. split.
        - intros (z & E & Hz). apply non_null_In in Hz.
          exists (Some z). split; auto. now apply same_z_eq.
        - intros (c & Hc & E). apply same_z_eq in E.
          destruct c as [z|]; [|contradiction].
          exists z. split; auto. now apply non_null_In. }
      split; [|split; [|split]].
      * intro s. rewrite order_by_In, filter_In, Hsame, existsb_exists.
        split.
        -- intros [Hs (c & Hc & E)]. apply same_z_eq in E. now subst.
        -- intros [Hs Hc]. split; auto. exists (client_id s).
           split; auto. now apply same_z_eq.
      * rewrite order_by_perm. now rewrite (filter_ext _ _ Hsame).
      * apply by_client_and_date_sorted.
      * split; discriminate.
Qed.

Lemma details_rows (client_ids : list (option Z)) (st : list StagedEvent)
    (df : DataFrame StagedEvent) :
  get_client_event_details client_ids st = Ok df ->
  forall s : StagedEvent,
    In s (rows df) <-> In s st /\ In (client_id s) client_ids.
Proof.
  unfold get_client_event_details.
  destruct client_ids as [|i ids]; [intros [= <-] s; simpl; tauto|].
  remember (i :: ids) as asked eqn:Easked. clear Easked.
  unfold client_ids_str.
  destruct (existsb is_null asked) eqn:E; [discriminate|].
  intros [= <-] s. cbn [rows read_sql_query].
  rewrite order_by_In, filter_In, in_list_spec. split.
  - intros [Hs (z & Hz & Hin)]. apply non_null_In in Hin.
    rewrite Hz. auto.
  - intros [Hs Hin]. split; auto.
    destruct (client_id s) as [z|] eqn:Ec.
    + exists z. split; auto. now apply non_null_In.
    + assert (existsb is_null asked = true) as E'
          by (apply existsb_exists; exists None; auto).
      congruence.
Qed.

Lemma empty_spec {R} (df : DataFrame R) : empty df = true <-> rows df = [].
Proof. unfold empty. destruct (rows df); split; congruence. Qed.

Lemma unique_client_ids_In (df : list Finding) (c : option Z) :
  In c (unique_client_ids df) <-> In c (map finding_client_id df).
Proof. apply (distinct_In same_z same_z_eq). Qed.

Lemma distribution_empty (st : list StagedEvent) :
  empty (analyze_event_type_distribution st) = true <-> st = [].
Proof.
  rewrite empty_spec. split.
  - intro E. destruct st as [|s st]; auto.
    assert (In (distribution_row
                  (event_type s,
                   rows_of same_str (fun s : StagedEvent => event_type s)
                     (event_type s) (s :: st)))
               (analyze_event_type_distribution (s :: st))) as Hin.
    { apply distribution_rows_In. eexists. split; [|reflexivity].
      now left. }
    rewrite E in Hin. destruct Hin.
  - intros ->. reflexivity.
Qed.

(** X19.  When no staged row lacks its client_id,
    [process_inconsistencies_analysis] returns: it writes the findings of
    [create_inconsistencies_summary]; the client details, unless there is
    no finding, which are the staged rows of the clients with a finding;
    and the event distribution, unless the staging table has no row. *)
Theorem process_inconsistencies_analysis_returns (now : Q)
    (st : list StagedEvent) :
  (forall s : StagedEvent, In s st -> client_id s <> None) ->
  exists out,
    process_inconsistencies_analysis now st = Ok out
    /\ create_inconsistencies_summary now st = Ok (inconsistencies out)
    /\ (client_details out = None <-> rows (inconsistencies out) = [])
    /\ (forall details,
          client_details out = Some details ->
          forall s : StagedEvent,
            In s (rows details)
            <-> In s st
                /\ In (client_id s)
                      (map finding_client_id (inconsistencies out)))
    /\ (event_distribution out = None <-> st = []).
Proof.
  intro Hids.
  assert (Hq1 : (length (applied_events None st) <= 1)%nat).
  { unfold applied_events. rewrite (filter_none _ st); [simpl; lia|].
    intros s Hs. apply andb_false_iff. right.
    destruct (same_z (client_id s) None) eqn:E; auto.
    apply same_z_eq in E. now destruct (Hids s Hs). }
  apply (summary_returns now) in Hq1 as (df & Hdf).
  assert (Hnone : ~ In None (unique_client_ids df)).
  { rewrite unique_client_ids_In, in_map_iff. intros (f & Hc & Hf).
    apply (finding_clients now st df f Hdf) in Hf. rewrite Hc in Hf.
    apply client_of_row in Hf as (s & Hs & Hcs). now destruct (Hids s Hs). }
  unfold process_inconsistencies_analysis, export_client_details.
  rewrite Hdf.
  assert (Hdist : (if empty (analyze_event_type_distribution st) then None
                   else Some (analyze_event_type_distribution st)) = None
                  <-> st = []).
  { rewrite <- distribution_empty.
    destruct (empty (analyze_event_type_distribution st));
      split; congruence. }
  destruct (empty df) eqn:Eempty.
  - eexists. split; [reflexivity|]. simpl.
    split; auto. split; [|split; [|apply Hdist]].
    + split; auto. intros _. now apply empty_spec.
    + intros details H. discriminate.
  - destruct (get_client_event_details (unique_client_ids df) st)
      as [details|message] eqn:Edetails.
    + eexists. split; [reflexivity|]. simpl.
      split; auto. split; [|split; [|apply Hdist]].
      * split; [discriminate|]. intro E. apply empty_spec in E. congruence.
      * intros details' [= <-] s.
        rewrite (details_rows _ _ _ Edetails), unique_client_ids_In.
        tauto.
    + exfalso. unfold get_client_event_details in Edetails.
      destruct (unique_client_ids df) as [|i ids] eqn:Eids;
        [discriminate|].
      rewrite (client_ids_str_returns _ Hnone) in Edetails. discriminate.
Qed.

(** Clients 1001, 1009 and 1010 all carry their client_id. *)
Lemma process_inconsistencies_analysis_witness :
  exists out,
    process_inconsistencies_analysis Samples.february_2024
      (Samples.staged Samples.signed_without_applying) = Ok out
    /\ create_inconsistencies_summary Samples.february_2024
         (Samples.staged Samples.signed_without_applying)
       = Ok (inconsistencies out)
    /\ (client_details out = None <-> rows (inconsistencies out) = [])
    /\ (forall details,
          client_details out = Some details ->
          forall s : StagedEvent,
            In s (rows details)
            <-> In s (Samples.staged Samples.signed_without_applying)
                /\ In (client_id s)
                      (map finding_client_id (inconsistencies out)))
    /\ (event_distribution out = None
        <-> Samples.staged Samples.signed_without_applying = []).
Proof.
  apply (process_inconsistencies_analysis_returns Samples.february_2024
           (Samples.staged Samples.signed_without_applying)).
  intros s Hs. vm_compute in Hs.
  repeat (destruct Hs as [<-|Hs]; [discriminate|]). destruct Hs.
Defined.

(** X20.  One staged row without client_id that is an applied event, or
    that has an unknown value, makes [process_inconsistencies_analysis]
    raise: the finding about it has no client_id, and the ids spliced into
    the query of the client details then hold a missing one. *)
Theorem process_raises_on_anonymous_client (now : Q)
    (st : list StagedEvent) (s : StagedEvent) :
  In s st -> client_id s = None ->
  event_type s = Some "applied" \/ unknown_where s = true ->
  exists message, process_inconsistencies_analysis now st = Raise message.
Proof.
  intros Hs Hc Hcase. unfold process_inconsistencies_analysis.
  destruct (create_inconsistencies_summary now st) as [df|message] eqn:Hdf;
    [|eauto].
  assert (Hf : exists f, In f (rows df) /\ finding_client_id f = None).
  { destruct (summary_rows now st df Hdf) as (q1_results & _ & ->).
    destruct Hcase as [Happlied|Hunknown].
    - exists (OfDocs (docs_row (None, rows_of same_z by_client None st))).
      split; auto. rewrite !in_app_iff. do 6 right. left.
      apply in_map, docs_rows_In. exists None. split; [|split]; auto.
      + apply client_of_row. eauto.
      + apply client_has. eauto.
    - exists (OfUnknown (unknown_finding s)). split; auto.
      rewrite !in_app_iff. do 4 right. left.
      apply in_map, unknown_findings_In. eauto. }
  destruct Hf as (f & Hf & Hnone).
  unfold export_client_details.
  destruct (empty df) eqn:Eempty.
  { apply empty_spec in Eempty. rewrite Eempty in Hf. destruct Hf. }
  assert (Hin : In None (unique_client_ids df)).
  { apply unique_client_ids_In, in_map_iff. eauto. }
  unfold get_client_event_details.
  destruct (unique_client_ids df) as [|i ids] eqn:Eids; [destruct Hin|].
  rewrite (client_ids_str_raises _ Hin). eauto.
Qed.

(** One application without client_id. *)
Lemma process_raises_witness :
  exists message,
    process_inconsistencies_analysis Samples.february_2024
      (Samples.staged [Samples.anonymous 1 "applied" 2024 1 3])
    = Raise message.
Proof.
  eapply process_raises_on_anonymous_client.
  - cbv. left. reflexivity.
  - reflexivity.
  - left. reflexivity.
Defined.

(** X21.  A combined findings table with a row has the columns client_id,
    inconsistency_type and description, and no label twice. *)
Theorem summary_columns (now : Q) (st : list StagedEvent)
    (df : DataFrame Finding) :
  create_inconsistencies_summary now st = Ok df ->
  rows df <> [] ->
  In "client_id" (columns df)
  /\ In "inconsistency_type" (columns df)
  /\ In "description" (columns df)
  /\ NoDup (columns df).
Proof.
  unfold create_inconsistencies_summary.
  destruct (analyze_multiple_applications st) as [q1_results|] eqn:Hq1;
    [|discriminate].
  apply q1_columns_of in Hq1. cbv zeta.
  match goal with
  | |- match filter _ ?L with _ => _ end = _ -> _ => set (frames := L)
  end.
  assert (Hcols : forall frame,
             In frame frames ->
             In "client_id" (columns frame)
             /\ In "inconsistency_type" (columns frame)
             /\ In "description" (columns frame)).
  { intros frame Hin. unfold frames in Hin. simpl in Hin.
    repeat (destruct Hin as [<-|Hin];
            [cbn [as_findings columns read_sql_query
                    analyze_churned_without_signed
                    analyze_long_inactive_unsigned
                    analyze_signed_without_applied analyze_unknown_values
                    analyze_event_sequence_violations
                    analyze_docs_submitted_pattern
                    analyze_plan_inconsistencies];
             rewrite ?Hq1; simpl; tauto|]).
    destruct Hin. }
  destruct (filter (fun d => negb (empty d)) frames) as [|frame rest] eqn:E.
  - intros [= <-] Hrows. now destruct Hrows.
  - intros [= <-] _. unfold concat. cbn [columns].
    assert (Hframe : In frame frames).
    { assert (In frame (frame :: rest)) as H by now left.
      rewrite <- E in H. now apply filter_In in H. }
    destruct (Hcols frame Hframe) as (H1 & H2 & H3).
    repeat split;
      try (apply (distinct_In String.eqb string_eqb_eq); simpl;
           apply in_or_app; now left).
    apply (distinct_NoDup String.eqb string_eqb_eq).
Qed.

Lemma summary_columns_witness :
  exists df,
    create_inconsistencies_summary Samples.february_2024
      (Samples.staged Samples.missing_sales_rep) = Ok df
    /\ In "client_id" (columns df)
    /\ In "inconsistency_type" (columns df)
    /\ In "description" (columns df)
    /\ NoDup (columns df).
Proof.
  eexists. split; [vm_compute; reflexivity|].
  refine (summary_columns Samples.february_2024
            (Samples.staged Samples.missing_sales_rep) _ _ _).
  - vm_compute. reflexivity.
  - vm_compute. discriminate.
Defined.

End ExportFacts.

(** ** The computations of the dashboards *)

Module DashboardFacts.
Import Sql Staging Inconsistencies Pipeline Dashboards.
Import SqlFacts AggregateFacts InconsistenciesFacts PipelineFacts.

Lemma categorize_risk_cases (row : Churn.ChurnRecord) :
  In (categorize_risk row)
     ["Already Churned"; "High Risk"; "Medium Risk"; "Low Risk"; "Unknown"].
Proof.
  unfold categorize_risk.
  destruct (Churn.is_churned row =? 1); [simpl; tauto|].
  destruct (Churn.days_since_last_event row) as [days|]; [|simpl; tauto].
  destruct (Qle_bool days 30); [simpl; tauto|].
  destruct (Qle_bool days 60); simpl; tauto.
Qed.

Lemma risk_count_cons (category : string) (row : Churn.ChurnRecord)
    (churn_data : list Churn.ChurnRecord) :
  risk_count category (row :: churn_data)
  = (if String.eqb (categorize_risk row) category then 1 else 0)
    + risk_count category churn_data.
Proof.
  unfold risk_count. simpl.
  destruct (String.eqb (categorize_risk row) category); simpl length; lia.
Qed.

Lemma risk_count_zero (category : string)
    (churn_data : list Churn.ChurnRecord) :
  (forall row, In row churn_data -> categorize_risk row <> category) ->
  risk_count category churn_data = 0.
Proof.
  intro H. unfold risk_count.
  rewrite (filter_none _ churn_data); auto.
  intros row Hrow. apply String.eqb_neq. auto.
Qed.

(** X22.  The risk categories of [create_churn_summary_stats] split the
    clients: the five counts add up to the number of rows of the churn
    table; the churned count is the number of rows with is_churned = 1;
    clients at risk and churned clients together are no more than all
    clients; and no client is of unknown risk when every row has its
    days_since_last_event. *)
Theorem risk_counts_partition (churn_data : list Churn.ChurnRecord) :
  let stats := create_churn_summary_stats churn_data in
  total_clients stats
  = churned_count stats + high_risk_count stats + medium_risk_count stats
    + low_risk_count stats + unknown_risk_count stats
  /\ churned_count stats
     = Z.of_nat (length (filter (fun row => Churn.is_churned row =? 1)
                           churn_data))
  /\ 0 <= at_risk_count stats <= total_clients stats - churned_count stats
  /\ ((forall row,
          In row churn_data -> Churn.days_since_last_event row <> None) ->
      unknown_risk_count stats = 0).
Proof.
  cbv zeta. unfold create_churn_summary_stats.
  cbn [total_clients churned_count high_risk_count medium_risk_count
         low_risk_count unknown_risk_count at_risk_count].
  assert (Hsum : Z.of_nat (length churn_data)
                 = risk_count "Already Churned" churn_data
                   + risk_count "High Risk" churn_data
                   + risk_count "Medium Risk" churn_data
                   + risk_count "Low Risk" churn_data
                   + risk_count "Unknown" churn_data).
  { induction churn_data as [|row churn_data IH]; [reflexivity|].
    rewrite !risk_count_cons. cbn [length]. rewrite Nat2Z.inj_succ, IH.
    generalize (risk_count "Already Churned" churn_data),
      (risk_count "High Risk" churn_data),
      (risk_count "Medium Risk" churn_data),
      (risk_count "Low Risk" churn_data),
      (risk_count "Unknown" churn_data).
    intros n1 n2 n3 n4 n5.
    destruct (categorize_risk_cases row) as [<-|[<-|[<-|[<-|[<-|[]]]]]];
      vm_compute String.eqb; lia. }
  assert (Hpos : forall category, 0 <= risk_count category churn_data).
  { intro category. unfold risk_count. lia. }
  split; [exact Hsum|]. split; [|split].
  - unfold risk_count. f_equal. f_equal. apply filter_ext. intro row.
    unfold categorize_risk.
    destruct (Churn.is_churned row =? 1); [reflexivity|].
    destruct (Churn.days_since_last_event row) as [days|]; [|reflexivity].
    destruct (Qle_bool days 30); [reflexivity|].
    destruct (Qle_bool days 60); reflexivity.
  - pose proof (Hpos "High Risk"). pose proof (Hpos "Medium Risk").
    pose proof (Hpos "Low Risk"). pose proof (Hpos "Unknown"). lia.
  - intro Hdays. apply risk_count_zero. intros row Hrow.
    specialize (Hdays row Hrow). unfold categorize_risk.
    destruct (Churn.is_churned row =? 1); [discriminate|].
    destruct (Churn.days_since_last_event row) as [days|];
      [|contradiction].
    destruct (Qle_bool days 30); [discriminate|].
    destruct (Qle_bool days 60); discriminate.
Qed.

(** X23.  In the churn table of a staging table every row has its
    days_since_last_event, so that the churn dashboard puts no client of
    it under unknown risk. *)
Theorem staged_clients_have_known_risk (now : Q) (raw_events : list Event) :
  let churn_data :=
    Churn.create_churn_analysis now (create_staging_table raw_events) in
  (forall row,
      In row (rows churn_data) -> categorize_risk row <> "Unknown")
  /\ unknown_risk_count (create_churn_summary_stats churn_data) = 0.
Proof.
  cbv zeta.
  assert (Hknown : forall row,
             In row (rows (Churn.create_churn_analysis now
                             (create_staging_table raw_events))) ->
             categorize_risk row <> "Unknown").
  { intros row Hrow.
    destruct (churn_rows_of_staging now _ row Hrow)
      as (Hc & (Hlast & _) & _ & Hdays & _).
    apply staged_clients in Hc. apply in_map_iff in Hc as (e & Hce & He).
    apply filter_In in He as [He Hd].
    destruct (event_date e) as [d|] eqn:Ed; [|discriminate].
    assert (Hin : In (Some d) (raw_dates_of_client (Churn.client_id row)
                                 raw_events)).
    { unfold raw_dates_of_client. apply in_map_iff. exists e. split; auto.
      apply filter_In. split; auto. now apply same_z_eq. }
    apply staged_dates_of_client in Hin.
    unfold categorize_risk.
    destruct (Churn.is_churned row =? 1); [discriminate|].
    rewrite Hdays, Hlast.
    destruct (sql_max _) as [m|] eqn:Emax.
    - simpl. destruct (Qle_bool _ 30); [discriminate|].
      destruct (Qle_bool _ 60); discriminate.
    - rewrite sql_max_None in Emax. now destruct (Emax d). }
  split; [exact Hknown|].
  unfold create_churn_summary_stats. cbn [unknown_risk_count].
  now apply risk_count_zero.
Qed.

(** *** The findings and the mappings of the inconsistencies dashboard *)

Lemma finding_types (now : Q) (st : list StagedEvent)
    (df : DataFrame Finding) (f : Finding) :
  create_inconsistencies_summary now st = Ok df -> In f (rows df) ->
  In (finding_inconsistency_type f)
     ["Q3_churned_without_signed"; "Q6_long_inactive_unsigned";
      "Q2_signed_without_applied"; "Q1_multiple_applications";
      "unknown_values"; "sequence_violation"; "docs_submitted_analysis";
      "plan_inconsistency"].
Proof.
  intros Hdf Hf.
  destruct (summary_rows now st df Hdf) as (q1_results & Hq1 & Hrows).
  rewrite Hrows in Hf.
  repeat (apply in_app_or in Hf as [Hf|Hf]);
    apply in_map_iff in Hf as (r & <- & Hr); cbn [finding_inconsistency_type].
  - rewrite (q3_type st r Hr). simpl. tauto.
  - rewrite (q6_type now st r Hr). simpl. tauto.
  - rewrite (q2_type st r Hr). simpl. tauto.
  - rewrite (q1_type st q1_results r Hq1 Hr). simpl. tauto.
  - rewrite (unknown_type st r Hr). simpl. tauto.
  - rewrite (sequence_type st r Hr). simpl. tauto.
  - rewrite (docs_type st r Hr). simpl. tauto.
  - rewrite (plan_type st r Hr). simpl. tauto.
Qed.

(** X24.  The dictionaries of the inconsistencies dashboard have none of
    the inconsistency types that the checks write as their keys: for every
    finding of the combined table the severity is missing and the business
    question is the text for an unknown type.  The table of problematic
    events shows the findings of four checks only; those of the Q2, Q3, Q6
    and plan checks add no row to it. *)
Theorem dashboard_mappings_miss_the_findings (now : Q)
    (st : list StagedEvent) (df : DataFrame Finding) :
  create_inconsistencies_summary now st = Ok df ->
  forall f,
    In f (rows df) ->
    severity f = None
    /\ business_question (finding_inconsistency_type f)
       = "Unknown: " ++ finding_inconsistency_type f
    /\ (issue_type_shown f = None
        <-> In (finding_inconsistency_type f)
              ["Q3_churned_without_signed"; "Q6_long_inactive_unsigned";
               "Q2_signed_without_applied"; "plan_inconsistency"]).
Proof.
  intros Hdf f Hf. pose proof (finding_types now st df f Hdf Hf) as Htype.
  unfold severity, business_question, issue_type_shown.
  cbn [In] in Htype.
  destruct Htype as [<-|[<-|[<-|[<-|[<-|[<-|[<-|[<-|[]]]]]]]]];
    cbn; repeat split; auto; try discriminate;
    intros H; repeat (destruct H as [H|H]; try discriminate H); destruct H.
Qed.

(** The two findings about client 3001, which has no sales rep. *)
Lemma dashboard_mappings_witness :
  exists df,
    create_inconsistencies_summary Samples.february_2024
      (Samples.staged Samples.missing_sales_rep) = Ok df
    /\ rows df <> []
    /\ forall f,
         In f (rows df) ->
         severity f = None
         /\ business_question (finding_inconsistency_type f)
            = "Unknown: " ++ finding_inconsistency_type f
         /\ (issue_type_shown f = None
             <-> In (finding_inconsistency_type f)
                   ["Q3_churned_without_signed"; "Q6_long_inactive_unsigned";
                    "Q2_signed_without_applied"; "plan_inconsistency"]).
Proof.
  eexists. split; [vm_compute; reflexivity|].
  split; [vm_compute; discriminate|].
  refine (dashboard_mappings_miss_the_findings Samples.february_2024
            (Samples.staged Samples.missing_sales_rep) _ _).
  vm_compute. reflexivity.
Defined.

(** *** The journeys of the funnel dashboard *)

(** X25.  The journey that the funnel dashboard gives to a client of the
    funnel table, by the dated events of the client in the raw data: a
    rejection decides first, then a churned event, then a signed event,
    then a docs_submitted event, each whether or not the client has an
    applied event; the applied event only tells the two last journeys
    apart. *)
Theorem journey_of_funnel_row (raw_events : list Event)
    (row : Funnel.FunnelRecord) :
  In row (rows (Funnel.create_funnel_analysis
                  (create_staging_table raw_events))) ->
  let has t := exists e,
                 In e raw_events /\ client_id e = Funnel.client_id row
                 /\ event_type e = Some t /\ event_date e <> None in
  (journey_type row = "Rejected<br>(Applied → Rejected)" <-> has "rejected")
  /\ (journey_type row
      = "Full Journey with Docs<br>(Applied → Docs → Signed → Churned)"
      <-> ~ has "rejected" /\ has "churned" /\ has "docs_submitted")
  /\ (journey_type row = "Full Journey<br>(Applied → Signed → Churned)"
      <-> ~ has "rejected" /\ has "churned" /\ ~ has "docs_submitted")
  /\ (journey_type row = "Active with Docs<br>(Applied → Docs → Signed)"
      <-> ~ has "rejected" /\ ~ has "churned" /\ has "signed"
          /\ has "docs_submitted")
  /\ (journey_type row = "Active Client<br>(Applied → Signed)"
      <-> ~ has "rejected" /\ ~ has "churned" /\ has "signed"
          /\ ~ has "docs_submitted")
  /\ (journey_type row = "Docs Submitted<br>(Applied → Docs)"
      <-> ~ has "rejected" /\ ~ has "churned" /\ ~ has "signed"
          /\ has "docs_submitted")
  /\ (journey_type row = "Applied Only<br>(No Progress)"
      <-> ~ has "rejected" /\ ~ has "churned" /\ ~ has "signed"
          /\ ~ has "docs_submitted" /\ has "applied")
  /\ (journey_type row = "Other"
      <-> ~ has "rejected" /\ ~ has "churned" /\ ~ has "signed"
          /\ ~ has "docs_submitted" /\ ~ has "applied").
Proof.
  intro Hrow.
  destruct (funnel_dates_of_staging raw_events row Hrow)
    as (Ha & Hd & Hr & Hs & Hc).
  cbv zeta. unfold journey_type. rewrite Ha, Hd, Hr, Hs, Hc.
  rewrite <- !funnel_date_known.
  destruct (not_null (sql_min (raw_dates "rejected" _ _))),
    (not_null (sql_min (raw_dates "churned" _ _))),
    (not_null (sql_min (raw_dates "signed" _ _))),
    (not_null (sql_min (raw_dates "docs_submitted" _ _))),
    (not_null (sql_min (raw_dates "applied" _ _)));
    repeat split; try discriminate; auto; intuition congruence.
Qed.

(** Client 1009 signs without applying: the dashboard files it under the
    journey from application to signature. *)
Lemma journey_of_funnel_row_witness :
  exists row,
    In row (rows (Funnel.create_funnel_analysis
                    (create_staging_table Samples.signed_without_applying)))
    /\ Funnel.client_id row = Some 1009
    /\ (journey_type row = "Active Client<br>(Applied → Signed)"
        <-> ~ (exists e,
                  In e Samples.signed_without_applying
                  /\ client_id e = Funnel.client_id row
                  /\ event_type e = Some "rejected" /\ event_date e <> None)
            /\ ~ (exists e,
                     In e Samples.signed_without_applying
                     /\ client_id e = Funnel.client_id row
                     /\ event_type e = Some "churned"
                     /\ event_date e <> None)
            /\ (exists e,
                   In e Samples.signed_without_applying
                   /\ client_id e = Funnel.client_id row
                   /\ event_type e = Some "signed" /\ event_date e <> None)
            /\ ~ (exists e,
                     In e Samples.signed_without_applying
                     /\ client_id e = Funnel.client_id row
                     /\ event_type e = Some "docs_submitted"
                     /\ event_date e <> None)).
Proof.
  eexists.
  match goal with
  | |- ?A /\ _ => assert (Hrow : A) by (cbv; right; left; reflexivity)
  end.
  split; [exact Hrow|]. split; [reflexivity|].
  exact (proj1 (proj2 (proj2 (proj2 (proj2
           (journey_of_funnel_row _ _ Hrow)))))).
Defined.

End DashboardFacts.
